(** * Trade feed generator: profiles, fraud patterns, engine and statistics

    A shallow embedding of the Go feed generator
    (tools/feed-generator: packages profiles, patterns, config, generator)
    together with the properties its specification states about it.

    Modelling conventions.
    - [float64] is read as exact rational arithmetic ([Q]): rounding, NaN and
      infinities are outside the model.
    - The process-wide pseudo-random generator of [math/rand] is an explicit
      tape of cells threaded through every synthesis call by a small state
      monad ([rand.Gen]); each library call consumes one cell.
    - [time.Time] is a count of nanoseconds since January 1 of year 1 (UTC)
      displayed in a location; a location is its table of UTC offsets (the
      offset in force before the first change and the instants at which the
      offset changes), and the proleptic Gregorian calendar is computed from
      the day number of the wall clock.
    - [atomic.Int64] and [atomic.Uint64] counters are integers with their
      wrap-around written out.  The two goroutines of the engine (generation
      loop and reporter) are not modelled: only the generation loop writes.
    - Console output ([fmt.Printf]) is not modelled. *)

From Stdlib Require Import ZArith QArith Qabs Qround Lqa Lia Bool.
From stdpp Require Import gmap strings list fin_maps.

(* ===================================================================== *)
(** ** Package time (standard library, the part the generator uses)      *)
(* ===================================================================== *)

Module time.
Local Open Scope Z_scope.

(** [time.Duration]: nanoseconds. *)
Definition Duration : Type := Z.
Definition Nanosecond : Duration := 1.
Definition Second : Duration := 1000000000.
Definition Minute : Duration := 60 * Second.

(** A location ([time.Location]) is a zone table: [offset], in seconds east
    of UTC, is in force before the first change, and [transitions] lists,
    in increasing order of the instant (seconds since 0001-01-01 00:00:00
    UTC), the changes of offset as pairs (instant, offset from then on).
    The rule by which Go continues a table beyond its last entry is read as
    further entries of the table. *)
Record Location : Type := mkLocation { offset : Z; transitions : list (Z * Z) }.
Definition UTC : Location := mkLocation 0 [].

(** [Location.lookup]: the offset in force at the instant [sec] together
    with the bounds [start, end) of the period it is in force for ([None]:
    unbounded, Go's [alpha] and [omega]). *)
Fixpoint lookupIn (off : Z) (start : option Z) (tx : list (Z * Z)) (sec : Z)
    : Z * option Z * option Z :=
  match tx with
  | [] => (off, start, None)
  | (when, off') :: rest =>
      if sec <? when then (off, start, Some when)
      else lookupIn off' (Some when) rest sec
  end.
Definition lookup (l : Location) (sec : Z) : Z * option Z * option Z :=
  lookupIn (offset l) None (transitions l) sec.
Definition zoneOffset (l : Location) (sec : Z) : Z := fst (fst (lookup l sec)).

(** Every offset of the table, and the locations that keep one offset. *)
Definition offsets (l : Location) : list Z := offset l :: map snd (transitions l).
Definition fixedOffset (l : Location) : bool :=
  forallb (fun tr : Z * Z => snd tr =? offset l) (transitions l).

(** An instant: nanoseconds since 0001-01-01 00:00:00 UTC, displayed in
    [Loc]. The zero value of the Go type is [zero]. *)
Record Time : Type := mkTime { nsec : Z; Loc : Location }.
Definition zero : Time := mkTime 0 UTC.

Definition IsZero (t : Time) : bool := nsec t =? 0.
Definition After (t u : Time) : bool := nsec u <? nsec t.
Definition Add (t : Time) (d : Duration) : Time := mkTime (nsec t + d) (Loc t).
Definition Sub (t u : Time) : Duration := nsec t - nsec u.

(** Seconds on the wall clock of the location, and its split into a day
    number and a second of the day. *)
Definition localSec (t : Time) : Z :=
  let sec := nsec t / Second in sec + zoneOffset (Loc t) sec.
Definition dayNumber (t : Time) : Z := localSec t / 86400.
Definition secOfDay (t : Time) : Z := localSec t mod 86400.

(** Day number (0 = 0001-01-01) to (year, month, day) and back, in the
    proleptic Gregorian calendar; 306 days separate 0000-03-01, the start
    of the 400-year eras, from 0001-01-01. *)
Definition civil_from_days (z0 : Z) : Z * Z * Z :=
  let z := z0 + 306 in
  let era := z / 146097 in
  let doe := z - era * 146097 in
  let yoe := (doe - doe / 1460 + doe / 36524 - doe / 146096) / 365 in
  let y := yoe + era * 400 in
  let doy := doe - (365 * yoe + yoe / 4 - yoe / 100) in
  let mp := (5 * doy + 2) / 153 in
  let d := doy - (153 * mp + 2) / 5 + 1 in
  let m := if mp <? 10 then mp + 3 else mp - 9 in
  (if m <=? 2 then y + 1 else y, m, d).

Definition days_from_civil (y0 m d : Z) : Z :=
  let y := if m <=? 2 then y0 - 1 else y0 in
  let era := y / 400 in
  let yoe := y - era * 400 in
  let doy := (153 * (if 2 <? m then m - 3 else m + 9) + 2) / 5 + d - 1 in
  let doe := yoe * 365 + yoe / 4 - yoe / 100 + doy in
  era * 146097 + doe - 306.

Definition Year (t : Time) : Z := fst (fst (civil_from_days (dayNumber t))).
Definition Month (t : Time) : Z := snd (fst (civil_from_days (dayNumber t))).
Definition Day (t : Time) : Z := snd (civil_from_days (dayNumber t)).
Definition Hour (t : Time) : Z := secOfDay t / 3600.
Definition Minute_ (t : Time) : Z := (secOfDay t mod 3600) / 60.
Definition Second_ (t : Time) : Z := secOfDay t mod 60.
Definition Location_ (t : Time) : Location := Loc t.

(** [time.Date]: the month is normalised into 1..12 with carry into the
    year; day, hour, minute, second and nanosecond overflow by plain
    arithmetic.  The wall-clock reading is first taken as if it were UTC
    ([unix]); the offset in force at that instant is subtracted, unless the
    instant so obtained lies outside the period of that offset, in which
    case the offset in force at the obtained instant is subtracted instead.
    A wall-clock reading that a change of offset skips or repeats therefore
    yields an instant of one of the two zones of the change. *)
Definition outside (start end_ : option Z) (utc : Z) : bool :=
  match start with Some s => utc <? s | None => false end
  || match end_ with Some e => e <=? utc | None => false end.
Definition Date (year month day hour min sec ns : Z) (l : Location) : Time :=
  let y := year + (month - 1) / 12 in
  let m := (month - 1) mod 12 + 1 in
  let unix := days_from_civil y m day * 86400 + hour * 3600 + min * 60 + sec
              + ns / Second in
  let '(off, start, end_) := lookup l unix in
  let unix' :=
    if off =? 0 then unix
    else
      let utc := unix - off in
      unix - (if outside start end_ utc then zoneOffset l utc else off) in
  mkTime (unix' * Second + ns mod Second) l.
End time.

(* ===================================================================== *)
(** ** Package math/rand: the random source as an explicit tape          *)
(* ===================================================================== *)

Module rand.
(** One cell per library call: raw bits for the uniform draws and a
    standard-normal sample for [NormFloat64]. *)
Record Cell : Type := mkCell { bits : Z; gauss : Q }.
Record Rand : Type := mkRand { tape : nat -> Cell; cursor : nat }.

Definition Gen (A : Type) : Type := Rand -> A * Rand.
Definition ret {A} (a : A) : Gen A := fun r => (a, r).
Definition bind {A B} (m : Gen A) (k : A -> Gen B) : Gen B :=
  fun r => let (a, r') := m r in k a r'.
Definition next : Gen Cell :=
  fun r => (tape r (cursor r), mkRand (tape r) (S (cursor r))).

(** [rand.Float64]: Int63n(1<<53) / (1<<53), a value of [0,1). *)
Definition Float64 : Gen Q :=
  bind next (fun c => ret (inject_Z (bits c mod 2 ^ 53) / inject_Z (2 ^ 53))%Q).
(** [rand.Intn n]: a value of [0,n). Go panics for n <= 0; no call site of
    this program passes such an argument. *)
Definition Intn (n : Z) : Gen Z :=
  bind next (fun c => ret (bits c mod n)%Z).
(** [rand.NormFloat64]: a standard-normal sample. *)
Definition NormFloat64 : Gen Q :=
  bind next (fun c => ret (gauss c)).
End rand.

Notation "x <- m ;; k" := (rand.bind m (fun x => k))
  (at level 100, m at next level, right associativity).

(** [uuid.New]: 128 fresh random bits. *)
Module uuid.
Definition UUID : Type := Z.
Definition New : rand.Gen UUID :=
  c <- rand.next ;; rand.ret (rand.bits c mod 2 ^ 128)%Z.
End uuid.

(** Slice indexing [l[i]]; an index out of range panics in Go and is the
    empty string here. *)
Definition index (l : list string) (i : Z) : string := nth (Z.to_nat i) l ""%string.
Definition len {A} (l : list A) : Z := Z.of_nat (length l).

(** The comparison [x < y] of two floats. *)
Definition Qlt_bool (x y : Q) : bool := negb (Qle_bool y x).

(** Fixed-width integers: the value a 64-bit counter holds after an
    operation whose exact result is [x]. *)
Definition int64 (x : Z) : Z := ((x + 2 ^ 63) mod 2 ^ 64 - 2 ^ 63)%Z.
Definition uint64 (x : Z) : Z := (x mod 2 ^ 64)%Z.

(** The conversion [uint64(f)] of a float: the fraction is discarded (the
    result for a value outside the range of the type is left to the
    implementation by the language, and is the wrapped one here).  The
    argument is the exact value of the expression converted; the program
    converts that value rounded to float64 by each multiplication, which is
    within a relative 2^-52 of it and can therefore lie on the other side
    of an integer. *)
Definition uint64_of_float (f : Q) : Z := uint64 (Z.quot (Qnum f) (Z.pos (Qden f))).

(* ===================================================================== *)
(** ** Package profiles                                                  *)
(* ===================================================================== *)

Module profiles.
Local Open Scope string_scope.

Inductive TraderType : Type := HFTTrader | RegularTrader | CasualTrader | FraudTrader.
Inductive FraudType : Type := NoFraud | WashTrade | VelocitySpike | Anomaly | AllFraud.

Definition TraderType_eqb (a b : TraderType) : bool :=
  match a, b with
  | HFTTrader, HFTTrader | RegularTrader, RegularTrader
  | CasualTrader, CasualTrader | FraudTrader, FraudTrader => true
  | _, _ => false
  end.
Definition FraudType_eqb (a b : FraudType) : bool :=
  match a, b with
  | NoFraud, NoFraud | WashTrade, WashTrade | VelocitySpike, VelocitySpike
  | Anomaly, Anomaly | AllFraud, AllFraud => true
  | _, _ => false
  end.

(** The string behind each constant ([string(profile.Type)]). *)
Definition TraderType_string (t : TraderType) : string :=
  match t with
  | HFTTrader => "HFT" | RegularTrader => "REGULAR"
  | CasualTrader => "CASUAL" | FraudTrader => "FRAUD"
  end.
Definition FraudType_string (f : FraudType) : string :=
  match f with
  | NoFraud => "NONE" | WashTrade => "WASH" | VelocitySpike => "VELOCITY"
  | Anomaly => "ANOMALY" | AllFraud => "ALL"
  end.

Record TraderProfile : Type := mkProfile {
  UserID : string;
  Type_ : TraderType;
  TypicalSymbols : list string;
  AvgTradeSize : Q;
  Volatility : Q;
  ActiveHours : list Z;
  TradesPerHour : Z;
  FraudPattern : FraudType }.

Definition BlueChipSymbols : list string := ["AAPL"; "MSFT"; "GOOGL"; "AMZN"; "META"; "NVDA"; "TSLA"].
Definition PopularSymbols : list string := ["AAPL"; "TSLA"; "AMZN"; "NVDA"; "SPY"; "QQQ"].
Definition ETFSymbols : list string := ["SPY"; "QQQ"; "VTI"; "IWM"; "DIA"].
Definition PennyStocks : list string := ["PENNY_A"; "PENNY_B"; "PENNY_C"; "MICRO_X"; "MICRO_Y"].

Definition GetDefaultProfiles : list TraderProfile :=
  [ mkProfile "HFT_001" HFTTrader BlueChipSymbols 75000 0.2 [9; 10; 11; 12; 13; 14; 15]%Z 100 NoFraud;
    mkProfile "HFT_002" HFTTrader ["TSLA"; "NVDA"; "META"; "AMZN"] 100000 0.3
              [9; 10; 11; 12; 13; 14; 15; 16]%Z 150 NoFraud;
    mkProfile "HFT_003" HFTTrader BlueChipSymbols 50000 0.2 [9; 10; 11; 12; 13; 14; 15]%Z 80 NoFraud;
    mkProfile "USER_001" RegularTrader (take 4 PopularSymbols) 5000 0.5 [10; 14]%Z 2 NoFraud;
    mkProfile "USER_002" RegularTrader ["AAPL"; "MSFT"; "GOOGL"] 7500 0.4 [9; 12; 15]%Z 3 NoFraud;
    mkProfile "USER_003" RegularTrader PopularSymbols 4000 0.6 [11; 14]%Z 1 NoFraud;
    mkProfile "USER_004" RegularTrader ["TSLA"; "NVDA"; "AMD"] 6000 0.5 [10; 13]%Z 2 NoFraud;
    mkProfile "USER_005" RegularTrader (take 3 PopularSymbols) 5500 0.4 [9; 14]%Z 2 NoFraud;
    mkProfile "USER_006" RegularTrader (take 4 BlueChipSymbols) 8000 0.3 [10; 15]%Z 3 NoFraud;
    mkProfile "USER_007" RegularTrader PopularSymbols 4500 0.5 [11; 14]%Z 1 NoFraud;
    mkProfile "CASUAL_001" CasualTrader (take 2 ETFSymbols) 1000 0.3 [10]%Z 1 NoFraud;
    mkProfile "FRAUD_WASH_001" FraudTrader PennyStocks 10000 0.1 [9; 10; 11; 12; 13; 14; 15]%Z 20 WashTrade;
    mkProfile "FRAUD_VELOCITY_001" FraudTrader (take 3 PopularSymbols) 5000 0.2 [14]%Z 5 VelocitySpike;
    mkProfile "FRAUD_ANOMALY_001" FraudTrader (take 3 BlueChipSymbols) 3000 0.4 [10; 14]%Z 2 Anomaly ].

(** Element [i] of a slice of profiles; [None] stands for the panic of an
    index out of range. *)
Definition pick (l : list TraderProfile) (i : Z) : option TraderProfile := l !! Z.to_nat i.

Definition ofType (t : TraderType) (l : list TraderProfile) : list TraderProfile :=
  List.filter (fun p => TraderType_eqb (Type_ p) t) l.

(** [SelectProfile]: one draw decides the bucket, a second one the profile
    in it; an empty bucket falls back to the whole catalog. *)
Definition SelectProfile (profiles : list TraderProfile)
    (hftRatio regularRatio casualRatio : Q) : rand.Gen (option TraderProfile) :=
  r <- rand.Float64 ;;
  let hftProfiles := ofType HFTTrader profiles in
  let regularProfiles := ofType RegularTrader profiles in
  let casualProfiles := ofType CasualTrader profiles in
  let bucket :=
    if Qlt_bool r hftRatio then hftProfiles
    else if Qlt_bool r (hftRatio + regularRatio) then regularProfiles
    else casualProfiles in
  if (0 <? len bucket)%Z then
    i <- rand.Intn (len bucket) ;; rand.ret (pick bucket i)
  else if (0 <? len profiles)%Z then
    i <- rand.Intn (len profiles) ;; rand.ret (pick profiles i)
  else rand.ret None.

(** The filter of [SelectFraudProfile]. *)
Definition matchesFraud (fraudType : FraudType) (p : TraderProfile) : bool :=
  TraderType_eqb (Type_ p) FraudTrader
  && (FraudType_eqb fraudType AllFraud || FraudType_eqb (FraudPattern p) fraudType).

Definition SelectFraudProfile (profiles : list TraderProfile) (fraudType : FraudType)
    : rand.Gen (option TraderProfile) :=
  let fraudProfiles := List.filter (matchesFraud fraudType) profiles in
  if (0 <? len fraudProfiles)%Z then
    i <- rand.Intn (len fraudProfiles) ;; rand.ret (pick fraudProfiles i)
  else rand.ret None.

(** [IsActiveNow], with the clock it reads as an argument: the hour of
    the clock is one of the active hours. *)
Definition IsActiveNow (p : TraderProfile) (now : time.Time) : bool :=
  existsb (fun hour => (hour =? time.Hour now)%Z) (ActiveHours p).

(** The 20% exploration universe: the three lists one after the other. *)
Definition allSymbols : list string := (([] ++ BlueChipSymbols) ++ PopularSymbols) ++ ETFSymbols.

Definition GetRandomSymbol (p : TraderProfile) : rand.Gen string :=
  if (len (TypicalSymbols p) =? 0)%Z then rand.ret "AAPL"
  else
    u <- rand.Float64 ;;
    if Qlt_bool u 0.8 then
      i <- rand.Intn (len (TypicalSymbols p)) ;; rand.ret (index (TypicalSymbols p) i)
    else
      i <- rand.Intn (len allSymbols) ;; rand.ret (index allSymbols i).
End profiles.

(* ===================================================================== *)
(** ** Package models: the trade record, as the generator fills it       *)
(* ===================================================================== *)

Module models.
Inductive TradeType : Type := TradeTypeBuy | TradeTypeSell.

Record Trade : Type := mkTrade {
  ID : uuid.UUID;
  UserID : string;
  Symbol : string;
  Amount : Q;
  Price : Q;
  Type_ : TradeType;
  Timestamp : time.Time }.

(** The connection settings the Redis client is created from. *)
Record RedisConfig : Type := mkRedisConfig {
  Host : string; Port : Z; Password : string; DB : Z }.

Definition set_Amount (t : Trade) (a : Q) : Trade :=
  mkTrade (ID t) (UserID t) (Symbol t) a (Price t) (Type_ t) (Timestamp t).
Definition set_Price (t : Trade) (p : Q) : Trade :=
  mkTrade (ID t) (UserID t) (Symbol t) (Amount t) p (Type_ t) (Timestamp t).
Definition set_Symbol (t : Trade) (s : string) : Trade :=
  mkTrade (ID t) (UserID t) s (Amount t) (Price t) (Type_ t) (Timestamp t).
Definition set_Timestamp (t : Trade) (ts : time.Time) : Trade :=
  mkTrade (ID t) (UserID t) (Symbol t) (Amount t) (Price t) (Type_ t) ts.
End models.

(* ===================================================================== *)
(** ** Package patterns                                                  *)
(* ===================================================================== *)

Module patterns.
Import profiles models.
Local Open Scope string_scope.
Local Open Scope Q_scope.

Record PatternGenerator : Type := mkPatternGenerator { symbolPrices : gmap string Q }.

Definition priceTable : list (string * Q) :=
  [ ("AAPL", 175.50); ("MSFT", 378.25); ("GOOGL", 140.75); ("AMZN", 155.35);
    ("META", 362.80); ("NVDA", 495.20); ("TSLA", 242.80);
    ("AMD", 142.30); ("NFLX", 485.60); ("DIS", 95.40);
    ("SPY", 475.20); ("QQQ", 405.80); ("VTI", 245.30); ("IWM", 198.50); ("DIA", 382.40);
    ("PENNY_A", 2.50); ("PENNY_B", 1.80); ("PENNY_C", 3.20); ("MICRO_X", 0.85); ("MICRO_Y", 1.25) ].

Definition getSymbolPrices : gmap string Q := list_to_map priceTable.

Definition NewPatternGenerator : PatternGenerator := mkPatternGenerator getSymbolPrices.

(** The table entry of a symbol, 100 for a symbol it does not list. *)
Definition basePriceOf (pg : PatternGenerator) (symbol : string) : Q :=
  match symbolPrices pg !! symbol with
  | Some basePrice => basePrice
  | None => 100.0
  end.

Definition GetPrice (pg : PatternGenerator) (symbol : string) : rand.Gen Q :=
  let basePrice := basePriceOf pg symbol in
  u <- rand.Float64 ;;
  let variation := (u - 0.5) * 0.02 in
  rand.ret (basePrice * (1 + variation)).

(** The two clamping statements of [GenerateAmount]. *)
Definition clamp (minAmount maxAmount amount : Q) : Q :=
  let amount := if Qlt_bool amount minAmount then minAmount else amount in
  if Qlt_bool maxAmount amount then maxAmount else amount.

Definition GenerateAmount (pg : PatternGenerator) (profile : TraderProfile) : rand.Gen Q :=
  let mean := AvgTradeSize profile in
  let stdDev := mean * Volatility profile in
  z <- rand.NormFloat64 ;;
  let amount := mean + z * stdDev in
  let minAmount := mean * 0.1 in
  let maxAmount := mean * 3.0 in
  rand.ret (clamp minAmount maxAmount amount).

Definition RandomTradeType (pg : PatternGenerator) : rand.Gen TradeType :=
  u <- rand.Float64 ;;
  rand.ret (if Qlt_bool u 0.5 then TradeTypeBuy else TradeTypeSell).

Definition InjectWashTrade (pg : PatternGenerator) (profile : TraderProfile)
    (baseTime : time.Time) : rand.Gen (list Trade) :=
  symbol <- GetRandomSymbol profile ;;
  amount <- GenerateAmount pg profile ;;
  price <- GetPrice pg symbol ;;
  id0 <- uuid.New ;;
  id1 <- uuid.New ;;
  u <- rand.Float64 ;;
  k <- rand.Intn 4 ;;
  rand.ret
    [ mkTrade id0 (profiles.UserID profile) symbol amount price TradeTypeBuy baseTime;
      mkTrade id1 (profiles.UserID profile) symbol amount
              (price * (1 + (u - 0.5) * 0.001)) TradeTypeSell
              (time.Add baseTime ((1 + k) * time.Second)%Z) ].

(** The body of the burst loop, from index [i], for [n] more trades. *)
Fixpoint spikeLoop (pg : PatternGenerator) (profile : TraderProfile) (baseTime : time.Time)
    (symbol : string) (basePrice : Q) (n : nat) (i : Z) : rand.Gen (list Trade) :=
  match n with
  | O => rand.ret []
  | S n' =>
      amount <- GenerateAmount pg profile ;;
      u <- rand.Float64 ;;
      let price := basePrice * (1 + (u - 0.5) * 0.02) in
      id <- uuid.New ;;
      ty <- RandomTradeType pg ;;
      rest <- spikeLoop pg profile baseTime symbol basePrice n' (i + 1)%Z ;;
      rand.ret (mkTrade id (profiles.UserID profile) symbol amount price ty
                        (time.Add baseTime (i * time.Second)%Z) :: rest)
  end.

Definition InjectVelocitySpike (pg : PatternGenerator) (profile : TraderProfile)
    (baseTime : time.Time) : rand.Gen (list Trade) :=
  k <- rand.Intn 11 ;;
  let numTrades := (10 + k)%Z in
  symbol <- GetRandomSymbol profile ;;
  basePrice <- GetPrice pg symbol ;;
  spikeLoop pg profile baseTime symbol basePrice (Z.to_nat numTrades) 0%Z.

Definition InjectAnomaly (pg : PatternGenerator) (profile : TraderProfile)
    (baseTime : time.Time) : rand.Gen Trade :=
  anomalyType <- rand.Intn 4 ;;
  id <- uuid.New ;;
  symbol <- GetRandomSymbol profile ;;
  amount <- GenerateAmount pg profile ;;
  ty <- RandomTradeType pg ;;
  let trade := mkTrade id (profiles.UserID profile) symbol amount 0 ty baseTime in
  if (anomalyType =? 0)%Z then
    let trade := set_Amount trade (AvgTradeSize profile * 10) in
    price <- GetPrice pg (Symbol trade) ;;
    rand.ret (set_Price trade price)
  else if (anomalyType =? 1)%Z then
    h <- rand.Intn 4 ;;
    let nightHour := (2 + h)%Z in
    mi <- rand.Intn 60 ;;
    se <- rand.Intn 60 ;;
    let trade := set_Timestamp trade
      (time.Date (time.Year baseTime) (time.Month baseTime) (time.Day baseTime)
                 nightHour mi se 0 (time.Location_ baseTime)) in
    price <- GetPrice pg (Symbol trade) ;;
    rand.ret (set_Price trade price)
  else if (anomalyType =? 2)%Z then
    i <- rand.Intn (len PennyStocks) ;;
    let trade := set_Symbol trade (index PennyStocks i) in
    u <- rand.Float64 ;;
    rand.ret (set_Price trade (u * 5 + 0.5))
  else if (anomalyType =? 3)%Z then
    price <- GetPrice pg (Symbol trade) ;;
    u <- rand.Float64 ;;
    rand.ret (set_Price trade (price * (1 + (u - 0.5) * 0.5)))
  else rand.ret trade.
End patterns.

(* ===================================================================== *)
(** ** Package config                                                    *)
(* ===================================================================== *)

Module config.
Local Open Scope string_scope.

Record RedisConfig : Type := mkRedisConfig {
  Host : string; Port : Z; Password : string; DB : Z }.

Record GenerateConfig : Type := mkGenerateConfig {
  TPS : Z;
  Duration : time.Duration;
  FraudRate : Q;
  FraudType : string;
  Verbose : bool;
  StatsInterval : time.Duration }.

Record ProfilesConfig : Type := mkProfilesConfig {
  HFTRatio : Q; RegularRatio : Q; CasualRatio : Q }.

Record Config : Type := mkConfig {
  Redis : RedisConfig; Generate : GenerateConfig; Profiles : ProfilesConfig }.

(** What the settings store (viper: flags, environment, file) answers for
    each key that [LoadConfig] reads. *)
Record Viper : Type := mkViper {
  redis_host : string; redis_port : Z; redis_password : string; redis_db : Z;
  generate_tps : Z; generate_duration : time.Duration; generate_fraud_rate : Q;
  generate_fraud_type : string; generate_verbose : bool;
  generate_stats_interval : time.Duration;
  profiles_hft_ratio : Q; profiles_regular_ratio : Q; profiles_casual_ratio : Q }.

Inductive error : Type :=
| ErrTPS (tps : Z)
| ErrFraudRate (rate : Q)
| ErrRatioSum (sum : Q).

(** [Validate]: [None] is the nil error. The comparisons are those of the
    rationals; a float64 that is not a number, which every comparison of Go
    answers with false, is not a value of this development. *)
Definition Validate (c : Config) : option error :=
  if ((TPS (Generate c) <? 1) || (10000 <? TPS (Generate c)))%Z then
    Some (ErrTPS (TPS (Generate c)))
  else if Qlt_bool (FraudRate (Generate c)) 0 || Qlt_bool 1 (FraudRate (Generate c)) then
    Some (ErrFraudRate (FraudRate (Generate c)))
  else
    let sum := (HFTRatio (Profiles c) + RegularRatio (Profiles c) + CasualRatio (Profiles c))%Q in
    if Qlt_bool sum 0.99 || Qlt_bool 1.01 sum then Some (ErrRatioSum sum)
    else None.

Definition orZ (v d : Z) : Z := if (v =? 0)%Z then d else v.
Definition orQ (v d : Q) : Q := if Qeq_bool v 0 then d else v.

(** [LoadConfig]: read every key, replace the zero values by the defaults,
    validate. *)
Definition LoadConfig (v : Viper) : Config + error :=
  let cfg :=
    mkConfig
      (mkRedisConfig (redis_host v) (orZ (redis_port v) 6379) (redis_password v) (redis_db v))
      (mkGenerateConfig
         (orZ (generate_tps v) 100)
         (orZ (generate_duration v) (5 * time.Minute)%Z)
         (generate_fraud_rate v)
         (if String.eqb (generate_fraud_type v) "" then "ALL" else generate_fraud_type v)
         (generate_verbose v)
         (orZ (generate_stats_interval v) (10 * time.Second)%Z))
      (mkProfilesConfig
         (orQ (profiles_hft_ratio v) 0.20)
         (orQ (profiles_regular_ratio v) 0.70)
         (orQ (profiles_casual_ratio v) 0.10)) in
  match Validate cfg with
  | Some err => inr err
  | None => inl cfg
  end.

(** The values the command line binds when no flag is given
    (cmd: tps 100, duration 5m, fraud-rate 0.05, fraud-type ALL,
    stats-interval 10s, redis localhost:6379). *)
Definition flagDefaults : Viper :=
  mkViper "localhost" 6379 "" 0
          100 (5 * time.Minute)%Z 0.05 "ALL" false (10 * time.Second)%Z
          0 0 0.
End config.

(* ===================================================================== *)
(** ** Package generator                                                 *)
(* ===================================================================== *)

Module generator.
Import profiles models patterns.
Local Open Scope string_scope.

Record Statistics : Type := mkStatistics {
  TotalTrades : Z;
  FraudPatterns : Z;
  VolumeGenerated : Z;
  ByProfile : gmap string Z;
  BySymbol : gmap string Z;
  StartTime : time.Time }.

(** The errors the generation path returns; a publish error wraps the one
    of the sink. *)
Inductive error : Type :=
| ErrNoProfile
| ErrPublish (cause : string)
| ErrPublishFraud (cause : string).

(** [updateStats], on the statistics of the generator. *)
Definition updateStats (st : Statistics) (trade : Trade) (profile : TraderProfile)
    (isFraud : bool) : Statistics :=
  let total := int64 (TotalTrades st + 1) in
  let fraud := if isFraud then int64 (FraudPatterns st + 1) else FraudPatterns st in
  let volumeCents := uint64_of_float (Amount trade * Price trade * 100) in
  let volume := uint64 (VolumeGenerated st + volumeCents) in
  let profileType := TraderType_string (profiles.Type_ profile) in
  let byProfile :=
    match ByProfile st !! profileType with
    | Some counter => <[profileType := int64 (counter + 1)]> (ByProfile st)
    | None => ByProfile st
    end in
  let bySymbol :=
    match BySymbol st !! Symbol trade with
    | Some _ => BySymbol st
    | None => <[Symbol trade := 0%Z]> (BySymbol st)
    end in
  let bySymbol := alter (fun counter => int64 (counter + 1)) (Symbol trade) bySymbol in
  mkStatistics total fraud volume byProfile bySymbol (StartTime st).

(** The counter initialisation at the start of [Run]: a fresh zero counter
    under the type of every profile of the catalog. *)
Definition initCounters (catalog : list TraderProfile) (m : gmap string Z) : gmap string Z :=
  fold_left (fun m profile => <[TraderType_string (profiles.Type_ profile) := 0%Z]> m) catalog m.

(** The fraud-type filter named by the configuration string. *)
Definition parseFraudType (s : string) : FraudType :=
  if String.eqb s "WASH" then WashTrade
  else if String.eqb s "VELOCITY" then VelocitySpike
  else if String.eqb s "ANOMALY" then Anomaly
  else AllFraud.

Section Engine.
(** The sink (a Redis stream client): publishing a trade changes the client
    and succeeds ([None]) or fails with an error. *)
Variable RedisClient : Type.
Variable PublishTradeToStream : RedisClient -> Trade -> RedisClient * option string.

Record Generator : Type := mkGenerator {
  cfg : config.Config;
  redisClient : RedisClient;
  catalog : list TraderProfile;
  patternGenerator : PatternGenerator;
  stats : Statistics }.

Definition set_redisClient (g : Generator) (rc : RedisClient) : Generator :=
  mkGenerator (cfg g) rc (catalog g) (patternGenerator g) (stats g).
Definition set_stats (g : Generator) (st : Statistics) : Generator :=
  mkGenerator (cfg g) (redisClient g) (catalog g) (patternGenerator g) st.

Definition NewGenerator (c : config.Config) (rc : RedisClient) (now : time.Time) : Generator :=
  mkGenerator c rc GetDefaultProfiles NewPatternGenerator
              (mkStatistics 0 0 0 ∅ ∅ now).

Definition generateTrade (g : Generator) (profile : TraderProfile) (timestamp : time.Time)
    : rand.Gen Trade :=
  symbol <- GetRandomSymbol profile ;;
  amount <- GenerateAmount (patternGenerator g) profile ;;
  price <- GetPrice (patternGenerator g) symbol ;;
  id <- uuid.New ;;
  ty <- RandomTradeType (patternGenerator g) ;;
  rand.ret (mkTrade id (profiles.UserID profile) symbol amount price ty timestamp).

Definition generateNormalTrade (g : Generator) (now : time.Time)
    : rand.Gen (option error * Generator) :=
  sel <- SelectProfile (catalog g)
           (config.HFTRatio (config.Profiles (cfg g)))
           (config.RegularRatio (config.Profiles (cfg g)))
           (config.CasualRatio (config.Profiles (cfg g))) ;;
  match sel with
  | None => rand.ret (Some ErrNoProfile, g)
  | Some profile =>
      trade <- generateTrade g profile now ;;
      match PublishTradeToStream (redisClient g) trade with
      | (rc, Some err) => rand.ret (Some (ErrPublish err), set_redisClient g rc)
      | (rc, None) =>
          let g := set_redisClient g rc in
          rand.ret (None, set_stats g (updateStats (stats g) trade profile false))
      end
  end.

(** The publishing loop of [generateFraudPattern]: the first failure ends
    it, and the trades after it are neither published nor counted. *)
Fixpoint publishAll (g : Generator) (profile : TraderProfile) (trades : list Trade)
    : option error * Generator :=
  match trades with
  | [] => (None, g)
  | trade :: rest =>
      match PublishTradeToStream (redisClient g) trade with
      | (rc, Some err) => (Some (ErrPublishFraud err), set_redisClient g rc)
      | (rc, None) =>
          let g := set_redisClient g rc in
          publishAll (set_stats g (updateStats (stats g) trade profile true)) profile rest
      end
  end.

(** The trades of the pattern assigned to a fraud profile; [None] is the
    default case of the switch. *)
Definition patternTrades (g : Generator) (profile : TraderProfile) (baseTime : time.Time)
    : option (rand.Gen (list Trade)) :=
  match FraudPattern profile with
  | WashTrade => Some (InjectWashTrade (patternGenerator g) profile baseTime)
  | VelocitySpike => Some (InjectVelocitySpike (patternGenerator g) profile baseTime)
  | Anomaly =>
      Some (trade <- InjectAnomaly (patternGenerator g) profile baseTime ;; rand.ret [trade])
  | _ => None
  end.

Definition generateFraudPattern (g : Generator) (now : time.Time)
    : rand.Gen (option error * Generator) :=
  let fraudType := parseFraudType (config.FraudType (config.Generate (cfg g))) in
  sel <- SelectFraudProfile (catalog g) fraudType ;;
  match sel with
  | None => generateNormalTrade g now
  | Some profile =>
      match patternTrades g profile now with
      | Some pattern => trades <- pattern ;; rand.ret (publishAll g profile trades)
      | None => generateNormalTrade g now
      end
  end.

Definition generateAndPublish (g : Generator) (now : time.Time)
    : rand.Gen (option error * Generator) :=
  u <- rand.Float64 ;;
  if Qlt_bool u (config.FraudRate (config.Generate (cfg g)))
  then generateFraudPattern g now
  else generateNormalTrade g now.

(** What the generation loop of [Run] waits for: the cancellation of its
    context, or a tick of its ticker. A tick reads the clock twice: for the
    deadline check ([checked]) and for the timestamp of the trades
    ([stamped]). *)
Inductive Event : Type :=
| Done
| Tick (checked stamped : time.Time).

Inductive Exit : Type := Cancelled | DeadlinePassed.

(** [Run] returns (after the final statistics) with [Stopped]; after a
    finite prefix of events that does not end it, it is still [Running]. *)
Inductive Outcome : Type :=
| Stopped (why : Exit) (g : Generator)
| Running (g : Generator) (r : rand.Rand).

Fixpoint loop (deadline : time.Time) (events : list Event) (g : Generator) (r : rand.Rand)
    : Outcome :=
  match events with
  | [] => Running g r
  | Done :: _ => Stopped Cancelled g
  | Tick checked stamped :: rest =>
      if negb (time.IsZero deadline) && time.After checked deadline
      then Stopped DeadlinePassed g
      else
        let '(_, g', r') := generateAndPublish g stamped r in
        loop deadline rest g' r'
  end.

(** The deadline [Run] sets: the zero time unless a duration is given. *)
Definition deadlineOf (c : config.Config) (start : time.Time) : time.Time :=
  if (0 <? config.Duration (config.Generate c))%Z
  then time.Add start (config.Duration (config.Generate c))
  else time.zero.

Definition tickInterval (c : config.Config) : time.Duration :=
  Z.quot time.Second (config.TPS (config.Generate c)).

Definition Run (g : Generator) (start : time.Time) (events : list Event) (r : rand.Rand)
    : Outcome :=
  let st := stats g in
  let g := set_stats g (mkStatistics (TotalTrades st) (FraudPatterns st) (VolumeGenerated st)
                                     (initCounters (catalog g) (ByProfile st))
                                     (BySymbol st) (StartTime st)) in
  loop (deadlineOf (cfg g) start) events g r.
End Engine.
End generator.

(* ===================================================================== *)
(** ** Package main: the generate command                                *)
(* ===================================================================== *)

Module main.
Section Command.
Variable RedisClient : Type.
Variable PublishTradeToStream : RedisClient -> models.Trade -> RedisClient * option string.

(** [runGenerate] with a client that is connected and answers the ping:
    load the configuration, create the generator ([created] is the clock
    at that point), run it ([start] is the clock when [Run] sets its
    deadline). *)
Definition runGenerate (v : config.Viper) (rc : RedisClient) (created start : time.Time)
    (events : list generator.Event) (r : rand.Rand)
    : config.error + generator.Outcome RedisClient :=
  match config.LoadConfig v with
  | inr err => inl err
  | inl c =>
      inr (generator.Run RedisClient PublishTradeToStream
             (generator.NewGenerator RedisClient c rc created) start events r)
  end.
End Command.

(** The error [runGenerate] returns: the cause, wrapped by [fmt.Errorf]
    with the step that failed ("failed to load config", "failed to connect
    to Redis", "failed to ping Redis").  [Run] returns no error. *)
Inductive error : Type :=
| ErrLoadConfig (cause : config.error)
| ErrConnect (cause : string)
| ErrPing (cause : string).

Definition redisConfigOf (c : config.Config) : models.RedisConfig :=
  models.mkRedisConfig (config.Host (config.Redis c)) (config.Port (config.Redis c))
                       (config.Password (config.Redis c)) (config.DB (config.Redis c)).

Section GenerateCommand.
Variable RedisClient : Type.
(** [redis.NewRedisClient] and the [Ping] of the client it returns. *)
Variable NewRedisClient : models.RedisConfig -> RedisClient + string.
Variable Ping : RedisClient -> option string.
Variable PublishTradeToStream : RedisClient -> models.Trade -> RedisClient * option string.

(** [runGenerate], every step: load the configuration, connect, ping,
    create the generator and run it; the first step that fails ends the
    command with its error.  The deferred [Close] of the client is not
    modelled. *)
Definition runGenerateCommand (v : config.Viper) (created start : time.Time)
    (events : list generator.Event) (r : rand.Rand)
    : error + generator.Outcome RedisClient :=
  match config.LoadConfig v with
  | inr err => inl (ErrLoadConfig err)
  | inl c =>
      match NewRedisClient (redisConfigOf c) with
      | inr err => inl (ErrConnect err)
      | inl redisClient =>
          match Ping redisClient with
          | Some err => inl (ErrPing err)
          | None =>
              inr (generator.Run RedisClient PublishTradeToStream
                     (generator.NewGenerator RedisClient c redisClient created)
                     start events r)
          end
      end
  end.
End GenerateCommand.
End main.

(* ===================================================================== *)
(** ** Vocabulary of the statements, and sample inputs                   *)
(* ===================================================================== *)

(** Every run of a generator returns a value that satisfies [P]. *)
Definition post {A} (m : rand.Gen A) (P : A -> Prop) : Prop :=
  forall r, P (fst (m r)).

(** A tape read from a list of cells, and constant beyond it. *)
Definition tapeOf (cells : list rand.Cell) (rest : rand.Cell) : rand.Rand :=
  rand.mkRand (fun i => nth i cells rest) 0.

(** A tape whose every cell holds the same bits and normal sample. *)
Definition constTape (b : Z) (z : Q) : rand.Rand := tapeOf [] (rand.mkCell b z).

(** The catalog profile with the given user identity (the first profile of
    the catalog if there is none). *)
Definition profileOf (user : string) : profiles.TraderProfile :=
  match List.find (fun p => String.eqb (profiles.UserID p) user) profiles.GetDefaultProfiles with
  | Some p => p
  | None => profiles.mkProfile "" profiles.HFTTrader [] 0 0 [] 0 profiles.NoFraud
  end.

(** 2024-03-15 14:30:00 UTC. *)
Definition sampleTime : time.Time :=
  time.Date 2024 3 15 14 30 0 0 time.UTC.

(** The zone table of New York for 2024: standard time (UTC-5), and
    daylight time (UTC-4) from 2024-03-10 07:00:00 UTC until 2024-11-03
    06:00:00 UTC.  On March 10 the wall clock goes from 01:59:59 to
    03:00:00. *)
Definition newYork : time.Location :=
  time.mkLocation (-18000)
    [ ((time.nsec (time.Date 2024 3 10 7 0 0 0 time.UTC) / time.Second)%Z, (-14400)%Z);
      ((time.nsec (time.Date 2024 11 3 6 0 0 0 time.UTC) / time.Second)%Z, (-18000)%Z) ].

(** Noon of 2024-03-10 on the wall clock of New York (16:00:00 UTC). *)
Definition springForwardNoon : time.Time :=
  time.Date 2024 3 10 12 0 0 0 newYork.

(** No two offsets of the zone table are more than [b] seconds apart. *)
Definition offsetsWithin (b : Z) (l : time.Location) : bool :=
  forallb (fun o1 => forallb (fun o2 => (o2 - o1 <=? b)%Z) (time.offsets l))
          (time.offsets l).

Section Shapes.
Import profiles models patterns.
Local Open Scope Q_scope.

(** What each value of the variant draw makes of the trade. *)
Definition anomalyShape (p : TraderProfile) (baseTime : time.Time) (v : Z) (t : Trade) : Prop :=
  (v = 0%Z -> Amount t = AvgTradeSize p * 10 /\ Timestamp t = baseTime /\
              basePriceOf NewPatternGenerator (Symbol t) * 0.99 <= Price t /\
              Price t <= basePriceOf NewPatternGenerator (Symbol t) * 1.01) /\
  (v = 1%Z -> (exists h mi se : Z,
                (0 <= h < 4)%Z /\ (0 <= mi < 60)%Z /\ (0 <= se < 60)%Z /\
                Timestamp t = time.Date (time.Year baseTime) (time.Month baseTime)
                                        (time.Day baseTime) (2 + h) mi se 0
                                        (time.Location_ baseTime)) /\
              basePriceOf NewPatternGenerator (Symbol t) * 0.99 <= Price t /\
              Price t <= basePriceOf NewPatternGenerator (Symbol t) * 1.01) /\
  (v = 2%Z -> In (Symbol t) PennyStocks /\ Timestamp t = baseTime /\
              0.5 <= Price t /\ Price t < 5.5) /\
  (v = 3%Z -> Timestamp t = baseTime /\
              exists market : Q,
                basePriceOf NewPatternGenerator (Symbol t) * 0.99 <= market /\
                market <= basePriceOf NewPatternGenerator (Symbol t) * 1.01 /\
                market * 0.75 <= Price t /\ Price t <= market * 1.25).

Definition positiveTrade (t : Trade) : Prop := 0 < Amount t /\ 0 < Price t.
End Shapes.

(** The number of positions of [l] that hold [s]: among the [length l]
    equally likely values of an index draw, those that select [s]. *)
Definition indexWeight (l : list string) (s : string) : nat :=
  length (List.filter (fun i => String.eqb (index l (Z.of_nat i)) s) (seq 0 (length l))).

(** A tape that sends [GetRandomSymbol] to its exploration branch (the
    first draw is the largest value of [0,1)) and makes [i] its index. *)
Definition exploringTape (i : Z) : rand.Rand :=
  tapeOf [rand.mkCell (2 ^ 53 - 1) 0; rand.mkCell i 0] (rand.mkCell 0 0).

(** Among the 18 values of the index draw, those for which the exploration
    of a profile returns [s]. *)
Definition explorationOutcomes (p : profiles.TraderProfile) (s : string) : nat :=
  length (List.filter
            (fun i => String.eqb (fst (profiles.GetRandomSymbol p (exploringTape (Z.of_nat i)))) s)
            (seq 0 18)).

(** The sum of the counters of a counter map. *)
Definition sumCounters (m : gmap string Z) : Z :=
  map_fold (fun _ counter acc => (counter + acc)%Z) 0%Z m.

(** The statistics of a new generator once [Run] has set up the counters of
    the profile types of its catalog. *)
Definition initialStats (catalog : list profiles.TraderProfile) (now : time.Time)
    : generator.Statistics :=
  generator.mkStatistics 0 0 0 (generator.initCounters catalog ∅) ∅ now.

(** A sequence of calls of [updateStats], each with its trade, its profile
    and its fraud flag, in order. *)
Definition recordAll (st : generator.Statistics)
    (calls : list (models.Trade * profiles.TraderProfile * bool)) : generator.Statistics :=
  fold_left (fun st call => generator.updateStats st (fst (fst call)) (snd (fst call)) (snd call))
            calls st.

(** What the calls of [updateStats] keep true of the statistics. *)
Definition counted (keys : gmap string Z) (st : generator.Statistics) (n : Z) : Prop :=
  generator.TotalTrades st = n /\
  sumCounters (generator.ByProfile st) = n /\
  map_Forall (fun _ v => (0 <= v)%Z) (generator.ByProfile st) /\
  (forall k, is_Some (keys !! k) -> is_Some (generator.ByProfile st !! k)).

(** The configuration that the flag defaults load to. *)
Definition sampleConfig : config.Config :=
  config.mkConfig
    (config.mkRedisConfig "localhost" 6379 "" 0)
    (config.mkGenerateConfig 100 (5 * time.Minute)%Z 0.05 "ALL" false (10 * time.Second)%Z)
    (config.mkProfilesConfig 0.20 0.70 0.10).

(** A sink that keeps what is published, newest first, and never fails. *)
Definition logSink (log : list models.Trade) (t : models.Trade)
    : list models.Trade * option string := (t :: log, None).

(** A trade of a profile, of the given amount and price. *)
Definition sampleTrade (p : profiles.TraderProfile) (symbol : string) (amount price : Q)
    : models.Trade :=
  models.mkTrade 0%Z (profiles.UserID p) symbol amount price models.TradeTypeBuy sampleTime.

(** The settings of [generate --duration 0]: every other key at the
    default of its flag. *)
Definition durationZeroFlags : config.Viper :=
  config.mkViper "localhost" 6379 "" 0
                 100 0%Z 0.05 "ALL" false (10 * time.Second)%Z
                 0 0 0.

(** The loaded default configuration with its duration set to 0. *)
Definition unboundedConfig : config.Config :=
  config.mkConfig
    (config.Redis sampleConfig)
    (config.mkGenerateConfig 100 0%Z 0.05 "ALL" false (10 * time.Second)%Z)
    (config.Profiles sampleConfig).

(** The generator of an outcome. *)
Definition generatorOf {RedisClient : Type} (o : generator.Outcome RedisClient)
    : generator.Generator RedisClient :=
  match o with
  | generator.Stopped _ _ g => g
  | generator.Running _ g _ => g
  end.

(** The statistics of a generator agree with the log of its sink: [n]
    trades published, [n] counted in all and [n] over the categories of
    its catalog. *)
Definition inStep (cat : list profiles.TraderProfile)
    (g : generator.Generator (list models.Trade)) (n : Z) : Prop :=
  generator.catalog _ g = cat /\
  counted (generator.initCounters cat ∅) (generator.stats _ g) n /\
  len (generator.redisClient _ g) = n /\ (0 <= n)%Z.

(** The run ended because its deadline had passed. *)
Definition deadlineExit {RedisClient : Type} (o : generator.Outcome RedisClient) : bool :=
  match o with
  | generator.Stopped _ generator.DeadlinePassed _ => true
  | _ => false
  end.

(** What a trade shows of itself, with its amount and price in lowest
    terms and its timestamp as an offset from a reference time. *)
Definition summary (reference : time.Time) (t : models.Trade)
    : string * string * models.TradeType * Q * Q * Z :=
  (models.UserID t, models.Symbol t, models.Type_ t,
   Qred (models.Amount t), Qred (models.Price t),
   time.Sub (models.Timestamp t) reference).

(** A sink that refuses the trades [fails] selects and keeps the others,
    newest first. *)
Definition flakySink (fails : models.Trade -> bool) (log : list models.Trade)
    (t : models.Trade) : list models.Trade * option string :=
  if fails t then (log, Some "unavailable"%string) else (t :: log, None).

(** Among recorded calls: those of a symbol, those flagged as fraud, those
    of a profile type. *)
Definition symbolCount (s : string)
    (calls : list (models.Trade * profiles.TraderProfile * bool)) : Z :=
  len (List.filter (fun call => String.eqb (models.Symbol (fst (fst call))) s) calls).

Definition fraudCount (calls : list (models.Trade * profiles.TraderProfile * bool)) : Z :=
  len (List.filter (fun call => snd call) calls).

Definition typeCount (ty : profiles.TraderType)
    (calls : list (models.Trade * profiles.TraderProfile * bool)) : Z :=
  len (List.filter (fun call => profiles.TraderType_eqb (profiles.Type_ (snd (fst call))) ty)
                   calls).

(** A catalog holds a profile of the type. *)
Definition hasType (ty : profiles.TraderType) (cat : list profiles.TraderProfile) : bool :=
  existsb (fun p => profiles.TraderType_eqb (profiles.Type_ p) ty) cat.

(** The notional of recorded calls in cents, without any rounding. *)
Definition exactCents (calls : list (models.Trade * profiles.TraderProfile * bool)) : Q :=
  fold_right (fun call acc =>
                (models.Amount (fst (fst call)) * models.Price (fst (fst call)) * 100 + acc)%Q)
             0%Q calls.

(** The type the draw [u] of [SelectProfile] selects under the ratios. *)
Definition bucketType (hftRatio regularRatio u : Q) : profiles.TraderType :=
  if Qlt_bool u hftRatio then profiles.HFTTrader
  else if Qlt_bool u (hftRatio + regularRatio) then profiles.RegularTrader
  else profiles.CasualTrader.

(** Settings with the given ratios, every other key at its flag default. *)
Definition ratioFlags (hft regular casual : Q) : config.Viper :=
  config.mkViper "localhost" 6379 "" 0
                 100 (5 * time.Minute)%Z 0.05 "ALL" false (10 * time.Second)%Z
                 hft regular casual.

(** The loaded default configuration with another fraud rate and filter. *)
Definition fraudConfig (rate : Q) (filter : string) : config.Config :=
  config.mkConfig
    (config.Redis sampleConfig)
    (config.mkGenerateConfig 100 (5 * time.Minute)%Z rate filter false (10 * time.Second)%Z)
    (config.Profiles sampleConfig).

(** The events are ticks, each checked no later than the deadline. *)
Definition onTime (deadline : time.Time) (events : list (generator.Event)) : bool :=
  forallb (fun e => match e with
                    | generator.Done => false
                    | generator.Tick checked _ => negb (time.After checked deadline)
                    end) events.

(** The parts of a generator that no operation of the engine writes:
    configuration, catalog and price table. *)
Definition sameSetup {RedisClient : Type} (g g' : generator.Generator RedisClient) : Prop :=
  generator.cfg _ g' = generator.cfg _ g /\
  generator.catalog _ g' = generator.catalog _ g /\
  generator.patternGenerator _ g' = generator.patternGenerator _ g.

(* ===================================================================== *)
(** * Properties                                                         *)
(* ===================================================================== *)

(** ** The model at work *)

Section Runs.
Import profiles models patterns generator.

Example sampleTime_fields :
  (time.Year sampleTime, time.Month sampleTime, time.Day sampleTime,
   time.Hour sampleTime, time.Minute_ sampleTime, time.Second_ sampleTime)
  = (2024, 3, 15, 14, 30, 0)%Z.
Proof. vm_compute. reflexivity. Qed.

(** A reading the wall clock skips: 02:30 of 2024-03-10 in New York is the
    instant 06:30 UTC, shown as 01:30; a reading after the change is taken
    with the offset of daylight time. *)
Example Date_skipped_reading :
  let d := time.Date 2024 3 10 2 30 0 0 newYork in
  time.nsec d = time.nsec (time.Date 2024 3 10 6 30 0 0 time.UTC) /\
  time.Hour d = 1%Z /\ time.Minute_ d = 30%Z /\ time.Day d = 10%Z.
Proof. vm_compute. repeat split. Qed.

Example springForwardNoon_fields :
  time.nsec springForwardNoon = time.nsec (time.Date 2024 3 10 16 0 0 0 time.UTC) /\
  time.Year springForwardNoon = 2024%Z /\ time.Month springForwardNoon = 3%Z /\
  time.Day springForwardNoon = 10%Z /\ time.Hour springForwardNoon = 12%Z.
Proof. vm_compute. repeat split. Qed.

Example Date_normalises_month :
  time.Date 2023 15 15 14 30 0 0 time.UTC = sampleTime.
Proof. vm_compute. reflexivity. Qed.

Example LoadConfig_flag_defaults : config.LoadConfig config.flagDefaults = inl sampleConfig.
Proof. reflexivity. Qed.

Example LoadConfig_rejects_rate :
  config.LoadConfig
    (config.mkViper "localhost" 6379 "" 0 100 (5 * time.Minute)%Z 2 "ALL" false
                    (10 * time.Second)%Z 0 0 0)
  = inr (config.ErrFraudRate 2).
Proof. reflexivity. Qed.

Example GetRandomSymbol_no_typical_symbol :
  fst (GetRandomSymbol (mkProfile "X" RegularTrader [] 100 0.5 [] 1 NoFraud) (constTape 9 0))
  = "AAPL"%string.
Proof. reflexivity. Qed.

Example GenerateAmount_clamps_low :
  Qred (fst (GenerateAmount NewPatternGenerator (profileOf "HFT_002") (constTape 7 (-40))))
  = 10000%Q.
Proof. vm_compute. reflexivity. Qed.

Example GenerateAmount_clamps_high :
  Qred (fst (GenerateAmount NewPatternGenerator (profileOf "HFT_002") (constTape 7 40)))
  = 300000%Q.
Proof. vm_compute. reflexivity. Qed.

Example wash_pair_run :
  map (summary sampleTime)
      (fst (InjectWashTrade NewPatternGenerator (profileOf "FRAUD_WASH_001") sampleTime
                            (constTape 2 1)))
  = [ ("FRAUD_WASH_001", "PENNY_C", TradeTypeBuy, 11000,
       222928181554839553 # 70368744177664000, 0%Z);
      ("FRAUD_WASH_001", "PENNY_C", TradeTypeSell, 11000,
       1003477285743067311866672253300113409 # 316912650057057350374175801344000000,
       3000000000%Z) ]%Q%string.
Proof. vm_compute. reflexivity. Qed.

Example velocity_burst_run :
  length (fst (InjectVelocitySpike NewPatternGenerator (profileOf "FRAUD_VELOCITY_001")
                                   sampleTime (constTape 7 0)))
  = 17%nat.
Proof. vm_compute. reflexivity. Qed.

Example night_anomaly_run :
  let t := fst (InjectAnomaly NewPatternGenerator (profileOf "FRAUD_ANOMALY_001")
                              sampleTime (constTape 1 0)) in
  (time.Day (Timestamp t), time.Hour (Timestamp t), time.Minute_ (Timestamp t)) = (15, 3, 1)%Z.
Proof. vm_compute. reflexivity. Qed.

(** Three ticks without fraud: three trades published, three counted, none
    as fraud. *)
Example three_normal_ticks :
  let c := config.mkConfig (config.Redis sampleConfig)
             (config.mkGenerateConfig 100 (5 * time.Minute)%Z 0 "ALL" false (10 * time.Second)%Z)
             (config.Profiles sampleConfig) in
  match Run (list Trade) logSink (NewGenerator (list Trade) c [] sampleTime) sampleTime
            [Tick sampleTime sampleTime; Tick sampleTime sampleTime; Tick sampleTime sampleTime]
            (constTape 5 0) with
  | Running _ g _ =>
      (length (redisClient _ g), TotalTrades (stats _ g), FraudPatterns (stats _ g),
       sumCounters (ByProfile (stats _ g)))
  | Stopped _ _ _ => (0%nat, 0, 0, 0)%Z
  end = (3%nat, 3, 0, 3)%Z.
Proof. vm_compute. reflexivity. Qed.

(** One tick with a fraud rate of 1 and the wash filter: two trades
    published, both counted as fraud. *)
Example one_wash_tick :
  let c := config.mkConfig (config.Redis sampleConfig)
             (config.mkGenerateConfig 100 (5 * time.Minute)%Z 1 "WASH" false (10 * time.Second)%Z)
             (config.Profiles sampleConfig) in
  match Run (list Trade) logSink (NewGenerator (list Trade) c [] sampleTime) sampleTime
            [Tick sampleTime sampleTime] (constTape 5 0) with
  | Running _ g _ =>
      (map Type_ (redisClient _ g), TotalTrades (stats _ g), FraudPatterns (stats _ g),
       ByProfile (stats _ g) !! "FRAUD"%string)
  | Stopped _ _ _ => ([], 0, 0, None)%Z
  end = ([TradeTypeSell; TradeTypeBuy], 2, 2, Some 2)%Z.
Proof. vm_compute. reflexivity. Qed.

(** A cancellation ends the run, whatever follows. *)
Example cancellation_stops :
  match Run (list Trade) logSink (NewGenerator (list Trade) sampleConfig [] sampleTime) sampleTime
            [Done; Tick sampleTime sampleTime] (constTape 5 0) with
  | Stopped _ Cancelled g => TotalTrades (stats _ g)
  | _ => (-1)%Z
  end = 0%Z.
Proof. vm_compute. reflexivity. Qed.
End Runs.

(** ** The random source *)

Lemma post_ret {A} (a : A) (P : A -> Prop) : P a -> post (rand.ret a) P.
Proof. intros H r. exact H. Qed.

Lemma post_bind {A B} (m : rand.Gen A) (k : A -> rand.Gen B) (P : A -> Prop) (Q : B -> Prop) :
  post m P -> (forall a, P a -> post (k a) Q) -> post (rand.bind m k) Q.
Proof.
  intros Hm Hk r. unfold rand.bind.
  specialize (Hm r). destruct (m r) as [a r']. simpl in Hm.
  exact (Hk a Hm r').
Qed.

Lemma bind_run {A B} (m : rand.Gen A) (k : A -> rand.Gen B) (r : rand.Rand) :
  rand.bind m k r = k (fst (m r)) (snd (m r)).
Proof. unfold rand.bind. destruct (m r). reflexivity. Qed.

Lemma post_weaken {A} (m : rand.Gen A) (P Q : A -> Prop) :
  post m P -> (forall a, P a -> Q a) -> post m Q.
Proof. intros Hm HPQ r. apply HPQ, Hm. Qed.

Lemma post_true {A} (m : rand.Gen A) : post m (fun _ => True).
Proof. intros r. exact I. Qed.

(** Proof steps along a generator: [draw x] passes a draw about which
    nothing is needed, [draw with H as x Hx] one whose result [x] satisfies
    the postcondition [H]. *)
Tactic Notation "draw" ident(x) :=
  eapply post_bind; [apply post_true|]; intros x _.
Tactic Notation "draw" "with" constr(H) "as" simple_intropattern(x) simple_intropattern(Hx) :=
  eapply post_bind; [apply H|]; intros x Hx.

Lemma unit_fraction (b : Z) :
  (0 <= inject_Z (b mod 2 ^ 53) / inject_Z (2 ^ 53) /\
   inject_Z (b mod 2 ^ 53) / inject_Z (2 ^ 53) < 1)%Q.
Proof.
  assert (Hb : (0 <= b mod 2 ^ 53 < 2 ^ 53)%Z) by (apply Z.mod_pos_bound; lia).
  assert (Hd : (0 < inject_Z (2 ^ 53))%Q) by (change 0%Q with (inject_Z 0); rewrite <- Zlt_Qlt; lia).
  split.
  - apply Qle_shift_div_l; [exact Hd|]. rewrite Qmult_0_l.
    change 0%Q with (inject_Z 0). rewrite <- Zle_Qle. lia.
  - apply Qlt_shift_div_r; [exact Hd|]. rewrite Qmult_1_l.
    rewrite <- Zlt_Qlt. lia.
Qed.

Lemma Float64_range : post rand.Float64 (fun u => 0 <= u /\ u < 1)%Q.
Proof. intros r. apply unit_fraction. Qed.

Lemma Intn_range (n : Z) : (0 < n)%Z -> post (rand.Intn n) (fun i => 0 <= i < n)%Z.
Proof. intros Hn r. simpl. apply Z.mod_pos_bound. exact Hn. Qed.

Lemma Qlt_bool_iff (x y : Q) : Qlt_bool x y = true <-> (x < y)%Q.
Proof.
  unfold Qlt_bool. rewrite negb_true_iff. split.
  - intros H. apply Qnot_le_lt. intros Hle. apply Qle_bool_iff in Hle. congruence.
  - intros H. destruct (Qle_bool y x) eqn:E; [|reflexivity].
    apply Qle_bool_iff in E. exfalso. exact (Qlt_not_le _ _ H E).
Qed.

Lemma Qlt_bool_false (x y : Q) : Qlt_bool x y = false <-> (y <= x)%Q.
Proof.
  unfold Qlt_bool. rewrite negb_false_iff. apply Qle_bool_iff.
Qed.

(** ** The amount and price model *)

Section AmountPrice.
Import profiles models patterns.
Local Open Scope Q_scope.

Lemma clamp_bounds (lo hi x : Q) : lo <= hi -> lo <= clamp lo hi x /\ clamp lo hi x <= hi.
Proof.
  intros Hle. unfold clamp.
  destruct (Qlt_bool x lo) eqn:E1.
  - destruct (Qlt_bool hi lo) eqn:E2.
    + apply Qlt_bool_iff in E2. lra.
    + lra.
  - apply Qlt_bool_false in E1.
    destruct (Qlt_bool hi x) eqn:E2.
    + lra.
    + apply Qlt_bool_false in E2. lra.
Qed.

Lemma GenerateAmount_post (pg : PatternGenerator) (p : TraderProfile) :
  0 < AvgTradeSize p ->
  post (GenerateAmount pg p)
       (fun amount => AvgTradeSize p * 0.1 <= amount /\ amount <= AvgTradeSize p * 3.0).
Proof.
  intros Hpos. unfold GenerateAmount.
  draw z.
  apply post_ret. apply clamp_bounds. lra.
Qed.

Lemma table_positive (s : string) (v : Q) : getSymbolPrices !! s = Some v -> 0 < v.
Proof.
  unfold getSymbolPrices. intros H. apply elem_of_list_to_map_2 in H.
  unfold priceTable in H.
  repeat (apply elem_of_cons in H as [H|H]; [inversion H; subst; reflexivity|]).
  inversion H.
Qed.

Lemma basePrice_positive (s : string) : 0 < basePriceOf NewPatternGenerator s.
Proof.
  unfold basePriceOf. simpl.
  destruct (getSymbolPrices !! s) as [v|] eqn:E.
  - exact (table_positive s v E).
  - reflexivity.
Qed.

(** A factor [1 + (u - 0.5) * w] with [u] in [0,1). *)
Lemma jitter_bounds (b u w : Q) :
  0 < b -> 0 <= w -> 0 <= u -> u < 1 ->
  b * (1 - w * 0.5) <= b * (1 + (u - 0.5) * w) /\ b * (1 + (u - 0.5) * w) <= b * (1 + w * 0.5).
Proof.
  intros Hb Hw H0 H1.
  assert (Hlo : 1 - w * 0.5 <= 1 + (u - 0.5) * w).
  { assert (0 <= u * w) by (apply Qmult_le_0_compat; assumption). lra. }
  assert (Hhi : 1 + (u - 0.5) * w <= 1 + w * 0.5).
  { assert (0 <= (1 - u) * w) by (apply Qmult_le_0_compat; lra). lra. }
  split; apply Qmult_le_l; assumption.
Qed.

Lemma GetPrice_post (pg : PatternGenerator) (s : string) :
  0 < basePriceOf pg s ->
  post (GetPrice pg s)
       (fun price => basePriceOf pg s * 0.99 <= price /\ price <= basePriceOf pg s * 1.01).
Proof.
  intros Hb. unfold GetPrice.
  draw with Float64_range as u [H0 H1].
  apply post_ret.
  destruct (jitter_bounds (basePriceOf pg s) u 0.02 Hb) as [Hlo Hhi]; try lra.
Qed.

Lemma GetPrice_positive (s : string) :
  post (GetPrice NewPatternGenerator s) (fun price => 0 < price).
Proof.
  eapply post_weaken; [apply GetPrice_post, basePrice_positive|].
  intros price [Hlo _]. pose proof (basePrice_positive s). lra.
Qed.
End AmountPrice.

Section AmountClaims.
Import profiles models patterns.
Local Open Scope Q_scope.

(** C6. For every profile with a positive average trade size, whatever its
    volatility and whatever the random draw, [GenerateAmount] returns a
    value of the closed interval [0.1 * AvgTradeSize, 3.0 * AvgTradeSize]. *)
Theorem GenerateAmount_within_bounds (pg : PatternGenerator) (p : TraderProfile)
    (r : rand.Rand) :
  0 < AvgTradeSize p ->
  0.1 * AvgTradeSize p <= fst (GenerateAmount pg p r) /\
  fst (GenerateAmount pg p r) <= 3.0 * AvgTradeSize p.
Proof.
  intros Hpos. destruct (GenerateAmount_post pg p Hpos r) as [Hlo Hhi].
  split; lra.
Qed.

Lemma GenerateAmount_within_bounds_witness :
  0 < AvgTradeSize (profileOf "HFT_002") /\
  0.1 * AvgTradeSize (profileOf "HFT_002")
    <= fst (GenerateAmount NewPatternGenerator (profileOf "HFT_002") (constTape 7 (-40))) /\
  fst (GenerateAmount NewPatternGenerator (profileOf "HFT_002") (constTape 7 (-40)))
    <= 3.0 * AvgTradeSize (profileOf "HFT_002").
Proof.
  split; [reflexivity|].
  apply (GenerateAmount_within_bounds NewPatternGenerator (profileOf "HFT_002") (constTape 7 (-40))).
  reflexivity.
Defined.
End AmountClaims.

(** ** The pattern injector *)

Section PatternClaims.
Import profiles models patterns.
Local Open Scope Q_scope.

Lemma relative_deviation (price f : Q) : 0 < price -> price * (1 + f) / price - 1 == f.
Proof. intros Hp. field. lra. Qed.

Lemma InjectWashTrade_post (p : TraderProfile) (baseTime : time.Time) :
  post (InjectWashTrade NewPatternGenerator p baseTime)
       (fun trades => exists buy sell,
          trades = [buy; sell] /\
          Type_ buy = TradeTypeBuy /\ Type_ sell = TradeTypeSell /\
          Symbol buy = Symbol sell /\ Amount buy = Amount sell /\
          UserID buy = UserID sell /\
          0 < Price buy /\
          Qabs (Price sell / Price buy - 1) <= 0.0005 /\
          Timestamp buy = baseTime /\
          exists k, (1 <= k <= 4)%Z /\
                    Timestamp sell = time.Add (Timestamp buy) (k * time.Second)%Z).
Proof.
  unfold InjectWashTrade.
  draw symbol.
  draw amount.
  draw with GetPrice_positive as price Hprice.
  draw id0.
  draw id1.
  draw with Float64_range as u [Hu0 Hu1].
  eapply post_bind; [apply (Intn_range 4); lia|]. intros k Hk.
  apply post_ret. eexists _, _. split; [reflexivity|].
  cbv beta in *. cbn [Type_ Symbol Amount UserID Price Timestamp].
  repeat split; try assumption.
  - rewrite (relative_deviation price ((u - 0.5) * 0.001) Hprice).
    apply Qabs_Qle_condition. split; lra.
  - exists (1 + k)%Z. split; [lia|reflexivity].
Qed.

(** C2. For every profile and base time, [InjectWashTrade] returns exactly
    two trades, a Buy then a Sell, with the same symbol, amount and user
    identity; the price of the sell leg differs from that of the buy leg by
    at most 0.05% in relative terms; and the sell timestamp is a whole
    number of seconds, between 1 and 4, after the buy timestamp. *)
Theorem InjectWashTrade_pair (p : TraderProfile) (baseTime : time.Time) (r : rand.Rand) :
  exists buy sell,
    fst (InjectWashTrade NewPatternGenerator p baseTime r) = [buy; sell] /\
    Type_ buy = TradeTypeBuy /\ Type_ sell = TradeTypeSell /\
    Symbol buy = Symbol sell /\ Amount buy = Amount sell /\
    UserID buy = UserID sell /\
    Qabs (Price sell / Price buy - 1) <= 0.0005 /\
    exists k, (1 <= k <= 4)%Z /\
      time.Sub (Timestamp sell) (Timestamp buy) = (k * time.Second)%Z /\
      time.After (Timestamp sell) (Timestamp buy) = true.
Proof.
  destruct (InjectWashTrade_post p baseTime r)
    as (buy & sell & Heq & Hb & Hs & Hsym & Ham & Hu & _ & Hp & _ & k & Hk & Ht).
  exists buy, sell. repeat (split; [assumption|]).
  exists k. split; [assumption|]. rewrite Ht. unfold time.Sub, time.After, time.Add. simpl.
  split; [lia|]. apply Z.ltb_lt. unfold time.Second. lia.
Qed.
Lemma spikeLoop_post (pg : PatternGenerator) (p : TraderProfile) (baseTime : time.Time)
    (symbol : string) (basePrice : Q) (n : nat) :
  0 < basePrice ->
  forall i : Z,
  post (spikeLoop pg p baseTime symbol basePrice n i)
       (fun trades =>
          length trades = n /\
          forall (j : nat) (trade : Trade), trades !! j = Some trade ->
            Symbol trade = symbol /\
            UserID trade = profiles.UserID p /\
            Timestamp trade = time.Add baseTime ((i + Z.of_nat j) * time.Second)%Z /\
            basePrice * 0.99 <= Price trade /\ Price trade <= basePrice * 1.01).
Proof.
  intros Hb. induction n as [|n IH]; intros i; cbn [spikeLoop].
  - apply post_ret. split; [reflexivity|]. intros j trade Hj. discriminate Hj.
  - draw amount.
    draw with Float64_range as u [Hu0 Hu1].
    draw id.
    draw ty.
    eapply post_bind; [apply (IH (i + 1)%Z)|]. intros rest [Hlen Hrest].
    apply post_ret. split; [cbn [length]; congruence|].
    intros [|j] trade Hj.
    + injection Hj as <-. cbn [Symbol UserID Timestamp Price].
      destruct (jitter_bounds basePrice u 0.02 Hb) as [Hlo Hhi]; try lra.
      repeat split; try lra.
      f_equal. f_equal. lia.
    + destruct (Hrest j trade Hj) as (Hs & Hu & Ht & Hp).
      repeat split; try assumption; try tauto.
      rewrite Ht. f_equal. f_equal. lia.
Qed.

Lemma InjectVelocitySpike_post (p : TraderProfile) (baseTime : time.Time) :
  post (InjectVelocitySpike NewPatternGenerator p baseTime)
       (fun trades =>
          (10 <= len trades <= 20)%Z /\
          exists (symbol : string) (basePrice : Q),
            basePriceOf NewPatternGenerator symbol * 0.99 <= basePrice /\
            basePrice <= basePriceOf NewPatternGenerator symbol * 1.01 /\
            forall (i : nat) (trade : Trade), trades !! i = Some trade ->
              Symbol trade = symbol /\
              UserID trade = profiles.UserID p /\
              Timestamp trade = time.Add baseTime (Z.of_nat i * time.Second)%Z /\
              basePrice * 0.99 <= Price trade /\ Price trade <= basePrice * 1.01).
Proof.
  unfold InjectVelocitySpike.
  eapply post_bind; [apply (Intn_range 11); lia|]. intros k Hk.
  draw symbol.
  eapply post_bind; [apply GetPrice_post, basePrice_positive|]. intros basePrice [Hlo Hhi].
  assert (Hb : 0 < basePrice) by (pose proof (basePrice_positive symbol); lra).
  eapply post_weaken; [apply (spikeLoop_post _ _ _ _ _ _ Hb)|].
  cbv beta in *. intros trades [Hlen Hall]. split.
  - unfold len. rewrite Hlen. lia.
  - exists symbol, basePrice. repeat (split; [assumption|]).
    intros i trade Hi. destruct (Hall i trade Hi) as (Hs & Hu & Ht & Hp).
    repeat split; try assumption; try tauto.
Qed.

(** C3. For every profile and base time, [InjectVelocitySpike] returns N
    trades with N between 10 and 20; all of them carry one symbol; the
    timestamp of the i-th trade is the base time plus i seconds, so that
    consecutive timestamps differ by exactly one second; and there is a
    single base price (a price of that symbol, within 1% of its table
    entry) such that the price of every trade is within 1% of it. *)
Theorem InjectVelocitySpike_burst (p : TraderProfile) (baseTime : time.Time) (r : rand.Rand) :
  let trades := fst (InjectVelocitySpike NewPatternGenerator p baseTime r) in
  (10 <= len trades <= 20)%Z /\
  (exists (symbol : string) (basePrice : Q),
     basePriceOf NewPatternGenerator symbol * 0.99 <= basePrice /\
     basePrice <= basePriceOf NewPatternGenerator symbol * 1.01 /\
     forall (i : nat) (trade : Trade), trades !! i = Some trade ->
       Symbol trade = symbol /\
       Timestamp trade = time.Add baseTime (Z.of_nat i * time.Second)%Z /\
       basePrice * 0.99 <= Price trade /\ Price trade <= basePrice * 1.01) /\
  (forall (i : nat) (a b : Trade), trades !! i = Some a -> trades !! S i = Some b ->
     time.Sub (Timestamp b) (Timestamp a) = time.Second).
Proof.
  intros trades.
  destruct (InjectVelocitySpike_post p baseTime r) as (Hlen & symbol & basePrice & Hlo & Hhi & Hall).
  fold trades in Hlen, Hall. split; [exact Hlen|]. split.
  - exists symbol, basePrice. repeat (split; [assumption|]).
    intros i trade Hi. destruct (Hall i trade Hi) as (Hs & _ & Ht & Hp).
    repeat split; try assumption; try tauto.
  - intros i a b Ha Hb.
    destruct (Hall i a Ha) as (_ & _ & Hta & _).
    destruct (Hall (S i) b Hb) as (_ & _ & Htb & _).
    rewrite Hta, Htb. unfold time.Sub, time.Add. cbn [time.nsec]. lia.
Qed.
End PatternClaims.

(** ** The calendar *)

Section Calendar.
Local Open Scope Z_scope.

Lemma yoe_range (doe : Z) : 0 <= doe <= 146096 ->
  let yoe := (doe - doe / 1460 + doe / 36524 - doe / 146096) / 365 in
  0 <= yoe <= 399 /\ 0 <= doe - (365 * yoe + yoe / 4 - yoe / 100) <= 365.
Proof.
  intros H. cbv zeta. Z.div_mod_to_equations. lia.
Qed.

(** The date of a day number is a date of the calendar, and it is the date
    of that day only. *)
Lemma civil_roundtrip (n : Z) :
  let '(y, m, d) := time.civil_from_days n in
  time.days_from_civil y m d = n /\ 1 <= m <= 12 /\ 1 <= d <= 31.
Proof.
  unfold time.civil_from_days.
  set (z := n + 306). set (era := z / 146097). set (doe := z - era * 146097).
  assert (Hdoe : 0 <= doe <= 146096).
  { subst doe era. pose proof (Z.mod_pos_bound z 146097 ltac:(lia)) as H.
    rewrite Z.mod_eq in H by lia. lia. }
  destruct (yoe_range doe Hdoe) as [Hyoe Hdoy]. cbv zeta in Hyoe, Hdoy.
  set (yoe := (doe - doe / 1460 + doe / 36524 - doe / 146096) / 365) in *.
  set (doy := doe - (365 * yoe + yoe / 4 - yoe / 100)) in *.
  set (mp := (5 * doy + 2) / 153).
  assert (Hmp : 0 <= mp <= 11) by (subst mp; Z.div_mod_to_equations; lia).
  assert (Hd : 1 <= doy - (153 * mp + 2) / 5 + 1 <= 31)
    by (subst mp; Z.div_mod_to_equations; lia).
  cbv zeta.
  assert (Hera : (yoe + era * 400) / 400 = era)
    by (symmetry; apply Z.div_unique with (r := yoe); lia).
  unfold time.days_from_civil.
  destruct (mp <? 10) eqn:E; [apply Z.ltb_lt in E | apply Z.ltb_ge in E].
  - replace (mp + 3 <=? 2) with false by (symmetry; apply Z.leb_gt; lia).
    replace (2 <? mp + 3) with true by (symmetry; apply Z.ltb_lt; lia).
    cbv zeta. rewrite Hera.
    replace (mp + 3 - 3) with mp by lia.
    replace (yoe + era * 400 - era * 400) with yoe by lia.
    split; [|lia]. subst doy doe z. lia.
  - replace (mp - 9 <=? 2) with true by (symmetry; apply Z.leb_le; lia).
    replace (2 <? mp - 9) with false by (symmetry; apply Z.ltb_ge; lia).
    cbv zeta. replace (yoe + era * 400 + 1 - 1) with (yoe + era * 400) by lia.
    rewrite Hera. replace (mp - 9 + 9) with mp by lia.
    replace (yoe + era * 400 - era * 400) with yoe by lia.
    split; [|lia]. subst doy doe z. lia.
Qed.

(** The offset in force at an instant is an offset of the table; it is the
    initial one where the location keeps one offset. *)
Lemma lookupIn_offset (tx : list (Z * Z)) (off : Z) (start : option Z) (sec : Z) :
  In (fst (fst (time.lookupIn off start tx sec))) (off :: map snd tx).
Proof.
  revert off start. induction tx as [|[w o] tx IH]; intros off start; cbn [time.lookupIn map snd].
  - left. reflexivity.
  - destruct (sec <? w).
    + left. reflexivity.
    + right. apply IH.
Qed.

Lemma zoneOffset_In (l : time.Location) (sec : Z) :
  In (time.zoneOffset l sec) (time.offsets l).
Proof.
  apply lookupIn_offset.
Qed.

Lemma fixedOffset_offsets (l : time.Location) (o : Z) :
  time.fixedOffset l = true -> In o (time.offsets l) -> o = time.offset l.
Proof.
  unfold time.fixedOffset, time.offsets. intros Hf [Ho|Ho]; [congruence|].
  rewrite forallb_forall in Hf. apply List.in_map_iff in Ho as (tr & Htr & Hin).
  specialize (Hf tr Hin). apply Z.eqb_eq in Hf. congruence.
Qed.

Lemma offsetsWithin_spec (b : Z) (l : time.Location) (o1 o2 : Z) :
  offsetsWithin b l = true -> In o1 (time.offsets l) -> In o2 (time.offsets l) ->
  o2 - o1 <= b.
Proof.
  unfold offsetsWithin. intros H H1 H2. rewrite forallb_forall in H.
  specialize (H o1 H1). rewrite forallb_forall in H. specialize (H o2 H2).
  apply Z.leb_le. exact H.
Qed.

(** The instant [time.Date] returns: the wall-clock reading taken as UTC,
    less one of the offsets of the location. *)
Lemma Date_instant (y mo d h mi s : Z) (l : time.Location) :
  exists o : Z,
    In o (time.offsets l) /\
    time.Date y mo d h mi s 0 l =
    time.mkTime ((time.days_from_civil (y + (mo - 1) / 12) ((mo - 1) mod 12 + 1) d * 86400
                  + h * 3600 + mi * 60 + s - o) * time.Second) l.
Proof.
  unfold time.Date. cbv zeta.
  replace (0 / time.Second) with 0 by reflexivity.
  replace (0 mod time.Second) with 0 by reflexivity.
  set (unix := time.days_from_civil (y + (mo - 1) / 12) ((mo - 1) mod 12 + 1) d * 86400
               + h * 3600 + mi * 60 + s).
  replace (unix + 0) with unix by lia.
  pose proof (zoneOffset_In l unix) as Hoff. unfold time.zoneOffset in Hoff.
  destruct (time.lookup l unix) as [[off start] end_]. cbn [fst] in Hoff.
  destruct (off =? 0) eqn:E0.
  - apply Z.eqb_eq in E0. exists off. split; [exact Hoff|]. f_equal. lia.
  - destruct (time.outside start end_ (unix - off)).
    + exists (time.zoneOffset l (unix - off)). split; [apply zoneOffset_In|]. f_equal. lia.
    + exists off. split; [exact Hoff|]. f_equal. lia.
Qed.

(** The wall clock of the instant [time.Date] returns differs from the
    reading it was given by the difference of two offsets of the location. *)
Lemma Date_wall_clock (y mo d h mi s : Z) (l : time.Location) :
  exists o1 o2 : Z,
    In o1 (time.offsets l) /\ In o2 (time.offsets l) /\
    time.localSec (time.Date y mo d h mi s 0 l) =
    time.days_from_civil (y + (mo - 1) / 12) ((mo - 1) mod 12 + 1) d * 86400
    + h * 3600 + mi * 60 + s + (o2 - o1).
Proof.
  destruct (Date_instant y mo d h mi s l) as (o1 & Ho1 & ->).
  unfold time.localSec. cbn [time.nsec time.Loc].
  rewrite Z.div_mul by (unfold time.Second; lia). cbv zeta.
  set (u := time.days_from_civil (y + (mo - 1) / 12) ((mo - 1) mod 12 + 1) d * 86400
            + h * 3600 + mi * 60 + s - o1).
  exists o1, (time.zoneOffset l u). split; [exact Ho1|]. split; [apply zoneOffset_In|].
  subst u. lia.
Qed.

(** [time.Date] on the date of [t], with a clock time of the day, in a
    location that keeps one offset: the result lies on the day of [t], at
    that clock time. *)
Lemma Date_on_day_of (t : time.Time) (h mi s : Z) :
  time.fixedOffset (time.Location_ t) = true ->
  0 <= h < 24 -> 0 <= mi < 60 -> 0 <= s < 60 ->
  let d := time.Date (time.Year t) (time.Month t) (time.Day t) h mi s 0 (time.Location_ t) in
  time.dayNumber d = time.dayNumber t /\ time.secOfDay d = h * 3600 + mi * 60 + s.
Proof.
  intros Hfix Hh Hmi Hs. cbv zeta.
  destruct (Date_wall_clock (time.Year t) (time.Month t) (time.Day t) h mi s (time.Location_ t))
    as (o1 & o2 & Ho1 & Ho2 & Hloc).
  apply (fixedOffset_offsets _ _ Hfix) in Ho1, Ho2. subst o1 o2.
  revert Hloc. unfold time.Year, time.Month, time.Day.
  pose proof (civil_roundtrip (time.dayNumber t)) as Hrt.
  destruct (time.civil_from_days (time.dayNumber t)) as [[y m] dd].
  destruct Hrt as (Hdays & Hm & _). cbn [fst snd].
  replace ((m - 1) / 12) with 0 by (symmetry; apply Z.div_small; lia).
  replace ((m - 1) mod 12 + 1) with m by (rewrite Z.mod_small; lia).
  replace (y + 0) with y by lia. rewrite Hdays.
  set (n := time.dayNumber t). intros Hloc.
  unfold time.dayNumber at 1, time.secOfDay. rewrite Hloc. split.
  - symmetry. apply Z.div_unique with (r := h * 3600 + mi * 60 + s); lia.
  - symmetry. apply Z.mod_unique with (q := n); lia.
Qed.

Lemma Date_same_day_hour (t : time.Time) (h mi s : Z) :
  time.fixedOffset (time.Location_ t) = true ->
  0 <= h < 24 -> 0 <= mi < 60 -> 0 <= s < 60 ->
  let d := time.Date (time.Year t) (time.Month t) (time.Day t) h mi s 0 (time.Location_ t) in
  time.Year d = time.Year t /\ time.Month d = time.Month t /\ time.Day d = time.Day t /\
  time.Hour d = h /\ time.Minute_ d = mi /\ time.Second_ d = s.
Proof.
  intros Hfix Hh Hmi Hs d.
  destruct (Date_on_day_of t h mi s Hfix Hh Hmi Hs) as [Hday Hsec]. fold d in Hday, Hsec.
  unfold time.Year, time.Month, time.Day, time.Hour, time.Minute_, time.Second_.
  rewrite Hday, Hsec. repeat split.
  - symmetry. apply Z.div_unique with (r := mi * 60 + s); lia.
  - replace ((h * 3600 + mi * 60 + s) mod 3600) with (mi * 60 + s)
      by (apply Z.mod_unique with (q := h); lia).
    symmetry. apply Z.div_unique with (r := s); lia.
  - symmetry. apply Z.mod_unique with (q := h * 60 + mi); lia.
Qed.

(** A night reading (02:00:00 to 05:59:59) given to [time.Date] in a
    location whose offsets are at most three hours apart: the hour the
    result shows is 23 or at most 8. *)
Lemma Date_night_hour (y mo d h mi s : Z) (l : time.Location) :
  offsetsWithin 10800 l = true ->
  2 <= h <= 5 -> 0 <= mi < 60 -> 0 <= s < 60 ->
  let hour := time.Hour (time.Date y mo d h mi s 0 l) in
  hour = 23 \/ 0 <= hour <= 8.
Proof.
  intros Hw Hh Hmi Hs. cbv zeta.
  destruct (Date_wall_clock y mo d h mi s l) as (o1 & o2 & Ho1 & Ho2 & Hloc).
  pose proof (offsetsWithin_spec _ _ _ _ Hw Ho1 Ho2) as H12.
  pose proof (offsetsWithin_spec _ _ _ _ Hw Ho2 Ho1) as H21.
  unfold time.Hour, time.secOfDay. rewrite Hloc.
  set (n := time.days_from_civil (y + (mo - 1) / 12) ((mo - 1) mod 12 + 1) d).
  Z.div_mod_to_equations. lia.
Qed.
End Calendar.

(** ** The anomaly variants *)

Section AnomalyClaims.
Import profiles models patterns.
Local Open Scope Q_scope.

(** The value of the first draw of a generator, together with its result. *)
Lemma bind_first {A B} (m : rand.Gen A) (k : A -> rand.Gen B) (Q : A -> B -> Prop) :
  (forall a, post (k a) (Q a)) ->
  forall r, Q (fst (m r)) (fst (rand.bind m k r)).
Proof.
  intros Hk r. unfold rand.bind. destruct (m r) as [a r']. cbn [fst]. apply Hk.
Qed.

Lemma index_In (l : list string) (i : Z) : (0 <= i < len l)%Z -> In (index l i) l.
Proof.
  intros Hi. unfold index, len in *. apply nth_In. lia.
Qed.

Lemma InjectAnomaly_variants (p : TraderProfile) (baseTime : time.Time) (r : rand.Rand) :
  anomalyShape p baseTime (fst (rand.Intn 4 r))
               (fst (InjectAnomaly NewPatternGenerator p baseTime r)).
Proof.
  unfold InjectAnomaly. apply bind_first. intros v.
  draw id.
  draw symbol.
  draw amount.
  draw ty.
  cbv zeta.
  destruct (v =? 0)%Z eqn:E0; [apply Z.eqb_eq in E0 | apply Z.eqb_neq in E0].
  { eapply post_bind; [apply GetPrice_post, basePrice_positive|]. intros price [Hlo Hhi].
    apply post_ret. unfold anomalyShape.
    cbn [set_Amount set_Price Symbol Amount Price Timestamp] in *.
    repeat split; intros; try lia; try assumption; reflexivity. }
  destruct (v =? 1)%Z eqn:E1; [apply Z.eqb_eq in E1 | apply Z.eqb_neq in E1].
  { eapply post_bind; [apply (Intn_range 4); lia|]. intros h Hh.
    eapply post_bind; [apply (Intn_range 60); lia|]. intros mi Hmi.
    eapply post_bind; [apply (Intn_range 60); lia|]. intros se Hse.
    eapply post_bind; [apply GetPrice_post, basePrice_positive|]. intros price [Hlo Hhi].
    apply post_ret. unfold anomalyShape.
    cbn [set_Timestamp set_Price Symbol Amount Price Timestamp] in *. cbv beta in *.
    repeat split; intros; try lia; try assumption.
    exists h, mi, se. repeat split; lia. }
  destruct (v =? 2)%Z eqn:E2; [apply Z.eqb_eq in E2 | apply Z.eqb_neq in E2].
  { eapply post_bind; [apply (Intn_range (len PennyStocks)); reflexivity|]. intros i Hi.
    draw with Float64_range as u [Hu0 Hu1].
    apply post_ret. unfold anomalyShape.
    cbn [set_Symbol set_Price Symbol Amount Price Timestamp] in *.
    repeat split; intros; try lia; try lra.
    apply index_In. exact Hi. }
  destruct (v =? 3)%Z eqn:E3; [apply Z.eqb_eq in E3 | apply Z.eqb_neq in E3].
  { eapply post_bind; [apply GetPrice_post, basePrice_positive|]. intros price [Hlo Hhi].
    draw with Float64_range as u [Hu0 Hu1].
    apply post_ret. unfold anomalyShape.
    cbn [set_Price Symbol Amount Price Timestamp] in *.
    repeat split; intros; try lia.
    exists price. pose proof (basePrice_positive symbol) as Hb.
    destruct (jitter_bounds price u 0.5) as [Hl Hh]; try lra. }
  apply post_ret. unfold anomalyShape. repeat split; intros; lia.
Qed.
(** Every value of the variant draw occurs. *)
Lemma variant_reachable (k : Z) :
  (0 <= k < 4)%Z -> fst (rand.Intn 4 (constTape k 0)) = k.
Proof.
  intros Hk. cbn. apply Z.mod_small. exact Hk.
Qed.



(** For the anomaly profile of the catalog, no penny stock is a typical
    symbol: the off-catalog variant leaves its list. *)
Lemma anomaly_profile_has_no_penny_stock (s : string) :
  In s PennyStocks -> ~ In s (TypicalSymbols (profileOf "FRAUD_ANOMALY_001")).
Proof.
  vm_compute. intros H1 H2.
  repeat (destruct H1 as [H1|H1]; [subst s; repeat (destruct H2 as [H2|H2]; [discriminate H2|]); exact H2|]).
  exact H1.
Qed.
End AnomalyClaims.

(** ** Positive amounts and prices *)

Section Positivity.
Import profiles models patterns.
Local Open Scope Q_scope.

Lemma GenerateAmount_positive (p : TraderProfile) :
  0 < AvgTradeSize p ->
  post (GenerateAmount NewPatternGenerator p) (fun amount => 0 < amount).
Proof.
  intros Hpos. eapply post_weaken; [apply GenerateAmount_post, Hpos|].
  intros amount [Hlo _]. cbv beta. lra.
Qed.

Lemma jitter_positive (b u w : Q) :
  0 < b -> 0 <= w -> w <= 1 -> 0 <= u -> u < 1 -> 0 < b * (1 + (u - 0.5) * w).
Proof.
  intros Hb Hw0 Hw1 Hu0 Hu1.
  destruct (jitter_bounds b u w Hb Hw0 Hu0 Hu1) as [Hlo _].
  assert (0 < b * (1 - w * 0.5)) by (apply Qmult_lt_0_compat; lra).
  lra.
Qed.

Lemma generateTrade_positive (RedisClient : Type) (g : generator.Generator RedisClient)
    (p : TraderProfile) (timestamp : time.Time) :
  generator.patternGenerator RedisClient g = NewPatternGenerator ->
  0 < AvgTradeSize p ->
  post (generator.generateTrade RedisClient g p timestamp) positiveTrade.
Proof.
  intros Hpg Hpos. unfold generator.generateTrade. rewrite Hpg.
  draw symbol.
  eapply post_bind; [apply GenerateAmount_positive, Hpos|]. intros amount Hamount.
  draw with GetPrice_positive as price Hprice.
  draw id.
  draw ty.
  apply post_ret. split; assumption.
Qed.

Lemma InjectWashTrade_positive (p : TraderProfile) (baseTime : time.Time) :
  0 < AvgTradeSize p ->
  post (InjectWashTrade NewPatternGenerator p baseTime) (Forall positiveTrade).
Proof.
  intros Hpos. unfold InjectWashTrade.
  draw symbol.
  eapply post_bind; [apply GenerateAmount_positive, Hpos|]. intros amount Hamount.
  draw with GetPrice_positive as price Hprice.
  draw id0.
  draw id1.
  draw with Float64_range as u [Hu0 Hu1].
  draw k.
  apply post_ret. cbv beta in *.
  repeat constructor; cbn [Amount Price]; try assumption.
  apply jitter_positive; lra.
Qed.

Lemma spikeLoop_positive (p : TraderProfile) (baseTime : time.Time) (symbol : string)
    (basePrice : Q) (n : nat) :
  0 < AvgTradeSize p -> 0 < basePrice ->
  forall i : Z,
  post (spikeLoop NewPatternGenerator p baseTime symbol basePrice n i) (Forall positiveTrade).
Proof.
  intros Hpos Hb. induction n as [|n IH]; intros i; cbn [spikeLoop].
  - apply post_ret. constructor.
  - eapply post_bind; [apply GenerateAmount_positive, Hpos|]. intros amount Hamount.
    draw with Float64_range as u [Hu0 Hu1].
    draw id.
    draw ty.
    eapply post_bind; [apply (IH (i + 1)%Z)|]. intros rest Hrest.
    apply post_ret. constructor; [|exact Hrest].
    split; cbn [Amount Price]; [assumption|]. apply jitter_positive; lra.
Qed.

Lemma InjectVelocitySpike_positive (p : TraderProfile) (baseTime : time.Time) :
  0 < AvgTradeSize p ->
  post (InjectVelocitySpike NewPatternGenerator p baseTime) (Forall positiveTrade).
Proof.
  intros Hpos. unfold InjectVelocitySpike.
  draw k.
  draw symbol.
  draw with GetPrice_positive as basePrice Hb.
  apply spikeLoop_positive; assumption.
Qed.

Lemma InjectAnomaly_positive (p : TraderProfile) (baseTime : time.Time) :
  0 < AvgTradeSize p ->
  post (InjectAnomaly NewPatternGenerator p baseTime) positiveTrade.
Proof.
  intros Hpos. unfold InjectAnomaly.
  eapply post_bind; [apply (Intn_range 4); lia|]. intros v Hv.
  draw id.
  draw symbol.
  eapply post_bind; [apply GenerateAmount_positive, Hpos|]. intros amount Hamount.
  draw ty.
  cbv zeta. cbv beta in *.
  destruct (v =? 0)%Z eqn:E0.
  { draw with GetPrice_positive as price Hprice.
    apply post_ret. split; cbn [set_Amount set_Price Amount Price]; [lra|assumption]. }
  destruct (v =? 1)%Z eqn:E1.
  { draw h.
    draw mi.
    draw se.
    draw with GetPrice_positive as price Hprice.
    apply post_ret. split; cbn [set_Timestamp set_Price Amount Price]; assumption. }
  destruct (v =? 2)%Z eqn:E2.
  { draw i.
    draw with Float64_range as u [Hu0 Hu1].
    apply post_ret. split; cbn [set_Symbol set_Price Amount Price]; [assumption|lra]. }
  destruct (v =? 3)%Z eqn:E3.
  { draw with GetPrice_positive as price Hprice.
    draw with Float64_range as u [Hu0 Hu1].
    apply post_ret. cbv beta in Hprice.
    split; cbn [set_Price Amount Price]; [assumption|].
    apply jitter_positive; lra. }
  exfalso. apply Z.eqb_neq in E0, E1, E2, E3. lia.
Qed.

(** Every profile of the catalog has a positive average trade size. *)
Lemma catalog_sizes_positive :
  Forall (fun p => 0 < AvgTradeSize p) GetDefaultProfiles.
Proof. repeat constructor. Qed.

(** C1. When the average trade size of the profile is positive, every trade
    that a synthesis operation produces has a positive amount and a positive
    price: the trade of the normal path, the two trades of a wash pair, the
    trades of a velocity burst, and the trade of an anomaly, whichever of
    its four variants is drawn. *)
Theorem synthesized_trades_positive (p : TraderProfile) (baseTime : time.Time) (r : rand.Rand) :
  0 < AvgTradeSize p ->
  (forall (RedisClient : Type) (g : generator.Generator RedisClient),
     generator.patternGenerator RedisClient g = NewPatternGenerator ->
     0 < Amount (fst (generator.generateTrade RedisClient g p baseTime r)) /\
     0 < Price (fst (generator.generateTrade RedisClient g p baseTime r))) /\
  (forall t : Trade, In t (fst (InjectWashTrade NewPatternGenerator p baseTime r)) ->
     0 < Amount t /\ 0 < Price t) /\
  (forall t : Trade, In t (fst (InjectVelocitySpike NewPatternGenerator p baseTime r)) ->
     0 < Amount t /\ 0 < Price t) /\
  0 < Amount (fst (InjectAnomaly NewPatternGenerator p baseTime r)) /\
  0 < Price (fst (InjectAnomaly NewPatternGenerator p baseTime r)).
Proof.
  intros Hpos. split; [|split; [|split]].
  - intros RedisClient g Hpg. exact (generateTrade_positive RedisClient g p baseTime Hpg Hpos r).
  - intros t Hin. pose proof (InjectWashTrade_positive p baseTime Hpos r) as H.
    rewrite List.Forall_forall in H. exact (H t Hin).
  - intros t Hin. pose proof (InjectVelocitySpike_positive p baseTime Hpos r) as H.
    rewrite List.Forall_forall in H. exact (H t Hin).
  - exact (InjectAnomaly_positive p baseTime Hpos r).
Qed.

Lemma synthesized_trades_positive_witness :
  0 < AvgTradeSize (profileOf "FRAUD_WASH_001") /\
  ((forall (RedisClient : Type) (g : generator.Generator RedisClient),
      generator.patternGenerator RedisClient g = NewPatternGenerator ->
      0 < Amount (fst (generator.generateTrade RedisClient g (profileOf "FRAUD_WASH_001")
                         sampleTime (constTape 5 (-1)))) /\
      0 < Price (fst (generator.generateTrade RedisClient g (profileOf "FRAUD_WASH_001")
                        sampleTime (constTape 5 (-1))))) /\
   (forall t : Trade,
      In t (fst (InjectWashTrade NewPatternGenerator (profileOf "FRAUD_WASH_001")
                   sampleTime (constTape 5 (-1)))) ->
      0 < Amount t /\ 0 < Price t) /\
   (forall t : Trade,
      In t (fst (InjectVelocitySpike NewPatternGenerator (profileOf "FRAUD_WASH_001")
                   sampleTime (constTape 5 (-1)))) ->
      0 < Amount t /\ 0 < Price t) /\
   0 < Amount (fst (InjectAnomaly NewPatternGenerator (profileOf "FRAUD_WASH_001")
                      sampleTime (constTape 5 (-1)))) /\
   0 < Price (fst (InjectAnomaly NewPatternGenerator (profileOf "FRAUD_WASH_001")
                     sampleTime (constTape 5 (-1))))).
Proof.
  split; [reflexivity|].
  apply (synthesized_trades_positive (profileOf "FRAUD_WASH_001") sampleTime (constTape 5 (-1))).
  reflexivity.
Defined.
End Positivity.

(** ** Symbol selection *)

Section SymbolClaims.
Import profiles.
Local Open Scope Q_scope.

Lemma filter_seq_shift (f : nat -> bool) (a n : nat) :
  length (List.filter (fun i => f (S i)) (seq a n)) = length (List.filter f (seq (S a) n)).
Proof.
  revert a. induction n as [|n IH]; intros a; [reflexivity|].
  cbn [seq List.filter]. destruct (f (S a)); cbn [length]; rewrite IH; reflexivity.
Qed.

Lemma indexWeight_count (l : list string) (s : string) :
  indexWeight l s = count_occ String.string_dec l s.
Proof.
  unfold indexWeight. induction l as [|x l IH]; [reflexivity|].
  assert (Hrest : length (List.filter (fun i => String.eqb (index (x :: l) (Z.of_nat i)) s)
                                      (seq 1 (length l)))
                  = count_occ String.string_dec l s).
  { rewrite <- filter_seq_shift. rewrite <- IH. f_equal.
    apply List.filter_ext. intros i. unfold index. rewrite !Nat2Z.id. reflexivity. }
  cbn [length seq List.filter count_occ].
  change (index (x :: l) (Z.of_nat 0)) with x.
  destruct (String.string_dec x s) as [->|Hne].
  - rewrite String.eqb_refl. cbn [length]. rewrite Hrest. reflexivity.
  - apply String.eqb_neq in Hne. rewrite Hne. exact Hrest.
Qed.

(** C8 (as stated, refuted). The exploration draw is not uniform over the
    union, as a set, of the three symbol universes: AAPL and MSFT both
    belong to it, and of the 18 equally likely values of the index draw two
    return AAPL and one returns MSFT. *)
Lemma GetRandomSymbol_union_not_uniform :
  In "AAPL"%string (BlueChipSymbols ++ PopularSymbols ++ ETFSymbols) /\
  In "MSFT"%string (BlueChipSymbols ++ PopularSymbols ++ ETFSymbols) /\
  explorationOutcomes (profileOf "HFT_001") "AAPL" = 2%nat /\
  explorationOutcomes (profileOf "HFT_001") "MSFT" = 1%nat.
Proof.
  repeat split; try (vm_compute; tauto); vm_compute; reflexivity.
Qed.

(** C8 (amended). [GetRandomSymbol] returns the fixed symbol AAPL for a
    profile without typical symbols. Otherwise one draw u of [0,1) decides:
    when u < 0.8 the result is the typical symbol at a drawn position of the
    typical list; otherwise it is the symbol at a drawn position of the
    blue-chip, popular and ETF lists put one after the other (18 positions),
    so that a symbol is selected by as many positions as the three lists
    hold it: twice for a symbol of two lists, once for a symbol of one. *)
Theorem GetRandomSymbol_cases (p : TraderProfile) (r : rand.Rand) :
  let result := fst (GetRandomSymbol p r) in
  let u := fst (rand.Float64 r) in
  let r1 := snd (rand.Float64 r) in
  ((TypicalSymbols p = [] /\ result = "AAPL"%string)
   \/
   (TypicalSymbols p <> [] /\ u < 0.8 /\
    exists i : Z, i = fst (rand.Intn (len (TypicalSymbols p)) r1) /\
                  (0 <= i < len (TypicalSymbols p))%Z /\
                  result = index (TypicalSymbols p) i)
   \/
   (TypicalSymbols p <> [] /\ 0.8 <= u /\
    exists i : Z, i = fst (rand.Intn 18 r1) /\ (0 <= i < 18)%Z /\
                  result = index (BlueChipSymbols ++ PopularSymbols ++ ETFSymbols) i)) /\
  (forall s : string,
     indexWeight (BlueChipSymbols ++ PopularSymbols ++ ETFSymbols) s
     = (count_occ String.string_dec BlueChipSymbols s + count_occ String.string_dec PopularSymbols s
        + count_occ String.string_dec ETFSymbols s)%nat).
Proof.
  intros result u r1. split.
  - subst result. unfold GetRandomSymbol.
    destruct (TypicalSymbols p) as [|x l] eqn:Etyp.
    { left. split; reflexivity. }
    right.
    assert (Hlen : (0 < len (x :: l))%Z) by (unfold len; cbn [length]; lia).
    replace (len (x :: l) =? 0)%Z with false by (symmetry; apply Z.eqb_neq; lia).
    rewrite bind_run. fold u r1.
    destruct (Qlt_bool u 0.8) eqn:Eu.
    + left. split; [discriminate|]. split; [apply Qlt_bool_iff, Eu|].
      eexists. split; [reflexivity|]. split; [apply (Intn_range _ Hlen)|].
      rewrite bind_run. reflexivity.
    + right. split; [discriminate|]. split; [apply Qlt_bool_false, Eu|].
      eexists. split; [reflexivity|]. split; [apply (Intn_range 18); lia|].
      rewrite bind_run. reflexivity.
  - intros s. rewrite indexWeight_count, !count_occ_app. lia.
Qed.
End SymbolClaims.

(** ** Fraud profile selection *)

Section FraudSelection.
Import profiles.

Lemma TraderType_eqb_eq (a b : TraderType) : TraderType_eqb a b = true <-> a = b.
Proof. destruct a, b; cbn; split; intros H; try reflexivity; discriminate H. Qed.

Lemma FraudType_eqb_eq (a b : FraudType) : FraudType_eqb a b = true <-> a = b.
Proof. destruct a, b; cbn; split; intros H; try reflexivity; discriminate H. Qed.

Lemma matchesFraud_spec (ft : FraudType) (p : TraderProfile) :
  matchesFraud ft p = true <->
  Type_ p = FraudTrader /\ (ft = AllFraud \/ FraudPattern p = ft).
Proof.
  unfold matchesFraud. rewrite andb_true_iff, orb_true_iff.
  rewrite TraderType_eqb_eq, !FraudType_eqb_eq. reflexivity.
Qed.

Lemma pick_In (l : list TraderProfile) (i : Z) :
  (0 <= i < len l)%Z -> exists p, pick l i = Some p /\ In p l.
Proof.
  intros Hi. unfold pick, len in *.
  destruct (lookup_lt_is_Some_2 l (Z.to_nat i)) as [p Hp]; [lia|].
  exists p. split; [exact Hp|].
  apply list_elem_of_In. eapply list_elem_of_lookup_2. exact Hp.
Qed.

(** The two outcomes of [SelectFraudProfile]: no matching profile, no draw
    and no result; or a drawn profile of the matching ones. *)
Lemma SelectFraudProfile_cases (catalog : list TraderProfile) (ft : FraudType) (r : rand.Rand) :
  (List.filter (matchesFraud ft) catalog = [] /\
   SelectFraudProfile catalog ft r = (None, r))
  \/
  (exists p, fst (SelectFraudProfile catalog ft r) = Some p /\
             In p (List.filter (matchesFraud ft) catalog)).
Proof.
  unfold SelectFraudProfile.
  destruct (List.filter (matchesFraud ft) catalog) as [|x l] eqn:El.
  - left. split; reflexivity.
  - right.
    assert (Hlen : (0 < len (x :: l))%Z) by (unfold len; cbn [length]; lia).
    replace (0 <? len (x :: l))%Z with true by (symmetry; apply Z.ltb_lt; exact Hlen).
    rewrite bind_run. cbn [rand.ret fst].
    apply pick_In. apply (Intn_range _ Hlen).
Qed.

End FraudSelection.

(** ** Statistics *)

Section StatisticsClaims.
Import profiles models generator.
Local Open Scope Z_scope.

Lemma int64_small (x : Z) : - 2 ^ 63 <= x < 2 ^ 63 -> int64 x = x.
Proof.
  intros Hx. unfold int64. rewrite Z.mod_small; lia.
Qed.

Lemma sum_comm (j1 j2 : string) (z1 z2 y : Z) : z1 + (z2 + y) = z2 + (z1 + y).
Proof. lia. Qed.

Lemma sumCounters_empty : sumCounters ∅ = 0.
Proof. unfold sumCounters. apply map_fold_empty. Qed.

Lemma sumCounters_insert_fresh (m : gmap string Z) (k : string) (v : Z) :
  m !! k = None -> sumCounters (<[k:=v]> m) = v + sumCounters m.
Proof.
  intros Hk. unfold sumCounters.
  rewrite map_fold_insert_L; [reflexivity| |exact Hk].
  intros. apply sum_comm; assumption.
Qed.

Lemma sumCounters_lookup (m : gmap string Z) (k : string) (c : Z) :
  m !! k = Some c -> sumCounters m = c + sumCounters (delete k m).
Proof.
  intros Hk. unfold sumCounters.
  rewrite (map_fold_delete_L _ _ k c m); [reflexivity| |exact Hk].
  intros. apply sum_comm; assumption.
Qed.

Lemma sumCounters_update (m : gmap string Z) (k : string) (c c' : Z) :
  m !! k = Some c -> sumCounters (<[k:=c']> m) = sumCounters m - c + c'.
Proof.
  intros Hk. rewrite (sumCounters_lookup m k c Hk).
  rewrite <- insert_delete_eq.
  rewrite sumCounters_insert_fresh by apply lookup_delete_eq. lia.
Qed.

Lemma sumCounters_nonneg (m : gmap string Z) :
  map_Forall (fun _ v => 0 <= v) m -> 0 <= sumCounters m.
Proof.
  induction m as [|k v m Hk IH] using map_ind; intros Hall.
  - rewrite sumCounters_empty. lia.
  - rewrite sumCounters_insert_fresh by exact Hk.
    apply map_Forall_insert in Hall; [|exact Hk]. destruct Hall as [Hv Hm].
    specialize (IH Hm). lia.
Qed.

Lemma sumCounters_zero (m : gmap string Z) :
  map_Forall (fun _ v => v = 0) m -> sumCounters m = 0.
Proof.
  induction m as [|k v m Hk IH] using map_ind; intros Hall.
  - apply sumCounters_empty.
  - rewrite sumCounters_insert_fresh by exact Hk.
    apply map_Forall_insert in Hall; [|exact Hk]. destruct Hall as [Hv Hm].
    rewrite (IH Hm). lia.
Qed.

Lemma initCounters_zero (catalog : list TraderProfile) (m : gmap string Z) :
  map_Forall (fun _ v => v = 0) m -> map_Forall (fun _ v => v = 0) (initCounters catalog m).
Proof.
  revert m. unfold initCounters.
  induction catalog as [|q catalog IH]; intros m Hm; cbn [fold_left]; [exact Hm|].
  apply IH. apply map_Forall_insert_2; [reflexivity|exact Hm].
Qed.

Lemma initCounters_keeps (catalog : list TraderProfile) (m : gmap string Z) (k : string) :
  is_Some (m !! k) -> is_Some (initCounters catalog m !! k).
Proof.
  revert m. unfold initCounters.
  induction catalog as [|q catalog IH]; intros m Hm; cbn [fold_left]; [exact Hm|].
  apply IH. rewrite lookup_insert_is_Some. destruct Hm as [v Hv].
  destruct (decide (TraderType_string (profiles.Type_ q) = k)) as [->|Hne]; [left; reflexivity|].
  right. split; [exact Hne|]. exists v. exact Hv.
Qed.

Lemma initCounters_has (catalog : list TraderProfile) (m : gmap string Z) (q : TraderProfile) :
  In q catalog -> is_Some (initCounters catalog m !! TraderType_string (profiles.Type_ q)).
Proof.
  revert m. induction catalog as [|q' catalog IH]; intros m Hin; [destruct Hin|].
  destruct Hin as [->|Hin].
  - change (initCounters (q :: catalog) m)
      with (initCounters catalog (<[TraderType_string (profiles.Type_ q) := 0]> m)).
    apply initCounters_keeps. rewrite lookup_insert_eq. eexists. reflexivity.
  - change (initCounters (q' :: catalog) m)
      with (initCounters catalog (<[TraderType_string (profiles.Type_ q') := 0]> m)).
    apply IH, Hin.
Qed.

Lemma updateStats_counted (keys : gmap string Z) (st : Statistics) (n : Z)
    (trade : Trade) (profile : TraderProfile) (isFraud : bool) :
  0 <= n -> n + 1 < 2 ^ 63 ->
  is_Some (keys !! TraderType_string (profiles.Type_ profile)) ->
  counted keys st n ->
  counted keys (updateStats st trade profile isFraud) (n + 1).
Proof.
  intros Hn Hmax Hkey (Htot & Hsum & Hpos & Hkeys).
  destruct (Hkeys _ Hkey) as [c Hc].
  assert (Hc0 : 0 <= c) by exact (Hpos _ _ Hc).
  assert (Hrest : 0 <= sumCounters (delete (TraderType_string (profiles.Type_ profile)) (ByProfile st)))
    by (apply sumCounters_nonneg, map_Forall_delete, Hpos).
  pose proof (sumCounters_lookup _ _ _ Hc) as Hsplit.
  unfold counted, updateStats. cbn [TotalTrades ByProfile]. rewrite Hc, Htot.
  rewrite !int64_small by lia.
  split; [reflexivity|]. split; [|split].
  - rewrite (sumCounters_update _ _ c _ Hc). lia.
  - apply map_Forall_insert_2; [lia|exact Hpos].
  - intros k Hk. rewrite lookup_insert_is_Some.
    destruct (decide (TraderType_string (profiles.Type_ profile) = k)) as [->|Hne];
      [left; reflexivity|right; split; [exact Hne|exact (Hkeys k Hk)]].
Qed.

Lemma recordAll_counted (keys : gmap string Z)
    (calls : list (Trade * TraderProfile * bool)) :
  forall (st : Statistics) (n : Z),
  0 <= n -> n + Z.of_nat (length calls) < 2 ^ 63 ->
  (forall call, In call calls ->
     is_Some (keys !! TraderType_string (profiles.Type_ (snd (fst call))))) ->
  counted keys st n ->
  counted keys (recordAll st calls) (n + Z.of_nat (length calls)).
Proof.
  induction calls as [|call calls IH]; intros st n Hn Hmax Hkeys Hst.
  - cbn [recordAll fold_left length]. replace (n + Z.of_nat 0) with n by lia. exact Hst.
  - cbn [length] in *. change (recordAll st (call :: calls))
      with (recordAll (updateStats st (fst (fst call)) (snd (fst call)) (snd call)) calls).
    replace (n + Z.of_nat (S (length calls))) with (n + 1 + Z.of_nat (length calls)) by lia.
    apply IH; [lia|lia| |].
    + intros c Hc. apply Hkeys. right. exact Hc.
    + apply updateStats_counted; [lia|lia| |exact Hst].
      apply Hkeys. left. reflexivity.
Qed.

Lemma initialStats_counted (catalog : list TraderProfile) (now : time.Time) :
  counted (initCounters catalog ∅) (initialStats catalog now) 0.
Proof.
  assert (Hz : map_Forall (fun (_ : string) (v : Z) => v = 0) (initCounters catalog ∅))
    by (apply initCounters_zero, map_Forall_empty).
  unfold counted, initialStats. cbn [TotalTrades ByProfile].
  split; [reflexivity|]. split; [apply sumCounters_zero, Hz|]. split.
  - intros k v Hk. rewrite (Hz k v Hk). lia.
  - intros k Hk. exact Hk.
Qed.

(** [Run] starts a new generator from these statistics. *)
Lemma Run_starts_from_initialStats (RedisClient : Type)
    (PublishTradeToStream : RedisClient -> Trade -> RedisClient * option string)
    (c : config.Config) (rc : RedisClient) (now start : time.Time) (r : rand.Rand) :
  exists g, Run RedisClient PublishTradeToStream (NewGenerator RedisClient c rc now) start [] r
            = Running RedisClient g r
            /\ stats RedisClient g = initialStats GetDefaultProfiles now.
Proof. eexists. split; reflexivity. Qed.

Lemma default_catalog_has_every_type (ty : TraderType) :
  exists q, In q GetDefaultProfiles /\ profiles.Type_ q = ty.
Proof.
  destruct ty.
  - exists (profileOf "HFT_001"). split; [vm_compute; tauto|reflexivity].
  - exists (profileOf "USER_001"). split; [vm_compute; tauto|reflexivity].
  - exists (profileOf "CASUAL_001"). split; [vm_compute; tauto|reflexivity].
  - exists (profileOf "FRAUD_WASH_001"). split; [vm_compute; tauto|reflexivity].
Qed.

(** C7. After N trades have been recorded by [updateStats], starting from
    the statistics of a generator whose per-category counters were set up
    from a catalog that holds a profile of the category of every recorded
    trade, the total-trade counter is N and the per-category counters sum
    to N (for every N that a 64-bit counter holds). *)
Theorem recorded_trades_are_counted (catalog : list TraderProfile) (now : time.Time)
    (calls : list (Trade * TraderProfile * bool)) :
  (forall call, In call calls ->
     exists q, In q catalog /\ profiles.Type_ q = profiles.Type_ (snd (fst call))) ->
  Z.of_nat (length calls) < 2 ^ 63 ->
  TotalTrades (recordAll (initialStats catalog now) calls) = Z.of_nat (length calls) /\
  sumCounters (ByProfile (recordAll (initialStats catalog now) calls)) = Z.of_nat (length calls).
Proof.
  intros Hcat Hmax.
  assert (Hkeys : forall call, In call calls ->
            is_Some (initCounters catalog ∅ !! TraderType_string (profiles.Type_ (snd (fst call))))).
  { intros call Hin. destruct (Hcat call Hin) as (q & Hq & <-).
    apply initCounters_has, Hq. }
  destruct (recordAll_counted (initCounters catalog ∅) calls (initialStats catalog now) 0
              ltac:(lia) ltac:(lia) Hkeys (initialStats_counted catalog now))
    as (Htot & Hsum & _).
  split; assumption.
Qed.

Lemma recorded_trades_are_counted_witness :
  let calls :=
    [ (sampleTrade (profileOf "HFT_001") "AAPL" 75000 175.5, profileOf "HFT_001", false);
      (sampleTrade (profileOf "FRAUD_WASH_001") "PENNY_A" 10000 2.5, profileOf "FRAUD_WASH_001", true);
      (sampleTrade (profileOf "CASUAL_001") "SPY" 1000 475.2, profileOf "CASUAL_001", false) ] in
  TotalTrades (recordAll (initialStats GetDefaultProfiles sampleTime) calls) = 3 /\
  sumCounters (ByProfile (recordAll (initialStats GetDefaultProfiles sampleTime) calls)) = 3.
Proof.
  intros calls.
  apply (recorded_trades_are_counted GetDefaultProfiles sampleTime calls).
  - intros call _. apply default_catalog_has_every_type.
  - cbn. lia.
Defined.
End StatisticsClaims.

(** ** The fraud counter *)

Section FraudCount.
Import profiles models patterns generator.
Local Open Scope Z_scope.

Variable RedisClient : Type.
Variable PublishTradeToStream : RedisClient -> Trade -> RedisClient * option string.

(** With a sink that accepts every trade, the publishing loop reports no
    error and counts every trade of the pattern, as a trade and as fraud. *)
Lemma publishAll_counts (profile : TraderProfile) (trades : list Trade) :
  (forall rc t, snd (PublishTradeToStream rc t) = None) ->
  forall g : Generator RedisClient,
  - 2 ^ 63 <= FraudPatterns (stats _ g) ->
  FraudPatterns (stats _ g) + len trades < 2 ^ 63 ->
  fst (publishAll RedisClient PublishTradeToStream g profile trades) = None /\
  FraudPatterns (stats _ (snd (publishAll RedisClient PublishTradeToStream g profile trades)))
  = FraudPatterns (stats _ g) + len trades.
Proof.
  intros Hok. induction trades as [|trade rest IH]; intros g Hlo Hhi.
  - cbn. split; [reflexivity|]. unfold len. cbn. lia.
  - cbn [publishAll]. specialize (Hok (redisClient _ g) trade).
    destruct (PublishTradeToStream (redisClient _ g) trade) as [rc err].
    cbn [snd] in Hok. subst err.
    unfold len in *. cbn [length] in *.
    set (g1 := set_stats _ (set_redisClient _ g rc)
                 (updateStats (stats _ (set_redisClient _ g rc)) trade profile true)).
    assert (Hg1 : FraudPatterns (stats _ g1) = FraudPatterns (stats _ g) + 1).
    { subst g1. cbn. apply int64_small. lia. }
    destruct (IH g1) as [He Hc]; [lia|lia|].
    split; [exact He|]. rewrite Hc, Hg1. lia.
Qed.

Lemma InjectWashTrade_length (pg : PatternGenerator) (p : TraderProfile) (t : time.Time) :
  post (InjectWashTrade pg p t) (fun trades => len trades = 2).
Proof.
  unfold InjectWashTrade.
  repeat (eapply post_bind; [apply post_true|]; intros ? _).
  apply post_ret. reflexivity.
Qed.

Lemma spikeLoop_length (pg : PatternGenerator) (p : TraderProfile) (t : time.Time)
    (symbol : string) (basePrice : Q) (n : nat) :
  forall i, post (spikeLoop pg p t symbol basePrice n i) (fun trades => length trades = n).
Proof.
  induction n as [|n IH]; intros i; cbn [spikeLoop].
  - apply post_ret. reflexivity.
  - do 4 (eapply post_bind; [apply post_true|]; intros ? _).
    eapply post_bind; [apply (IH (i + 1))|]. intros rest Hrest.
    apply post_ret. cbn [length]. congruence.
Qed.

Lemma InjectVelocitySpike_length (pg : PatternGenerator) (p : TraderProfile) (t : time.Time) :
  post (InjectVelocitySpike pg p t) (fun trades => 10 <= len trades <= 20).
Proof.
  unfold InjectVelocitySpike.
  eapply post_bind; [apply (Intn_range 11); lia|]. intros k Hk.
  do 2 (eapply post_bind; [apply post_true|]; intros ? _).
  eapply post_weaken; [apply spikeLoop_length|].
  cbv beta in *. intros trades Hlen. unfold len. rewrite Hlen. lia.
Qed.

End FraudCount.

Section FraudCountWitness.
Import profiles models patterns generator.
Local Open Scope Z_scope.

End FraudCountWitness.

(** ** The run duration *)

Section Duration.
Import generator.
Local Open Scope Z_scope.

Lemma loop_without_deadline (RedisClient : Type)
    (PublishTradeToStream : RedisClient -> models.Trade -> RedisClient * option string)
    (deadline : time.Time) (events : list Event) :
  time.IsZero deadline = true ->
  forall (g g' : Generator RedisClient) (r : rand.Rand),
  loop RedisClient PublishTradeToStream deadline events g r <> Stopped RedisClient DeadlinePassed g'.
Proof.
  intros Hzero. induction events as [|[|checked stamped] events IH]; intros g g' r; cbn [loop].
  - discriminate.
  - discriminate.
  - rewrite Hzero. cbn [negb andb].
    destruct (generateAndPublish RedisClient PublishTradeToStream g stamped r) as [[err g1] r1].
    apply IH.
Qed.

(** X1. The generation loop takes a duration of 0 as no deadline: [Run]
    never ends on a deadline then, whatever the ticks show. *)
Theorem Run_duration_zero_has_no_deadline (RedisClient : Type)
    (PublishTradeToStream : RedisClient -> models.Trade -> RedisClient * option string)
    (g : Generator RedisClient) (start : time.Time) (events : list Event) (r : rand.Rand) :
  config.Duration (config.Generate (cfg _ g)) = 0 ->
  deadlineExit (Run RedisClient PublishTradeToStream g start events r) = false.
Proof.
  intros Hd.
  destruct (Run RedisClient PublishTradeToStream g start events r) as [[|] g'|g' r'] eqn:E;
    try reflexivity.
  exfalso. revert E. unfold Run. apply loop_without_deadline.
  unfold deadlineOf. cbn [cfg set_stats]. rewrite Hd. reflexivity.
Qed.

Lemma Run_duration_zero_has_no_deadline_witness :
  deadlineExit
    (Run (list models.Trade) logSink
         (NewGenerator (list models.Trade) unboundedConfig [] sampleTime) sampleTime
         [Tick (time.Add sampleTime (400 * time.Minute)) (time.Add sampleTime (400 * time.Minute))]
         (constTape 5 0))
  = false.
Proof.
  apply (Run_duration_zero_has_no_deadline (list models.Trade) logSink
           (NewGenerator (list models.Trade) unboundedConfig [] sampleTime)).
  reflexivity.
Defined.

(** X2. [LoadConfig] replaces a duration of 0 by five minutes and keeps
    any other: no configuration it returns has a duration of 0. *)
Theorem LoadConfig_duration_never_zero (v : config.Viper) (c : config.Config) :
  config.LoadConfig v = inl c ->
  config.Duration (config.Generate c)
  = (if config.generate_duration v =? 0 then 5 * time.Minute else config.generate_duration v) /\
  (config.Duration (config.Generate c) =? 0) = false.
Proof.
  unfold config.LoadConfig. intros H.
  destruct (config.Validate _) in H; [discriminate H|].
  injection H as <-. cbn [config.Generate config.Duration]. unfold config.orZ.
  split; [reflexivity|].
  destruct (config.generate_duration v =? 0) eqn:E; [reflexivity|exact E].
Qed.

Lemma LoadConfig_duration_never_zero_witness :
  config.Duration (config.Generate sampleConfig) = 5 * time.Minute /\
  (config.Duration (config.Generate sampleConfig) =? 0) = false.
Proof.
  apply (LoadConfig_duration_never_zero durationZeroFlags sampleConfig). reflexivity.
Defined.

(** C5 (the code at the failing input). With [--duration 0] the loaded
    configuration has a duration of five minutes, not 0, and the generate
    command stops on its deadline at the first tick later than five minutes
    after the start, without any cancellation. *)
Theorem duration_zero_runs_five_minutes :
  (exists c, config.LoadConfig durationZeroFlags = inl c /\
             config.Duration (config.Generate c) = 5 * time.Minute) /\
  (exists g,
     main.runGenerate (list models.Trade) logSink durationZeroFlags [] sampleTime sampleTime
       [Tick (time.Add sampleTime (5 * time.Minute + 1)) (time.Add sampleTime (5 * time.Minute + 1))]
       (constTape 3 1)
     = inr (Stopped _ DeadlinePassed g)).
Proof.
  split.
  - eexists. split; reflexivity.
  - eexists. vm_compute. reflexivity.
Qed.
End Duration.

(** ** Statistics of a whole run *)

Section RunStatistics.
Import profiles models patterns generator.
Local Open Scope Z_scope.

Variable cat : list TraderProfile.

Lemma SelectProfile_In (a b c : Q) (r : rand.Rand) (p : TraderProfile) :
  fst (SelectProfile cat a b c r) = Some p -> In p cat.
Proof.
  unfold SelectProfile. rewrite bind_run.
  set (u := fst (rand.Float64 r)). set (r1 := snd (rand.Float64 r)).
  set (bucket := if Qlt_bool u a then ofType HFTTrader cat
                 else if Qlt_bool u (a + b)%Q then ofType RegularTrader cat
                 else ofType CasualTrader cat).
  assert (Hsub : forall q, In q bucket -> In q cat).
  { intros q Hq. subst bucket. unfold ofType in Hq.
    destruct (Qlt_bool u a); [|destruct (Qlt_bool u (a + b)%Q)];
      apply List.filter_In in Hq; exact (proj1 Hq). }
  cbv zeta. fold bucket.
  destruct (0 <? len bucket) eqn:Eb.
  - rewrite bind_run. cbn [rand.ret fst]. intros Hp.
    destruct (pick_In bucket (fst (rand.Intn (len bucket) r1))) as (q & Hq & Hin).
    { apply Intn_range. apply Z.ltb_lt. exact Eb. }
    rewrite Hq in Hp. injection Hp as <-. apply Hsub, Hin.
  - destruct (0 <? len cat) eqn:Ec.
    + rewrite bind_run. cbn [rand.ret fst]. intros Hp.
      destruct (pick_In cat (fst (rand.Intn (len cat) r1))) as (q & Hq & Hin).
      { apply Intn_range. apply Z.ltb_lt. exact Ec. }
      rewrite Hq in Hp. injection Hp as <-. exact Hin.
    + cbn [rand.ret fst]. discriminate.
Qed.

Lemma record_inStep (g : Generator (list Trade)) (n : Z) (trade : Trade)
    (profile : TraderProfile) (isFraud : bool) :
  inStep cat g n -> n + 1 < 2 ^ 63 -> In profile cat ->
  inStep cat (set_stats _ (set_redisClient _ g (trade :: redisClient _ g))
                (updateStats (stats _ (set_redisClient _ g (trade :: redisClient _ g)))
                             trade profile isFraud)) (n + 1).
Proof.
  intros (Hcat & Hcnt & Hlog & Hn) Hmax Hin.
  unfold inStep. cbn [catalog stats redisClient set_stats set_redisClient].
  split; [exact Hcat|]. split; [|split; [|lia]].
  - apply updateStats_counted; [exact Hn|exact Hmax| |exact Hcnt].
    apply initCounters_has, Hin.
  - unfold len in *. cbn [length]. lia.
Qed.

Lemma generateNormalTrade_inStep (g : Generator (list Trade)) (n : Z)
    (now : time.Time) (r : rand.Rand) :
  inStep cat g n -> n + 20 < 2 ^ 63 ->
  exists n', n <= n' <= n + 20 /\
             inStep cat (snd (fst (generateNormalTrade _ logSink g now r))) n'.
Proof.
  intros Hinv Hmax. unfold generateNormalTrade. rewrite bind_run.
  destruct (fst (SelectProfile _ _ _ _ r)) as [profile|] eqn:Esel.
  - rewrite bind_run. unfold logSink. cbn [rand.ret fst snd].
    exists (n + 1). split; [lia|].
    apply record_inStep; [exact Hinv|lia|].
    destruct Hinv as (Hcat & _). rewrite Hcat in Esel.
    exact (SelectProfile_In _ _ _ _ _ Esel).
  - cbn [rand.ret fst snd]. exists n. split; [lia|exact Hinv].
Qed.

Lemma publishAll_inStep (profile : TraderProfile) (trades : list Trade) :
  In profile cat ->
  forall (g : Generator (list Trade)) (n : Z),
  inStep cat g n -> n + len trades < 2 ^ 63 ->
  inStep cat (snd (publishAll _ logSink g profile trades)) (n + len trades).
Proof.
  intros Hin. induction trades as [|trade rest IH]; intros g n Hinv Hmax.
  - cbn [publishAll snd]. unfold len. cbn [length].
    replace (n + Z.of_nat 0) with n by lia. exact Hinv.
  - cbn [publishAll]. unfold logSink at 1.
    unfold len in *. cbn [length] in *.
    replace (n + Z.of_nat (S (length rest))) with (n + 1 + Z.of_nat (length rest)) by lia.
    apply IH; [|lia].
    apply record_inStep; [exact Hinv|lia|exact Hin].
Qed.

Lemma patternTrades_length (g : Generator (list Trade)) (profile : TraderProfile)
    (now : time.Time) (pattern : rand.Gen (list Trade)) :
  patternTrades _ g profile now = Some pattern ->
  post pattern (fun trades => len trades <= 20).
Proof.
  unfold patternTrades. intros H r.
  destruct (FraudPattern profile); try discriminate H; injection H as <-.
  - pose proof (InjectWashTrade_length (patternGenerator _ g) profile now r) as Hl.
    cbv beta in Hl. lia.
  - pose proof (InjectVelocitySpike_length (patternGenerator _ g) profile now r) as Hl.
    cbv beta in Hl. lia.
  - rewrite bind_run. cbn [rand.ret fst]. unfold len. cbn [length]. lia.
Qed.

Lemma generateFraudPattern_inStep (g : Generator (list Trade)) (n : Z)
    (now : time.Time) (r : rand.Rand) :
  inStep cat g n -> n + 20 < 2 ^ 63 ->
  exists n', n <= n' <= n + 20 /\
             inStep cat (snd (fst (generateFraudPattern _ logSink g now r))) n'.
Proof.
  intros Hinv Hmax. unfold generateFraudPattern. rewrite bind_run.
  set (ft := parseFraudType _).
  destruct (SelectFraudProfile_cases (catalog _ g) ft r) as [[_ Hsel]|(p & Hp & Hin)].
  - rewrite Hsel. cbn [fst snd]. apply generateNormalTrade_inStep; assumption.
  - rewrite Hp. apply List.filter_In in Hin. destruct Hin as [Hin _].
    destruct (patternTrades _ g p now) as [pattern|] eqn:Epat.
    + rewrite bind_run. cbn [rand.ret fst snd].
      pose proof (patternTrades_length g p now pattern Epat
                    (snd (SelectFraudProfile (catalog _ g) ft r))) as Hlen.
      cbv beta in Hlen.
      set (trades := fst (pattern _)) in *.
      exists (n + len trades). split; [unfold len in *; lia|].
      apply publishAll_inStep; [|exact Hinv|lia].
      destruct Hinv as (Hcat & _). rewrite <- Hcat. exact Hin.
    + apply generateNormalTrade_inStep; assumption.
Qed.

Lemma loop_inStep (deadline : time.Time) (events : list Event) :
  forall (g : Generator (list Trade)) (r : rand.Rand) (n : Z),
  inStep cat g n -> n + 20 * len events < 2 ^ 63 ->
  exists n', n <= n' <= n + 20 * len events /\
             inStep cat (generatorOf (loop _ logSink deadline events g r)) n'.
Proof.
  unfold len. induction events as [|[|checked stamped] events IH]; intros g r n Hinv Hmax;
    cbn [loop length] in *.
  - exists n. split; [lia|exact Hinv].
  - exists n. split; [lia|exact Hinv].
  - destruct (negb (time.IsZero deadline) && time.After checked deadline).
    + exists n. split; [lia|exact Hinv].
    + assert (Hstep : exists n1, n <= n1 <= n + 20 /\
                inStep cat (snd (fst (generateAndPublish _ logSink g stamped r))) n1).
      { unfold generateAndPublish. rewrite bind_run.
        destruct (Qlt_bool _ _);
          [apply generateFraudPattern_inStep|apply generateNormalTrade_inStep];
          first [exact Hinv | lia]. }
      destruct (generateAndPublish _ logSink g stamped r) as [[err g1] r1].
      cbn [fst snd] in Hstep. destruct Hstep as (n1 & Hn1 & Hinv1).
      destruct (IH g1 r1 n1 Hinv1) as (n' & Hn' & Hinv'); [lia|].
      exists n'. split; [lia|exact Hinv'].
Qed.

End RunStatistics.

Section RunStatisticsClaim.
Import profiles models patterns generator.
Local Open Scope Z_scope.

(** X3. A run of the engine against a sink that accepts every trade, from a
    new generator: whenever it is looked at (still running, cancelled, or
    past its deadline), the total-trade counter and the sum of the
    per-category counters both equal the number of trades published so far
    (for runs short enough for a 64-bit counter). *)
Theorem run_statistics_match_published (c : config.Config) (now start : time.Time)
    (events : list Event) (r : rand.Rand) :
  20 * len events < 2 ^ 63 ->
  let g := generatorOf (Run _ logSink (NewGenerator (list Trade) c [] now) start events r) in
  TotalTrades (stats _ g) = len (redisClient _ g) /\
  sumCounters (ByProfile (stats _ g)) = len (redisClient _ g).
Proof.
  intros Hmax g. subst g. unfold Run.
  match goal with
  | |- context [loop _ _ ?d events ?g0 r] =>
      destruct (loop_inStep GetDefaultProfiles d events g0 r 0) as (n' & _ & Hinv)
  end.
  - unfold inStep. split; [|split; [|split]]; try reflexivity; try lia.
    apply (initialStats_counted GetDefaultProfiles now).
  - lia.
  - destruct Hinv as (_ & (Htot & Hsum & _) & Hlog & _).
    rewrite Htot, Hsum, Hlog. split; reflexivity.
Qed.

Lemma run_statistics_match_published_witness :
  let g := generatorOf
             (Run _ logSink (NewGenerator (list Trade) sampleConfig [] sampleTime) sampleTime
                  [Tick sampleTime sampleTime; Tick sampleTime sampleTime; Done]
                  (constTape 5 0)) in
  TotalTrades (stats _ g) = len (redisClient _ g) /\
  sumCounters (ByProfile (stats _ g)) = len (redisClient _ g).
Proof.
  apply (run_statistics_match_published sampleConfig sampleTime sampleTime
           [Tick sampleTime sampleTime; Tick sampleTime sampleTime; Done] (constTape 5 0)).
  vm_compute. reflexivity.
Defined.
End RunStatisticsClaim.

(** ** Profile selection for normal trades *)

Section NormalSelection.
Import profiles.
Local Open Scope Q_scope.

Lemma ofType_In (ty : TraderType) (cat : list TraderProfile) (p : TraderProfile) :
  In p (ofType ty cat) <-> In p cat /\ Type_ p = ty.
Proof.
  unfold ofType. rewrite List.filter_In, TraderType_eqb_eq. reflexivity.
Qed.

Lemma hasType_ofType (ty : TraderType) (cat : list TraderProfile) :
  hasType ty cat = true -> (0 < len (ofType ty cat))%Z.
Proof.
  unfold hasType. rewrite existsb_exists. intros (p & Hin & Hty).
  apply TraderType_eqb_eq in Hty.
  assert (Hp : In p (ofType ty cat)) by (apply ofType_In; split; assumption).
  unfold len. destruct (ofType ty cat); [destruct Hp|cbn [length]; lia].
Qed.

(** X4. [SelectProfile] returns nil exactly when the catalog is empty, and
    any profile it returns is a profile of the catalog, whatever the ratios
    and the draws. *)
Theorem SelectProfile_nil_iff_empty (cat : list TraderProfile) (a b c : Q) (r : rand.Rand) :
  (fst (SelectProfile cat a b c r) = None <-> cat = []) /\
  (forall p, fst (SelectProfile cat a b c r) = Some p -> In p cat).
Proof.
  split; [|intros p Hp; exact (SelectProfile_In cat a b c r p Hp)].
  unfold SelectProfile. rewrite bind_run.
  set (u := fst (rand.Float64 r)). set (r1 := snd (rand.Float64 r)). cbv zeta.
  set (bucket := if Qlt_bool u a then ofType HFTTrader cat
                 else if Qlt_bool u (a + b) then ofType RegularTrader cat
                 else ofType CasualTrader cat).
  destruct (0 <? len bucket)%Z eqn:Eb.
  - rewrite bind_run. cbn [rand.ret fst].
    destruct (pick_In bucket (fst (rand.Intn (len bucket) r1))) as (q & Hq & Hin).
    { apply Intn_range. apply Z.ltb_lt. exact Eb. }
    rewrite Hq. split; [discriminate|]. intros ->.
    subst bucket. destruct (Qlt_bool u a); [|destruct (Qlt_bool u (a + b))]; destruct Hin.
  - destruct (0 <? len cat)%Z eqn:Ec.
    + rewrite bind_run. cbn [rand.ret fst].
      destruct (pick_In cat (fst (rand.Intn (len cat) r1))) as (q & Hq & Hin).
      { apply Intn_range. apply Z.ltb_lt. exact Ec. }
      rewrite Hq. split; [discriminate|]. intros ->. destruct Hin.
    + cbn [rand.ret fst]. split; [intros _|reflexivity].
      apply Z.ltb_ge in Ec. unfold len in Ec. destruct cat; [reflexivity|cbn [length] in Ec; lia].
Qed.

(** X5. When the catalog holds an HFT, a Regular and a Casual profile, the
    first draw u alone decides the category of the selected profile: HFT when
    u < hftRatio, Regular when u < hftRatio + regularRatio, Casual otherwise
    (the casual ratio plays no part); a Fraud profile is never selected. *)
Theorem SelectProfile_category (cat : list TraderProfile) (a b c : Q) (r : rand.Rand) :
  hasType HFTTrader cat = true ->
  hasType RegularTrader cat = true ->
  hasType CasualTrader cat = true ->
  exists p, fst (SelectProfile cat a b c r) = Some p /\
            In p cat /\
            Type_ p = bucketType a b (fst (rand.Float64 r)) /\
            TraderType_eqb (Type_ p) FraudTrader = false.
Proof.
  intros Hh Hr Hc. apply hasType_ofType in Hh, Hr, Hc.
  unfold SelectProfile. rewrite bind_run.
  set (u := fst (rand.Float64 r)). set (r1 := snd (rand.Float64 r)). cbv zeta.
  unfold bucketType.
  set (ty := if Qlt_bool u a then HFTTrader
             else if Qlt_bool u (a + b) then RegularTrader else CasualTrader).
  replace (if Qlt_bool u a then ofType HFTTrader cat
           else if Qlt_bool u (a + b) then ofType RegularTrader cat
           else ofType CasualTrader cat)
    with (ofType ty cat)
    by (subst ty; destruct (Qlt_bool u a); [|destruct (Qlt_bool u (a + b))]; reflexivity).
  assert (Hlen : (0 < len (ofType ty cat))%Z)
    by (subst ty; destruct (Qlt_bool u a); [|destruct (Qlt_bool u (a + b))]; assumption).
  assert (Hnf : TraderType_eqb ty FraudTrader = false)
    by (subst ty; destruct (Qlt_bool u a); [|destruct (Qlt_bool u (a + b))]; reflexivity).
  replace (0 <? len (ofType ty cat))%Z with true by (symmetry; apply Z.ltb_lt; exact Hlen).
  rewrite bind_run. cbn [rand.ret fst].
  destruct (pick_In (ofType ty cat) (fst (rand.Intn (len (ofType ty cat)) r1)))
    as (q & Hq & Hin); [apply Intn_range, Hlen|].
  apply ofType_In in Hin. destruct Hin as [Hin Hty].
  exists q. rewrite Hty. repeat split; assumption.
Qed.

Lemma SelectProfile_category_witness :
  exists p, fst (SelectProfile GetDefaultProfiles 0.2 0.7 0.1 (constTape 5 0)) = Some p /\
            In p GetDefaultProfiles /\
            Type_ p = bucketType 0.2 0.7 (fst (rand.Float64 (constTape 5 0))) /\
            TraderType_eqb (Type_ p) FraudTrader = false.
Proof.
  apply (SelectProfile_category GetDefaultProfiles 0.2 0.7 0.1 (constTape 5 0)); reflexivity.
Defined.
End NormalSelection.

(** ** Prices and amounts, case by case *)

Section PriceAmountCases.
Import profiles models patterns.
Local Open Scope Q_scope.

(** X6. The price [GetPrice] returns differs from the base price of the
    symbol by at most 1% of it, whatever the table and the draw; the base
    price of a symbol the table does not list is 100, so that its price lies
    between 99 and 101. *)
Theorem GetPrice_within_one_percent (pg : PatternGenerator) (symbol : string) (r : rand.Rand) :
  Qabs (fst (GetPrice pg symbol r) - basePriceOf pg symbol)
    <= 0.01 * Qabs (basePriceOf pg symbol) /\
  (symbolPrices pg !! symbol = None ->
   99 <= fst (GetPrice pg symbol r) /\ fst (GetPrice pg symbol r) <= 101).
Proof.
  unfold GetPrice. rewrite bind_run. cbn [rand.ret fst].
  destruct (Float64_range r) as [Hu0 Hu1].
  set (u := fst (rand.Float64 r)) in *. set (b := basePriceOf pg symbol).
  assert (Hdiff : b * (1 + (u - 0.5) * 0.02) - b == b * ((u - 0.5) * 0.02)) by ring.
  split.
  - rewrite Hdiff, Qabs_Qmult.
    assert (Hf : Qabs ((u - 0.5) * 0.02) <= 0.01)
      by (apply Qabs_Qle_condition; split; lra).
    pose proof (Qabs_nonneg b) as Hb.
    assert (0 <= Qabs b * (0.01 - Qabs ((u - 0.5) * 0.02)))
      by (apply Qmult_le_0_compat; lra).
    lra.
  - intros Hnone. subst b. unfold basePriceOf. rewrite Hnone. split; lra.
Qed.

(** X7. For a profile whose average trade size is not negative,
    [GenerateAmount] returns the sampled amount itself whenever it lies
    between the bounds, the lower bound when it is below and the upper bound
    when it is above. *)
Theorem GenerateAmount_cases (pg : PatternGenerator) (p : TraderProfile) (r : rand.Rand) :
  0 <= AvgTradeSize p ->
  let mean := AvgTradeSize p in
  let sampled := mean + fst (rand.NormFloat64 r) * (mean * Volatility p) in
  (sampled < mean * 0.1 -> fst (GenerateAmount pg p r) = mean * 0.1) /\
  (mean * 0.1 <= sampled -> sampled <= mean * 3.0 -> fst (GenerateAmount pg p r) = sampled) /\
  (mean * 3.0 < sampled -> fst (GenerateAmount pg p r) = mean * 3.0).
Proof.
  intros Hpos. cbv zeta. unfold GenerateAmount. rewrite bind_run. cbn [rand.ret fst].
  set (mean := AvgTradeSize p) in *.
  set (sampled := mean + fst (rand.NormFloat64 r) * (mean * Volatility p)).
  unfold clamp.
  split; [|split].
  - intros Hlow. apply Qlt_bool_iff in Hlow. rewrite Hlow.
    replace (Qlt_bool (mean * 3.0) (mean * 0.1)) with false; [reflexivity|].
    symmetry. apply Qlt_bool_false. lra.
  - intros Hlo Hhi. apply Qlt_bool_false in Hlo, Hhi. rewrite Hlo, Hhi. reflexivity.
  - intros Hhigh.
    replace (Qlt_bool sampled (mean * 0.1)) with false
      by (symmetry; apply Qlt_bool_false; lra).
    apply Qlt_bool_iff in Hhigh. rewrite Hhigh. reflexivity.
Qed.

Lemma GenerateAmount_cases_witness :
  0 <= AvgTradeSize (profileOf "USER_001") /\
  fst (GenerateAmount NewPatternGenerator (profileOf "USER_001") (constTape 7 1))
  = AvgTradeSize (profileOf "USER_001")
    + fst (rand.NormFloat64 (constTape 7 1))
      * (AvgTradeSize (profileOf "USER_001") * Volatility (profileOf "USER_001")).
Proof.
  split; [discriminate|].
  apply (GenerateAmount_cases NewPatternGenerator (profileOf "USER_001") (constTape 7 1));
    discriminate.
Defined.
End PriceAmountCases.

(** ** Loaded configurations *)

Section LoadedConfigurations.
Import config.
Local Open Scope Q_scope.

(** The first check of [Validate], on an integer. *)
Lemma Validate_TPS (c : Config) :
  Validate c = None -> (1 <= TPS (Generate c) <= 10000)%Z.
Proof.
  unfold Validate.
  destruct ((TPS (Generate c) <? 1) || (10000 <? TPS (Generate c)))%Z eqn:Etps;
    [discriminate|].
  intros _. apply orb_false_iff in Etps. destruct Etps as [Et1 Et2].
  apply Z.ltb_ge in Et1, Et2. lia.
Qed.

(** X8. Every configuration that [LoadConfig] returns has a number of
    trades per second between 1 and 10000; none of its defaulted integer
    and text fields keeps its zero value (port, statistics interval, fraud
    type); and the tick interval [Run] derives from it lies
    between 100 microseconds and one second, so that the ticker is always
    given a positive period. The statement is about the integer and text
    fields only: what [Validate] leaves through of the fraud rate and of
    the ratios depends on how float64 comparisons treat values that are
    not numbers, which the rationals of this development do not have. *)
Theorem LoadConfig_result_in_range (v : Viper) (c : Config) :
  LoadConfig v = inl c ->
  (1 <= TPS (Generate c) <= 10000)%Z /\
  ((Port (Redis c) =? 0)%Z = false /\
   (StatsInterval (Generate c) =? 0)%Z = false /\
   String.eqb (FraudType (Generate c)) "" = false) /\
  (100000 <= generator.tickInterval c <= 1000000000)%Z.
Proof.
  unfold LoadConfig. intros H.
  destruct (Validate _) eqn:Ev in H; [discriminate H|].
  injection H as <-. pose proof (Validate_TPS _ Ev) as Htps.
  split; [exact Htps|]. split.
  - cbn [Redis Generate Port StatsInterval FraudType].
    unfold orZ.
    repeat split.
    + destruct (redis_port v =? 0)%Z eqn:E; [reflexivity|exact E].
    + destruct (generate_stats_interval v =? 0)%Z eqn:E; [reflexivity|exact E].
    + destruct (String.eqb (generate_fraud_type v) "") eqn:E; [reflexivity|exact E].
  - unfold generator.tickInterval.
    set (tps := TPS (Generate _)) in *.
    rewrite Z.quot_div_nonneg by (unfold time.Second; lia).
    unfold time.Second. split.
    + apply Z.div_le_lower_bound; lia.
    + apply Z.div_le_upper_bound; lia.
Qed.

Lemma LoadConfig_result_in_range_witness :
  (1 <= TPS (Generate sampleConfig) <= 10000)%Z /\
  ((Port (Redis sampleConfig) =? 0)%Z = false /\
   (StatsInterval (Generate sampleConfig) =? 0)%Z = false /\
   String.eqb (FraudType (Generate sampleConfig)) "" = false) /\
  (100000 <= generator.tickInterval sampleConfig <= 1000000000)%Z.
Proof.
  apply (LoadConfig_result_in_range flagDefaults sampleConfig). reflexivity.
Defined.

(** X9. A share of 0 cannot be configured: when the HFT ratio is 0 and the
    three ratios given sum to 1 within 0.01 (the other two not being 0),
    [LoadConfig] puts the default 0.20 in place of the 0 and then rejects the
    configuration for the sum of its ratios, which is 0.20 above the sum
    given. *)
Theorem LoadConfig_rejects_zero_hft_ratio (v : Viper) :
  (generate_tps v = 0 \/ 1 <= generate_tps v <= 10000)%Z ->
  0 <= generate_fraud_rate v -> generate_fraud_rate v <= 1 ->
  profiles_hft_ratio v == 0 ->
  ~ profiles_regular_ratio v == 0 -> ~ profiles_casual_ratio v == 0 ->
  0.99 <= profiles_hft_ratio v + profiles_regular_ratio v + profiles_casual_ratio v ->
  exists sum, LoadConfig v = inr (ErrRatioSum sum) /\
              sum == 0.20 + profiles_regular_ratio v + profiles_casual_ratio v.
Proof.
  intros Htps Hr0 Hr1 Hh Hreg Hcas Hsum.
  unfold LoadConfig, Validate.
  cbn [Generate Profiles TPS FraudRate HFTRatio RegularRatio CasualRatio].
  replace ((orZ (generate_tps v) 100 <? 1) || (10000 <? orZ (generate_tps v) 100))%Z with false.
  2:{ symmetry. apply orb_false_iff. unfold orZ.
      destruct (generate_tps v =? 0)%Z eqn:E; split;
        try apply Z.ltb_ge; try lia.
      all: apply Z.eqb_neq in E; lia. }
  replace (Qlt_bool (generate_fraud_rate v) 0 || Qlt_bool 1 (generate_fraud_rate v)) with false
    by (symmetry; apply orb_false_iff; split; apply Qlt_bool_false; assumption).
  unfold orQ.
  replace (Qeq_bool (profiles_hft_ratio v) 0) with true
    by (symmetry; apply Qeq_bool_iff; exact Hh).
  replace (Qeq_bool (profiles_regular_ratio v) 0) with false
    by (symmetry; apply not_true_is_false; intros E; apply Qeq_bool_iff in E; exact (Hreg E)).
  replace (Qeq_bool (profiles_casual_ratio v) 0) with false
    by (symmetry; apply not_true_is_false; intros E; apply Qeq_bool_iff in E; exact (Hcas E)).
  cbv zeta.
  replace (Qlt_bool (0.20 + profiles_regular_ratio v + profiles_casual_ratio v) 0.99
           || Qlt_bool 1.01 (0.20 + profiles_regular_ratio v + profiles_casual_ratio v))
    with true.
  2:{ symmetry. apply orb_true_iff. right. apply Qlt_bool_iff. lra. }
  eexists. split; reflexivity.
Qed.

Lemma LoadConfig_rejects_zero_hft_ratio_witness :
  exists sum, LoadConfig (ratioFlags 0 0.9 0.1) = inr (ErrRatioSum sum) /\ sum == 0.20 + 0.9 + 0.1.
Proof.
  apply (LoadConfig_rejects_zero_hft_ratio (ratioFlags 0 0.9 0.1));
    try reflexivity; try discriminate.
  right. cbn. lia.
Defined.
End LoadedConfigurations.

(** ** What each counter counts *)

Section CounterMeanings.
Import profiles models generator.
Local Open Scope Z_scope.

Lemma recordAll_snoc (st : Statistics) (calls : list (Trade * TraderProfile * bool))
    (call : Trade * TraderProfile * bool) :
  recordAll st (calls ++ [call])
  = updateStats (recordAll st calls) (fst (fst call)) (snd (fst call)) (snd call).
Proof. unfold recordAll. rewrite fold_left_app. reflexivity. Qed.

Lemma len_snoc {A} (l : list A) (x : A) : len (l ++ [x]) = len l + 1.
Proof. unfold len. rewrite length_app. cbn [length]. lia. Qed.

Lemma len_filter_snoc {A} (f : A -> bool) (l : list A) (x : A) :
  len (List.filter f (l ++ [x])) = len (List.filter f l) + (if f x then 1 else 0).
Proof.
  rewrite List.filter_app. cbn [List.filter]. unfold len. rewrite length_app.
  destruct (f x); cbn [length]; lia.
Qed.

Lemma len_filter_bounds {A} (f : A -> bool) (l : list A) :
  0 <= len (List.filter f l) <= len l.
Proof.
  unfold len. pose proof (List.filter_length_le f l). lia.
Qed.

Lemma TraderType_string_inj (a b : TraderType) :
  TraderType_string a = TraderType_string b -> a = b.
Proof. destruct a, b; cbn; intros H; try reflexivity; discriminate H. Qed.

Lemma initCounters_lookup (cat : list TraderProfile) (ty : TraderType) :
  forall m : gmap string Z,
  initCounters cat m !! TraderType_string ty
  = if hasType ty cat then Some 0 else m !! TraderType_string ty.
Proof.
  unfold initCounters, hasType.
  induction cat as [|q cat IH]; intros m; cbn [fold_left existsb]; [reflexivity|].
  rewrite IH. destruct (existsb _ cat) eqn:Ecat.
  - rewrite orb_true_r. reflexivity.
  - rewrite orb_false_r. destruct (TraderType_eqb (profiles.Type_ q) ty) eqn:Eq.
    + apply TraderType_eqb_eq in Eq. subst ty. apply lookup_insert_eq.
    + apply lookup_insert_ne. intros Heq. apply TraderType_string_inj in Heq.
      apply TraderType_eqb_eq in Heq. congruence.
Qed.

Lemma updateStats_BySymbol (st : Statistics) (trade : Trade) (profile : TraderProfile)
    (isFraud : bool) (s : string) :
  BySymbol (updateStats st trade profile isFraud) !! s
  = if String.eqb (Symbol trade) s
    then Some (int64 (default 0 (BySymbol st !! s) + 1))
    else BySymbol st !! s.
Proof.
  unfold updateStats. cbn [BySymbol].
  destruct (String.eqb (Symbol trade) s) eqn:E.
  - apply String.eqb_eq in E. subst s. rewrite lookup_alter_eq.
    destruct (BySymbol st !! Symbol trade) as [k|] eqn:Ek.
    + rewrite Ek. reflexivity.
    + rewrite lookup_insert_eq. reflexivity.
  - apply String.eqb_neq in E. rewrite lookup_alter_ne by exact E.
    destruct (BySymbol st !! Symbol trade); [reflexivity|].
    apply lookup_insert_ne. exact E.
Qed.

Lemma updateStats_ByProfile (st : Statistics) (trade : Trade) (profile : TraderProfile)
    (isFraud : bool) (ty : TraderType) :
  ByProfile (updateStats st trade profile isFraud) !! TraderType_string ty
  = if TraderType_eqb (profiles.Type_ profile) ty
    then (fun counter => int64 (counter + 1)) <$> ByProfile st !! TraderType_string ty
    else ByProfile st !! TraderType_string ty.
Proof.
  unfold updateStats. cbn [ByProfile].
  destruct (TraderType_eqb (profiles.Type_ profile) ty) eqn:E.
  - apply TraderType_eqb_eq in E. subst ty.
    destruct (ByProfile st !! TraderType_string (profiles.Type_ profile)) as [k|] eqn:Ek.
    + rewrite lookup_insert_eq. reflexivity.
    + rewrite Ek. reflexivity.
  - assert (Hne : TraderType_string (profiles.Type_ profile) <> TraderType_string ty).
    { intros Heq. apply TraderType_string_inj in Heq. apply TraderType_eqb_eq in Heq. congruence. }
    destruct (ByProfile st !! TraderType_string (profiles.Type_ profile)); [|reflexivity].
    apply lookup_insert_ne. exact Hne.
Qed.

(** X10. The per-symbol counters are created on first sight and count: after
    any sequence of recorded trades (fewer than 2^63), a symbol has a counter
    exactly when some recorded trade carried it, and the counter is the
    number of those trades. *)
Theorem symbol_counters_count_trades (cat : list TraderProfile) (now : time.Time)
    (calls : list (Trade * TraderProfile * bool)) (s : string) :
  len calls < 2 ^ 63 ->
  BySymbol (recordAll (initialStats cat now) calls) !! s
  = if symbolCount s calls =? 0 then None else Some (symbolCount s calls).
Proof.
  induction calls as [|call calls IH] using rev_ind; intros Hmax.
  - reflexivity.
  - rewrite len_snoc in Hmax. rewrite recordAll_snoc, updateStats_BySymbol.
    rewrite IH by lia. unfold symbolCount. rewrite len_filter_snoc.
    set (k := len (List.filter _ calls)) in *.
    assert (Hb : 0 <= k <= len calls) by apply len_filter_bounds.
    destruct (String.eqb (Symbol (fst (fst call))) s).
    + replace (k + 1 =? 0) with false by (symmetry; apply Z.eqb_neq; lia).
      destruct (k =? 0) eqn:Ek; cbv [default from_option id]; rewrite int64_small by lia;
        [apply Z.eqb_eq in Ek; rewrite Ek|]; reflexivity.
    + rewrite Z.add_0_r. reflexivity.
Qed.

Lemma symbol_counters_count_trades_witness :
  BySymbol (recordAll (initialStats GetDefaultProfiles sampleTime)
              [ (sampleTrade (profileOf "HFT_001") "AAPL" 75000 175.5, profileOf "HFT_001", false);
                (sampleTrade (profileOf "USER_002") "AAPL" 7000 176, profileOf "USER_002", false);
                (sampleTrade (profileOf "CASUAL_001") "SPY" 1000 475.2, profileOf "CASUAL_001", false) ])
    !! "AAPL"%string
  = Some 2.
Proof.
  apply (symbol_counters_count_trades GetDefaultProfiles sampleTime
           [ (sampleTrade (profileOf "HFT_001") "AAPL" 75000 175.5, profileOf "HFT_001", false);
             (sampleTrade (profileOf "USER_002") "AAPL" 7000 176, profileOf "USER_002", false);
             (sampleTrade (profileOf "CASUAL_001") "SPY" 1000 475.2, profileOf "CASUAL_001", false) ]
           "AAPL"%string).
  reflexivity.
Defined.

(** X11. The fraud counter is the number of recorded trades flagged as
    fraud, and it never exceeds the total-trade counter, which is the number
    of recorded trades whatever their profiles (fewer than 2^63 trades). *)
Theorem fraud_counter_is_flag_count (cat : list TraderProfile) (now : time.Time)
    (calls : list (Trade * TraderProfile * bool)) :
  len calls < 2 ^ 63 ->
  TotalTrades (recordAll (initialStats cat now) calls) = len calls /\
  FraudPatterns (recordAll (initialStats cat now) calls) = fraudCount calls /\
  0 <= FraudPatterns (recordAll (initialStats cat now) calls)
    <= TotalTrades (recordAll (initialStats cat now) calls).
Proof.
  induction calls as [|call calls IH] using rev_ind; intros Hmax.
  - cbn. unfold fraudCount, len. cbn. lia.
  - rewrite len_snoc in *. rewrite recordAll_snoc.
    destruct IH as (Ht & Hf & Hb); [lia|].
    unfold fraudCount in *. rewrite len_filter_snoc.
    pose proof (len_filter_bounds (fun call : Trade * TraderProfile * bool => snd call) calls) as Hfb.
    unfold updateStats. cbn [TotalTrades FraudPatterns]. rewrite Ht, Hf.
    destruct (snd call); rewrite !int64_small by lia; lia.
Qed.

Lemma fraud_counter_is_flag_count_witness :
  let calls :=
    [ (sampleTrade (profileOf "FRAUD_WASH_001") "PENNY_A" 10000 2.5, profileOf "FRAUD_WASH_001", true);
      (sampleTrade (profileOf "HFT_001") "AAPL" 75000 175.5, profileOf "HFT_001", false);
      (sampleTrade (profileOf "FRAUD_WASH_001") "PENNY_A" 10000 2.5, profileOf "FRAUD_WASH_001", true) ] in
  TotalTrades (recordAll (initialStats GetDefaultProfiles sampleTime) calls) = 3 /\
  FraudPatterns (recordAll (initialStats GetDefaultProfiles sampleTime) calls) = 2 /\
  0 <= FraudPatterns (recordAll (initialStats GetDefaultProfiles sampleTime) calls)
    <= TotalTrades (recordAll (initialStats GetDefaultProfiles sampleTime) calls).
Proof.
  intros calls.
  apply (fraud_counter_is_flag_count GetDefaultProfiles sampleTime calls). reflexivity.
Defined.

(** X12. The per-category counters exist for the profile types of the
    catalog only: after any sequence of recorded trades (fewer than 2^63),
    the counter of a type the catalog holds is the number of recorded trades
    of profiles of that type, and a type the catalog does not hold has no
    counter, so that its trades are counted in the total alone. *)
Theorem category_counters_count_trades (cat : list TraderProfile) (now : time.Time)
    (calls : list (Trade * TraderProfile * bool)) (ty : TraderType) :
  len calls < 2 ^ 63 ->
  ByProfile (recordAll (initialStats cat now) calls) !! TraderType_string ty
  = if hasType ty cat then Some (typeCount ty calls) else None.
Proof.
  induction calls as [|call calls IH] using rev_ind; intros Hmax.
  - cbn [recordAll fold_left initialStats ByProfile]. rewrite initCounters_lookup.
    destruct (hasType ty cat); [reflexivity|apply lookup_empty].
  - rewrite len_snoc in Hmax. rewrite recordAll_snoc, updateStats_ByProfile.
    rewrite IH by lia. unfold typeCount. rewrite len_filter_snoc.
    set (k := len (List.filter _ calls)) in *.
    assert (Hb : 0 <= k <= len calls) by apply len_filter_bounds.
    destruct (TraderType_eqb (profiles.Type_ (snd (fst call))) ty).
    + destruct (hasType ty cat); [|reflexivity].
      cbn [fmap option_fmap option_map]. rewrite int64_small by lia. reflexivity.
    + rewrite Z.add_0_r. reflexivity.
Qed.

Lemma category_counters_count_trades_witness :
  ByProfile (recordAll (initialStats [profileOf "HFT_001"] sampleTime)
               [ (sampleTrade (profileOf "FRAUD_WASH_001") "PENNY_A" 10000 2.5,
                  profileOf "FRAUD_WASH_001", true) ])
    !! TraderType_string FraudTrader
  = None.
Proof.
  apply (category_counters_count_trades [profileOf "HFT_001"] sampleTime
           [ (sampleTrade (profileOf "FRAUD_WASH_001") "PENNY_A" 10000 2.5,
              profileOf "FRAUD_WASH_001", true) ] FraudTrader).
  reflexivity.
Defined.
End CounterMeanings.

(** ** The volume counter *)

Section VolumeCounter.
Import profiles models generator.
Local Open Scope Q_scope.

Lemma exactCents_snoc (calls : list (Trade * TraderProfile * bool))
    (call : Trade * TraderProfile * bool) :
  exactCents (calls ++ [call])
  == exactCents calls + Amount (fst (fst call)) * Price (fst (fst call)) * 100.
Proof.
  unfold exactCents. induction calls as [|c calls IH]; cbn [app fold_right].
  - ring.
  - rewrite IH. ring.
Qed.

Lemma uint64_small (x : Z) : (0 <= x < 2 ^ 64)%Z -> uint64 x = x.
Proof. intros Hx. unfold uint64. apply Z.mod_small. exact Hx. Qed.

(** The conversion of a float that is not negative drops less than one. *)
Lemma truncation_bounds (q : Q) :
  0 <= q ->
  let z := Z.quot (Qnum q) (Z.pos (Qden q)) in
  (0 <= z)%Z /\ inject_Z z <= q /\ q < inject_Z z + 1.
Proof.
  intros Hq. cbv zeta.
  assert (Hnum : (0 <= Qnum q)%Z) by (unfold Qle in Hq; cbn in Hq; lia).
  rewrite Z.quot_div_nonneg by lia.
  replace (Qnum q / Z.pos (Qden q))%Z with (Qfloor q) by (destruct q; reflexivity).
  split; [|split].
  - destruct q as [n d]. cbn in *. apply Z.div_pos; lia.
  - apply Qfloor_le.
  - pose proof (Qlt_floor q) as H. rewrite inject_Z_plus in H. exact H.
Qed.
Lemma volume_step (st : Statistics) (trade : Trade) (profile : TraderProfile)
    (isFraud : bool) (exact : Q) (n : Z) :
  0 <= Amount trade * Price trade * 100 ->
  exact + Amount trade * Price trade * 100 < inject_Z (2 ^ 64) ->
  (0 <= VolumeGenerated st)%Z ->
  inject_Z (VolumeGenerated st) <= exact ->
  exact <= inject_Z (VolumeGenerated st) + inject_Z n ->
  let st' := updateStats st trade profile isFraud in
  (0 <= VolumeGenerated st')%Z /\
  inject_Z (VolumeGenerated st') <= exact + Amount trade * Price trade * 100 /\
  exact + Amount trade * Price trade * 100 <= inject_Z (VolumeGenerated st') + inject_Z (n + 1).
Proof.
  intros Hq Hmax Hv0 Hlo Hhi. cbv zeta.
  unfold updateStats. cbn [VolumeGenerated]. unfold uint64_of_float.
  set (q := Amount trade * Price trade * 100) in *.
  destruct (truncation_bounds q Hq) as (Hz0 & Hzlo & Hzhi). cbv zeta in Hz0, Hzlo, Hzhi.
  set (z := Z.quot (Qnum q) (Z.pos (Qden q))) in *.
  set (v := VolumeGenerated st) in *.
  assert (Hsum : inject_Z (v + z) < inject_Z (2 ^ 64)) by (rewrite inject_Z_plus; lra).
  rewrite <- Zlt_Qlt in Hsum.
  rewrite (uint64_small z) by lia. rewrite (uint64_small (v + z)) by lia.
  rewrite !inject_Z_plus. split; [lia|]. split; [lra|].
  change (inject_Z 1) with 1. lra.
Qed.

(** X13. The volume counter is the total notional of the recorded trades
    in cents, to within two cents per recorded trade: when the notional of
    each trade is not negative and below 2^51 cents, and the total with
    that margin is below 2^64 cents, the counter and the exact total differ
    by at most twice the number of recorded trades. The conversion to an
    integer drops less than one cent of each notional; the second cent is
    the room left for the rounding of the two float64 multiplications of
    the program, which for a notional below 2^51 cents is below one cent. *)
Theorem volume_counter_near_exact_total (cat : list TraderProfile) (now : time.Time)
    (calls : list (Trade * TraderProfile * bool)) :
  (forall call, In call calls ->
     0 <= Amount (fst (fst call)) * Price (fst (fst call)) /\
     Amount (fst (fst call)) * Price (fst (fst call)) * 100 < inject_Z (2 ^ 51)) ->
  exactCents calls + 2 * inject_Z (len calls) < inject_Z (2 ^ 64) ->
  Qabs (inject_Z (VolumeGenerated (recordAll (initialStats cat now) calls)) - exactCents calls)
  <= 2 * inject_Z (len calls).
Proof.
  intros Hpos Hmax.
  assert (Hlen : 0 <= inject_Z (len calls)).
  { change 0 with (inject_Z 0). rewrite <- Zle_Qle. unfold len. lia. }
  assert (Hmax' : exactCents calls < inject_Z (2 ^ 64)) by lra.
  clear Hmax.
  assert (H : (0 <= VolumeGenerated (recordAll (initialStats cat now) calls))%Z /\
              inject_Z (VolumeGenerated (recordAll (initialStats cat now) calls))
                <= exactCents calls /\
              exactCents calls
                <= inject_Z (VolumeGenerated (recordAll (initialStats cat now) calls))
                   + inject_Z (len calls)).
  { clear Hlen. induction calls as [|call calls IH] using rev_ind.
    - cbn. split; [lia|]. split; discriminate.
    - assert (Hq : 0 <= Amount (fst (fst call)) * Price (fst (fst call)) * 100).
      { assert (0 <= Amount (fst (fst call)) * Price (fst (fst call)))
          by (apply Hpos, in_or_app; right; left; reflexivity).
        lra. }
      rewrite exactCents_snoc in Hmax'.
      destruct IH as (Hv0 & Hlo & Hhi).
      { intros c Hc. apply Hpos, in_or_app. left. exact Hc. }
      { lra. }
      rewrite recordAll_snoc, len_snoc.
      destruct (volume_step (recordAll (initialStats cat now) calls) (fst (fst call))
                  (snd (fst call)) (snd call) (exactCents calls) (len calls)
                  Hq Hmax' Hv0 Hlo Hhi) as (Hv0' & Hlo' & Hhi').
      cbv zeta in Hv0', Hlo', Hhi'.
      split; [exact Hv0'|]. rewrite exactCents_snoc. split; assumption. }
  destruct H as (_ & Hlo & Hhi).
  apply Qabs_Qle_condition. split; lra.
Qed.

Lemma volume_counter_near_exact_total_witness :
  let calls :=
    [ (sampleTrade (profileOf "CASUAL_001") "SPY" 1.003 3.337, profileOf "CASUAL_001", false);
      (sampleTrade (profileOf "CASUAL_001") "SPY" 2.5 1.999, profileOf "CASUAL_001", false) ] in
  Qabs (inject_Z (VolumeGenerated (recordAll (initialStats GetDefaultProfiles sampleTime) calls))
        - exactCents calls)
  <= 2 * inject_Z (len calls).
Proof.
  intros calls.
  apply (volume_counter_near_exact_total GetDefaultProfiles sampleTime calls).
  - intros call [<-|[<-|[]]]; split; reflexivity || discriminate.
  - reflexivity.
Defined.
End VolumeCounter.

(** ** Statistics of a run against a sink that fails *)

Section FailingSink.
Import profiles models patterns generator.
Local Open Scope Z_scope.

Variable cat : list TraderProfile.
Variable fails : Trade -> bool.

Lemma refused_inStep (g : Generator (list Trade)) (n : Z) :
  inStep cat g n -> inStep cat (set_redisClient _ g (redisClient _ g)) n.
Proof. intros H. exact H. Qed.

Lemma generateNormalTrade_flaky (g : Generator (list Trade)) (n : Z)
    (now : time.Time) (r : rand.Rand) :
  inStep cat g n -> n + 20 < 2 ^ 63 ->
  exists n', n <= n' <= n + 20 /\
             inStep cat (snd (fst (generateNormalTrade _ (flakySink fails) g now r))) n'.
Proof.
  intros Hinv Hmax. unfold generateNormalTrade. rewrite bind_run.
  destruct (fst (SelectProfile _ _ _ _ r)) as [profile|] eqn:Esel.
  - rewrite bind_run. unfold flakySink.
    destruct (fails _).
    + cbn [rand.ret fst snd]. exists n. split; [lia|]. apply refused_inStep, Hinv.
    + cbn [rand.ret fst snd]. exists (n + 1). split; [lia|].
      apply record_inStep; [exact Hinv|lia|].
      destruct Hinv as (Hcat & _). rewrite Hcat in Esel.
      exact (SelectProfile_In _ _ _ _ _ _ Esel).
  - cbn [rand.ret fst snd]. exists n. split; [lia|exact Hinv].
Qed.

Lemma publishAll_flaky (profile : TraderProfile) (trades : list Trade) :
  In profile cat ->
  forall (g : Generator (list Trade)) (n : Z),
  inStep cat g n -> n + len trades < 2 ^ 63 ->
  exists n', n <= n' <= n + len trades /\
             inStep cat (snd (publishAll _ (flakySink fails) g profile trades)) n'.
Proof.
  intros Hin. induction trades as [|trade rest IH]; intros g n Hinv Hmax.
  - cbn [publishAll snd]. exists n. unfold len. cbn [length]. split; [lia|exact Hinv].
  - cbn [publishAll]. unfold flakySink at 1.
    unfold len in *. cbn [length] in *.
    destruct (fails trade).
    + cbn [snd]. exists n. split; [lia|]. apply refused_inStep, Hinv.
    + destruct (IH (set_stats _ (set_redisClient _ g (trade :: redisClient _ g))
                      (updateStats (stats _ (set_redisClient _ g (trade :: redisClient _ g)))
                                   trade profile true)) (n + 1))
        as (n' & Hn' & Hinv').
      { apply record_inStep; [exact Hinv|lia|exact Hin]. }
      { lia. }
      exists n'. split; [lia|exact Hinv'].
Qed.

Lemma generateFraudPattern_flaky (g : Generator (list Trade)) (n : Z)
    (now : time.Time) (r : rand.Rand) :
  inStep cat g n -> n + 20 < 2 ^ 63 ->
  exists n', n <= n' <= n + 20 /\
             inStep cat (snd (fst (generateFraudPattern _ (flakySink fails) g now r))) n'.
Proof.
  intros Hinv Hmax. unfold generateFraudPattern. rewrite bind_run.
  set (ft := parseFraudType _).
  destruct (SelectFraudProfile_cases (catalog _ g) ft r) as [[_ Hsel]|(p & Hp & Hin)].
  - rewrite Hsel. cbn [fst snd]. apply generateNormalTrade_flaky; assumption.
  - rewrite Hp. apply List.filter_In in Hin. destruct Hin as [Hin _].
    destruct (patternTrades _ g p now) as [pattern|] eqn:Epat.
    + rewrite bind_run. cbn [rand.ret fst snd].
      pose proof (patternTrades_length g p now pattern Epat
                    (snd (SelectFraudProfile (catalog _ g) ft r))) as Hlen.
      cbv beta in Hlen.
      set (trades := fst (pattern _)) in *.
      destruct (publishAll_flaky p trades) with (g := g) (n := n) as (n' & Hn' & Hinv');
        [|exact Hinv|lia|].
      { destruct Hinv as (Hcat & _). rewrite <- Hcat. exact Hin. }
      exists n'. split; [lia|exact Hinv'].
    + apply generateNormalTrade_flaky; assumption.
Qed.

Lemma loop_flaky (deadline : time.Time) (events : list Event) :
  forall (g : Generator (list Trade)) (r : rand.Rand) (n : Z),
  inStep cat g n -> n + 20 * len events < 2 ^ 63 ->
  exists n', n <= n' <= n + 20 * len events /\
             inStep cat (generatorOf (loop _ (flakySink fails) deadline events g r)) n'.
Proof.
  unfold len. induction events as [|[|checked stamped] events IH]; intros g r n Hinv Hmax;
    cbn [loop length] in *.
  - exists n. split; [lia|exact Hinv].
  - exists n. split; [lia|exact Hinv].
  - destruct (negb (time.IsZero deadline) && time.After checked deadline).
    + exists n. split; [lia|exact Hinv].
    + assert (Hstep : exists n1, n <= n1 <= n + 20 /\
                inStep cat (snd (fst (generateAndPublish _ (flakySink fails) g stamped r))) n1).
      { unfold generateAndPublish. rewrite bind_run.
        destruct (Qlt_bool _ _);
          [apply generateFraudPattern_flaky|apply generateNormalTrade_flaky];
          first [exact Hinv | lia]. }
      destruct (generateAndPublish _ (flakySink fails) g stamped r) as [[err g1] r1].
      cbn [fst snd] in Hstep. destruct Hstep as (n1 & Hn1 & Hinv1).
      destruct (IH g1 r1 n1 Hinv1) as (n' & Hn' & Hinv'); [lia|].
      exists n'. split; [lia|exact Hinv'].
Qed.
End FailingSink.

Section FailingSinkClaim.
Import profiles models patterns generator.
Local Open Scope Z_scope.

(** X14. A failed publication is not counted: for a run of the engine from
    a new generator against a sink that refuses any trades whatsoever, the
    total-trade counter and the sum of the per-category counters both equal
    the number of trades the sink accepted, at every point of the run (for
    runs short enough for a 64-bit counter). *)
Theorem run_statistics_count_accepted_trades (fails : Trade -> bool) (c : config.Config)
    (now start : time.Time) (events : list Event) (r : rand.Rand) :
  20 * len events < 2 ^ 63 ->
  let g := generatorOf (Run _ (flakySink fails) (NewGenerator (list Trade) c [] now)
                            start events r) in
  TotalTrades (stats _ g) = len (redisClient _ g) /\
  sumCounters (ByProfile (stats _ g)) = len (redisClient _ g).
Proof.
  intros Hmax g. subst g. unfold Run.
  match goal with
  | |- context [loop _ _ ?d events ?g0 r] =>
      destruct (loop_flaky GetDefaultProfiles fails d events g0 r 0) as (n' & _ & Hinv)
  end.
  - unfold inStep. split; [|split; [|split]]; try reflexivity; try lia.
    apply (initialStats_counted GetDefaultProfiles now).
  - lia.
  - destruct Hinv as (_ & (Htot & Hsum & _) & Hlog & _).
    rewrite Htot, Hsum, Hlog. split; reflexivity.
Qed.

Lemma run_statistics_count_accepted_trades_witness :
  let g := generatorOf
             (Run _ (flakySink (fun t => match Type_ t with TradeTypeSell => true | _ => false end))
                  (NewGenerator (list Trade) (fraudConfig 1 "WASH") [] sampleTime) sampleTime
                  [Tick sampleTime sampleTime; Tick sampleTime sampleTime] (constTape 5 0)) in
  TotalTrades (stats _ g) = len (redisClient _ g) /\
  sumCounters (ByProfile (stats _ g)) = len (redisClient _ g).
Proof.
  apply (run_statistics_count_accepted_trades
           (fun t => match Type_ t with TradeTypeSell => true | _ => false end)
           (fraudConfig 1 "WASH") sampleTime sampleTime
           [Tick sampleTime sampleTime; Tick sampleTime sampleTime] (constTape 5 0)).
  vm_compute. reflexivity.
Defined.

(** In that run each wash pair loses its sell leg: two buys are published
    and counted, both as fraud. *)
Example refused_sell_legs :
  let g := generatorOf
             (Run _ (flakySink (fun t => match Type_ t with TradeTypeSell => true | _ => false end))
                  (NewGenerator (list Trade) (fraudConfig 1 "WASH") [] sampleTime) sampleTime
                  [Tick sampleTime sampleTime; Tick sampleTime sampleTime] (constTape 5 0)) in
  (map Type_ (redisClient _ g), TotalTrades (stats _ g), FraudPatterns (stats _ g))
  = ([TradeTypeBuy; TradeTypeBuy], 2, 2).
Proof. vm_compute. reflexivity. Qed.
End FailingSinkClaim.

(** ** A failure in the middle of a pattern *)

Section PatternFailure.
Import profiles models patterns generator.
Local Open Scope Z_scope.

Variable fails : Trade -> bool.

Lemma publishAll_accepted (profile : TraderProfile) (pre : list Trade) :
  forallb (fun t => negb (fails t)) pre = true ->
  forall (g : Generator (list Trade)) (rest : list Trade),
  exists g1,
    publishAll _ (flakySink fails) g profile (pre ++ rest)
    = publishAll _ (flakySink fails) g1 profile rest /\
    redisClient _ g1 = rev pre ++ redisClient _ g /\
    stats _ g1 = recordAll (stats _ g) (map (fun t => (t, profile, true)) pre) /\
    cfg _ g1 = cfg _ g /\ catalog _ g1 = catalog _ g /\
    patternGenerator _ g1 = patternGenerator _ g.
Proof.
  induction pre as [|t pre IH]; intros Hok g rest.
  - exists g. repeat split; reflexivity.
  - cbn [forallb] in Hok. apply andb_true_iff in Hok. destruct Hok as [Ht Hpre].
    apply negb_true_iff in Ht.
    cbn [app publishAll]. unfold flakySink at 1. rewrite Ht.
    destruct (IH Hpre (set_stats _ (set_redisClient _ g (t :: redisClient _ g))
                         (updateStats (stats _ (set_redisClient _ g (t :: redisClient _ g)))
                                      t profile true)) rest)
      as (g1 & Heq & Hlog & Hst & Hcfg & Hcat & Hpg).
    exists g1. split; [exact Heq|].
    cbn [redisClient stats cfg catalog patternGenerator set_stats set_redisClient] in *.
    repeat split; try assumption.
    rewrite Hlog. cbn [rev]. rewrite <- app_assoc. reflexivity.
Qed.

(** X15. The first failure ends a pattern: when the sink accepts the first
    trades of a pattern and refuses the next, the publishing loop returns the
    error, the accepted trades stay published and counted (each as a trade
    and as fraud), and the refused trade and all those after it are neither
    published nor counted. *)
Theorem publishAll_stops_at_first_failure (g : Generator (list Trade))
    (profile : TraderProfile) (pre post : list Trade) (t : Trade) :
  forallb (fun x => negb (fails x)) pre = true ->
  fails t = true ->
  let out := publishAll _ (flakySink fails) g profile (pre ++ t :: post) in
  fst out = Some (ErrPublishFraud "unavailable") /\
  redisClient _ (snd out) = rev pre ++ redisClient _ g /\
  stats _ (snd out) = recordAll (stats _ g) (map (fun x => (x, profile, true)) pre).
Proof.
  intros Hpre Ht out. subst out.
  destruct (publishAll_accepted profile pre Hpre g (t :: post))
    as (g1 & Heq & Hlog & Hst & _).
  rewrite Heq. cbn [publishAll]. unfold flakySink. rewrite Ht.
  cbn [fst snd redisClient stats set_redisClient]. repeat split; assumption.
Qed.
End PatternFailure.

Section PatternFailureWitness.
Import profiles models patterns generator.

Lemma publishAll_stops_at_first_failure_witness :
  let fails := fun t : Trade => match Type_ t with TradeTypeSell => true | _ => false end in
  let g := NewGenerator (list Trade) sampleConfig [] sampleTime in
  let buy := sampleTrade (profileOf "FRAUD_WASH_001") "PENNY_A" 10000 2.5 in
  let sell := mkTrade 1%Z "FRAUD_WASH_001" "PENNY_A" 10000 2.5 TradeTypeSell sampleTime in
  let out := publishAll _ (flakySink fails) g (profileOf "FRAUD_WASH_001") ([buy] ++ sell :: [buy]) in
  fst out = Some (ErrPublishFraud "unavailable") /\
  redisClient _ (snd out) = rev [buy] ++ redisClient _ g /\
  stats _ (snd out)
  = recordAll (stats _ g) (map (fun x => (x, profileOf "FRAUD_WASH_001", true)) [buy]).
Proof.
  intros fails g buy sell.
  apply (publishAll_stops_at_first_failure fails g (profileOf "FRAUD_WASH_001") [buy] [buy] sell);
    reflexivity.
Defined.
End PatternFailureWitness.

(** ** Runs without fraud *)

Section NoFraud.
Import profiles models patterns generator.
Local Open Scope Z_scope.

Variable RedisClient : Type.
Variable PublishTradeToStream : RedisClient -> Trade -> RedisClient * option string.

Lemma generateNormalTrade_keeps (g : Generator RedisClient) (now : time.Time) (r : rand.Rand) :
  let g' := snd (fst (generateNormalTrade _ PublishTradeToStream g now r)) in
  cfg _ g' = cfg _ g /\
  FraudPatterns (stats _ g') = FraudPatterns (stats _ g) /\
  (TotalTrades (stats _ g') = TotalTrades (stats _ g) \/
   TotalTrades (stats _ g') = int64 (TotalTrades (stats _ g) + 1)).
Proof.
  cbv zeta. unfold generateNormalTrade. rewrite bind_run.
  destruct (fst (SelectProfile _ _ _ _ r)) as [profile|].
  - rewrite bind_run.
    destruct (PublishTradeToStream _ _) as [rc [err|]]; cbn [rand.ret fst snd];
      cbn [cfg stats set_stats set_redisClient updateStats FraudPatterns TotalTrades];
      repeat split; auto.
  - cbn [rand.ret fst snd]. repeat split; auto.
Qed.

Lemma loop_without_fraud (deadline : time.Time) (events : list Event) :
  forall (g : Generator RedisClient) (r : rand.Rand),
  (config.FraudRate (config.Generate (cfg _ g)) <= 0)%Q ->
  0 <= TotalTrades (stats _ g) ->
  TotalTrades (stats _ g) + len events < 2 ^ 63 ->
  let g' := generatorOf (loop _ PublishTradeToStream deadline events g r) in
  FraudPatterns (stats _ g') = FraudPatterns (stats _ g) /\
  TotalTrades (stats _ g) <= TotalTrades (stats _ g') <= TotalTrades (stats _ g) + len events.
Proof.
  unfold len. induction events as [|[|checked stamped] events IH]; intros g r Hrate H0 Hmax;
    cbn [loop length generatorOf] in *.
  - split; [reflexivity|lia].
  - split; [reflexivity|lia].
  - destruct (negb (time.IsZero deadline) && time.After checked deadline);
      [cbn [generatorOf]; split; [reflexivity|lia]|].
    assert (Hstep : generateAndPublish _ PublishTradeToStream g stamped r
                    = generateNormalTrade _ PublishTradeToStream g stamped (snd (rand.Float64 r))).
    { unfold generateAndPublish. rewrite bind_run.
      destruct (Float64_range r) as [Hu _].
      replace (Qlt_bool _ _) with false; [reflexivity|].
      symmetry. apply Qlt_bool_false. lra. }
    rewrite Hstep.
    pose proof (generateNormalTrade_keeps g stamped (snd (rand.Float64 r))) as Hk.
    destruct (generateNormalTrade _ PublishTradeToStream g stamped _) as [[err g1] r1].
    cbv zeta in Hk. cbn [fst snd] in Hk. destruct Hk as (Hcfg & Hf & Ht).
    assert (Ht' : TotalTrades (stats _ g) <= TotalTrades (stats _ g1)
                  <= TotalTrades (stats _ g) + 1).
    { destruct Ht as [Ht|Ht]; rewrite Ht; [lia|]. rewrite int64_small by lia. lia. }
    destruct (IH g1 r1) as [Hf' Ht'']; [rewrite Hcfg; exact Hrate|lia|lia|].
    split; [congruence|lia].
Qed.

(** X16. With a fraud rate of 0 (or less) the engine never takes the fraud
    branch: over a whole run, whatever the sink does, the fraud counter does
    not move and every tick records at most one trade. *)
Theorem no_fraud_rate_no_fraud (g : Generator RedisClient) (start : time.Time)
    (events : list Event) (r : rand.Rand) :
  (config.FraudRate (config.Generate (cfg _ g)) <= 0)%Q ->
  0 <= TotalTrades (stats _ g) ->
  TotalTrades (stats _ g) + len events < 2 ^ 63 ->
  let g' := generatorOf (Run _ PublishTradeToStream g start events r) in
  FraudPatterns (stats _ g') = FraudPatterns (stats _ g) /\
  TotalTrades (stats _ g) <= TotalTrades (stats _ g') <= TotalTrades (stats _ g) + len events.
Proof.
  intros Hrate H0 Hmax. unfold Run. cbv zeta.
  match goal with
  | |- context [loop _ _ ?d events ?g0 r] =>
      exact (loop_without_fraud d events g0 r Hrate H0 Hmax)
  end.
Qed.
End NoFraud.

Section NoFraudWitness.
Import profiles models patterns generator.
Local Open Scope Z_scope.

Lemma no_fraud_rate_no_fraud_witness :
  let g := NewGenerator (list Trade) (fraudConfig 0 "ALL") [] sampleTime in
  let events := [Tick sampleTime sampleTime; Tick sampleTime sampleTime] in
  let g' := generatorOf (Run _ logSink g sampleTime events (constTape 5 0)) in
  FraudPatterns (stats _ g') = FraudPatterns (stats _ g) /\
  TotalTrades (stats _ g) <= TotalTrades (stats _ g') <= TotalTrades (stats _ g) + len events.
Proof.
  intros g events.
  apply (no_fraud_rate_no_fraud (list Trade) logSink g sampleTime events (constTape 5 0)).
  - discriminate.
  - discriminate.
  - reflexivity.
Defined.
End NoFraudWitness.

(** ** A tick of pure wash fraud *)

Section WashTick.
Import profiles models patterns generator.
Local Open Scope Z_scope.

Lemma SelectFraudProfile_wash (r : rand.Rand) :
  fst (SelectFraudProfile GetDefaultProfiles WashTrade r) = Some (profileOf "FRAUD_WASH_001").
Proof.
  unfold SelectFraudProfile.
  change (List.filter (matchesFraud WashTrade) GetDefaultProfiles)
    with [profileOf "FRAUD_WASH_001"].
  cbv zeta. change (0 <? len [profileOf "FRAUD_WASH_001"]) with true. cbv iota.
  rewrite bind_run. cbn [rand.ret fst]. unfold pick.
  replace (fst (rand.Intn (len [profileOf "FRAUD_WASH_001"]) r)) with 0; [reflexivity|].
  symmetry. change (len [profileOf "FRAUD_WASH_001"]) with 1.
  unfold rand.Intn. rewrite bind_run. cbn [rand.ret fst]. apply Z.mod_1_r.
Qed.

(** X17. With a fraud rate of 1 (or more), the wash filter, the catalog and
    price table of a new generator, and a sink that accepts every trade,
    every tick publishes exactly one wash pair of the profile FRAUD_WASH_001:
    a buy stamped with the time of the tick, then a sell of the same symbol
    and amount a few seconds later, and the fraud counter grows by 2. *)
Theorem wash_tick_publishes_pair (g : Generator (list Trade)) (now : time.Time)
    (r : rand.Rand) :
  catalog _ g = GetDefaultProfiles ->
  patternGenerator _ g = NewPatternGenerator ->
  config.FraudType (config.Generate (cfg _ g)) = "WASH"%string ->
  (1 <= config.FraudRate (config.Generate (cfg _ g)))%Q ->
  - 2 ^ 63 <= FraudPatterns (stats _ g) ->
  FraudPatterns (stats _ g) + 2 < 2 ^ 63 ->
  let out := fst (generateAndPublish _ logSink g now r) in
  exists buy sell,
    fst out = None /\
    redisClient _ (snd out) = sell :: buy :: redisClient _ g /\
    UserID buy = "FRAUD_WASH_001"%string /\ UserID sell = "FRAUD_WASH_001"%string /\
    Type_ buy = TradeTypeBuy /\ Type_ sell = TradeTypeSell /\
    Symbol buy = Symbol sell /\ Amount buy = Amount sell /\
    Timestamp buy = now /\ time.After (Timestamp sell) now = true /\
    FraudPatterns (stats _ (snd out)) = FraudPatterns (stats _ g) + 2.
Proof.
  intros Hcat Hpg Hft Hrate Hlo Hhi. cbv zeta.
  unfold generateAndPublish. rewrite bind_run.
  destruct (Float64_range r) as [_ Hu1].
  replace (Qlt_bool _ _) with true by (symmetry; apply Qlt_bool_iff; lra).
  unfold generateFraudPattern. rewrite bind_run, Hcat, Hft.
  change (parseFraudType "WASH") with WashTrade.
  rewrite SelectFraudProfile_wash.
  change (patternTrades _ g (profileOf "FRAUD_WASH_001") now)
    with (Some (InjectWashTrade (patternGenerator _ g) (profileOf "FRAUD_WASH_001") now)).
  rewrite Hpg, bind_run. cbn [rand.ret fst snd].
  destruct (InjectWashTrade_post (profileOf "FRAUD_WASH_001") now
              (snd (SelectFraudProfile GetDefaultProfiles WashTrade (snd (rand.Float64 r)))))
    as (buy & sell & Heq & Hb & Hs & Hsym & Ham & Hu & _ & _ & Htb & k & Hk & Hts).
  rewrite Heq. exists buy, sell.
  cbn [publishAll logSink fst snd redisClient stats set_stats set_redisClient
       updateStats FraudPatterns].
  assert (Hbuy : UserID buy = "FRAUD_WASH_001"%string).
  { apply (f_equal (fun l => match l with t :: _ => UserID t | [] => ""%string end)) in Heq.
    rewrite <- Heq. unfold InjectWashTrade. rewrite !bind_run. reflexivity. }
  repeat split; try assumption.
  - congruence.
  - rewrite Hts, Htb. unfold time.After, time.Add. cbn [time.nsec].
    apply Z.ltb_lt. unfold time.Second. lia.
  - rewrite !int64_small; rewrite ?int64_small; lia.
Qed.

Lemma wash_tick_publishes_pair_witness :
  let g := NewGenerator (list Trade) (fraudConfig 1 "WASH") [] sampleTime in
  let out := fst (generateAndPublish _ logSink g sampleTime (constTape 5 0)) in
  exists buy sell,
    fst out = None /\
    redisClient _ (snd out) = sell :: buy :: redisClient _ g /\
    UserID buy = "FRAUD_WASH_001"%string /\ UserID sell = "FRAUD_WASH_001"%string /\
    Type_ buy = TradeTypeBuy /\ Type_ sell = TradeTypeSell /\
    Symbol buy = Symbol sell /\ Amount buy = Amount sell /\
    Timestamp buy = sampleTime /\ time.After (Timestamp sell) sampleTime = true /\
    FraudPatterns (stats _ (snd out)) = FraudPatterns (stats _ g) + 2.
Proof.
  intros g.
  apply (wash_tick_publishes_pair g sampleTime (constTape 5 0));
    try reflexivity; discriminate.
Defined.
End WashTick.

(** ** Where a run ends *)

Section RunEnd.
Import profiles models patterns generator.
Local Open Scope Z_scope.

Variable RedisClient : Type.
Variable PublishTradeToStream : RedisClient -> Trade -> RedisClient * option string.

Lemma loop_on_time (deadline : time.Time) (pre : list Event) :
  onTime deadline pre = true ->
  forall (g : Generator RedisClient) (r : rand.Rand),
  exists g1 r1,
    loop _ PublishTradeToStream deadline pre g r = Running _ g1 r1 /\
    forall rest, loop _ PublishTradeToStream deadline (pre ++ rest) g r
                 = loop _ PublishTradeToStream deadline rest g1 r1.
Proof.
  induction pre as [|[|checked stamped] pre IH]; intros Hpre g r; cbn [onTime forallb] in Hpre.
  - exists g, r. split; reflexivity.
  - discriminate Hpre.
  - apply andb_true_iff in Hpre. destruct Hpre as [Hc Hpre].
    apply negb_true_iff in Hc. cbn [app loop]. rewrite Hc, andb_false_r.
    destruct (generateAndPublish _ PublishTradeToStream g stamped r) as [[err g0] r0].
    exact (IH Hpre g0 r0).
Qed.

(** X18. A run with a positive duration, started at a time other than the
    zero time, works through every tick checked no later than its deadline
    (start + duration: a tick exactly on the deadline still generates); it
    returns at the first cancellation or at the first tick checked after the
    deadline, with the state the earlier ticks left, and nothing that follows
    is looked at. *)
Theorem run_ends_at_cancel_or_deadline (g : Generator RedisClient) (start : time.Time)
    (pre : list Event) (r : rand.Rand) :
  0 < config.Duration (config.Generate (cfg _ g)) ->
  0 < time.nsec start ->
  onTime (time.Add start (config.Duration (config.Generate (cfg _ g)))) pre = true ->
  exists g1 r1,
    Run _ PublishTradeToStream g start pre r = Running _ g1 r1 /\
    (forall post, Run _ PublishTradeToStream g start (pre ++ Done :: post) r
                  = Stopped _ Cancelled g1) /\
    (forall checked stamped post,
       time.nsec start + config.Duration (config.Generate (cfg _ g)) < time.nsec checked ->
       Run _ PublishTradeToStream g start (pre ++ Tick checked stamped :: post) r
       = Stopped _ DeadlinePassed g1) /\
    (forall checked stamped post,
       time.nsec checked <= time.nsec start + config.Duration (config.Generate (cfg _ g)) ->
       exists g2 r2,
         Run _ PublishTradeToStream g start (pre ++ [Tick checked stamped]) r
         = Running _ g2 r2 /\
         Run _ PublishTradeToStream g start (pre ++ Tick checked stamped :: post) r
         = loop _ PublishTradeToStream
                (time.Add start (config.Duration (config.Generate (cfg _ g)))) post g2 r2).
Proof.
  intros Hd Hs Hpre. unfold Run. cbv zeta.
  set (d := config.Duration (config.Generate (cfg _ g))) in *.
  assert (Hdl : deadlineOf (cfg _ (set_stats _ g
                  (mkStatistics (TotalTrades (stats _ g)) (FraudPatterns (stats _ g))
                     (VolumeGenerated (stats _ g))
                     (initCounters (catalog _ g) (ByProfile (stats _ g)))
                     (BySymbol (stats _ g)) (StartTime (stats _ g))))) start
                = time.Add start d).
  { unfold deadlineOf. cbn [cfg set_stats]. fold d.
    replace (0 <? d) with true by (symmetry; apply Z.ltb_lt; exact Hd). reflexivity. }
  rewrite Hdl.
  set (g0 := set_stats _ g _).
  destruct (loop_on_time (time.Add start d) pre Hpre g0 r) as (g1 & r1 & Hrun & Happ).
  exists g1, r1. split; [exact Hrun|]. split; [|split].
  - intros post. rewrite Happ. reflexivity.
  - intros checked stamped post Hlate. rewrite Happ. cbn [loop].
    replace (time.IsZero (time.Add start d)) with false
      by (symmetry; unfold time.IsZero, time.Add; cbn [time.nsec]; apply Z.eqb_neq; lia).
    replace (time.After checked (time.Add start d)) with true
      by (symmetry; unfold time.After, time.Add; cbn [time.nsec]; apply Z.ltb_lt; lia).
    reflexivity.
  - intros checked stamped post Hok. rewrite !Happ. cbn [loop].
    replace (time.After checked (time.Add start d)) with false
      by (symmetry; unfold time.After, time.Add; cbn [time.nsec]; apply Z.ltb_ge; lia).
    rewrite andb_false_r.
    destruct (generateAndPublish _ PublishTradeToStream g1 stamped r1) as [[err g2] r2].
    exists g2, r2. split; reflexivity.
Qed.
End RunEnd.

Section RunEndWitness.
Import profiles models patterns generator.
Local Open Scope Z_scope.

Lemma run_ends_at_cancel_or_deadline_witness :
  let g := NewGenerator (list Trade) sampleConfig [] sampleTime in
  let deadline := time.Add sampleTime (5 * time.Minute) in
  exists g1 r1,
    Run _ logSink g sampleTime [Tick deadline deadline] (constTape 5 0) = Running _ g1 r1 /\
    (forall post, Run _ logSink g sampleTime ([Tick deadline deadline] ++ Done :: post)
                      (constTape 5 0)
                  = Stopped _ Cancelled g1).
Proof.
  intros g deadline.
  destruct (run_ends_at_cancel_or_deadline (list Trade) logSink g sampleTime
              [Tick deadline deadline] (constTape 5 0))
    as (g1 & r1 & Hrun & Hcancel & _).
  - reflexivity.
  - reflexivity.
  - reflexivity.
  - exists g1, r1. split; [exact Hrun|exact Hcancel].
Defined.
End RunEndWitness.

(** ** The catalog against the injector and the price table *)

Section CatalogConsistency.
Import profiles models patterns.
Local Open Scope Q_scope.

Lemma catalog_active_hours :
  Forall (fun p => Forall (fun hour => (9 <= hour <= 16)%Z) (ActiveHours p)) GetDefaultProfiles.
Proof. repeat constructor; lia. Qed.

Lemma IsActiveNow_outside (p : TraderProfile) (now : time.Time) :
  Forall (fun hour => (9 <= hour <= 16)%Z) (ActiveHours p) ->
  (time.Hour now < 9 \/ 16 < time.Hour now)%Z -> IsActiveNow p now = false.
Proof.
  unfold IsActiveNow. intros Hall Hnow.
  induction Hall as [|hour hours Hh _ IH]; [reflexivity|].
  cbn [existsb]. rewrite IH, orb_false_r. apply Z.eqb_neq. lia.
Qed.

(** X19. The timing variant of an anomaly falls outside the active hours of
    every profile of the catalog: whatever profile the anomaly is injected
    for, and wherever the base time is displayed, provided no two offsets
    of its location are more than three hours apart (a daylight-saving
    change moves the clock by one hour), no catalog profile is active
    ([IsActiveNow]) at the timestamp of the trade. The hour the timestamp
    shows is 23 or at most 8, the catalog hours lie within 9..16. *)
Theorem night_anomaly_outside_active_hours (p q : TraderProfile) (baseTime : time.Time)
    (r : rand.Rand) :
  In p GetDefaultProfiles ->
  offsetsWithin 10800 (time.Location_ baseTime) = true ->
  fst (rand.Intn 4 r) = 1%Z ->
  IsActiveNow p (Timestamp (fst (InjectAnomaly NewPatternGenerator q baseTime r))) = false.
Proof.
  intros Hin Hw Hv.
  destruct (InjectAnomaly_variants q baseTime r) as (_ & H1 & _).
  destruct (H1 Hv) as ((h & mi & se & Hh & Hmi & Hse & Hts) & _).
  rewrite Hts.
  apply IsActiveNow_outside.
  - pose proof catalog_active_hours as Hcat. rewrite List.Forall_forall in Hcat.
    exact (Hcat p Hin).
  - pose proof (Date_night_hour (time.Year baseTime) (time.Month baseTime) (time.Day baseTime)
                  (2 + h) mi se (time.Location_ baseTime) Hw) as Hn.
    cbv zeta in Hn. lia.
Qed.

Lemma night_anomaly_outside_active_hours_witness :
  IsActiveNow (profileOf "HFT_002")
    (Timestamp (fst (InjectAnomaly NewPatternGenerator (profileOf "FRAUD_ANOMALY_001")
                                   springForwardNoon
                                   (tapeOf [rand.mkCell 1 0] (rand.mkCell 0 0)))))
  = false.
Proof.
  apply (night_anomaly_outside_active_hours (profileOf "HFT_002") (profileOf "FRAUD_ANOMALY_001")
           springForwardNoon (tapeOf [rand.mkCell 1 0] (rand.mkCell 0 0))).
  - vm_compute. tauto.
  - reflexivity.
  - reflexivity.
Defined.

Lemma GetRandomSymbol_support (p : TraderProfile) :
  post (GetRandomSymbol p)
       (fun s => s = "AAPL"%string \/ In s (TypicalSymbols p) \/ In s allSymbols).
Proof.
  unfold GetRandomSymbol. intros r.
  destruct (len (TypicalSymbols p) =? 0)%Z eqn:E; [left; reflexivity|].
  apply Z.eqb_neq in E.
  assert (Hlen : (0 < len (TypicalSymbols p))%Z) by (unfold len in *; lia).
  rewrite bind_run. destruct (Qlt_bool _ 0.8); rewrite bind_run; cbn [rand.ret fst]; right.
  - left. apply index_In. apply (Intn_range _ Hlen).
  - right. apply index_In. apply (Intn_range (len allSymbols)). reflexivity.
Qed.

Lemma catalog_symbols_listed :
  forallb (fun p => forallb (fun s => bool_decide (is_Some (getSymbolPrices !! s)))
                            ("AAPL"%string :: TypicalSymbols p ++ allSymbols))
          GetDefaultProfiles = true.
Proof. vm_compute. reflexivity. Qed.

(** X20. Every symbol a profile of the catalog can trade is listed in the
    price table: whatever the draws, the symbol [GetRandomSymbol] returns for
    a catalog profile has a table price, which is positive, so that no trade
    of the normal path falls back on the default price. *)
Theorem catalog_symbols_are_priced (p : TraderProfile) (r : rand.Rand) :
  In p GetDefaultProfiles ->
  exists basePrice,
    symbolPrices NewPatternGenerator !! fst (GetRandomSymbol p r) = Some basePrice /\
    0 < basePrice.
Proof.
  intros Hin.
  pose proof catalog_symbols_listed as Hall. rewrite forallb_forall in Hall.
  specialize (Hall p Hin). rewrite forallb_forall in Hall.
  assert (Hs : In (fst (GetRandomSymbol p r)) ("AAPL"%string :: TypicalSymbols p ++ allSymbols)).
  { destruct (GetRandomSymbol_support p r) as [->|[H|H]].
    - left. reflexivity.
    - right. apply in_or_app. left. exact H.
    - right. apply in_or_app. right. exact H. }
  specialize (Hall _ Hs). apply bool_decide_eq_true in Hall. destruct Hall as [b Hb].
  exists b. split; [exact Hb|]. exact (table_positive _ _ Hb).
Qed.

Lemma catalog_symbols_are_priced_witness :
  exists basePrice,
    symbolPrices NewPatternGenerator
      !! fst (GetRandomSymbol (profileOf "USER_004") (constTape 2 0)) = Some basePrice /\
    0 < basePrice.
Proof.
  apply (catalog_symbols_are_priced (profileOf "USER_004") (constTape 2 0)).
  vm_compute. tauto.
Defined.
End CatalogConsistency.

(** ** The trade of the normal path *)

Section NormalTrade.
Import profiles models patterns generator.
Local Open Scope Q_scope.

Lemma GetPrice_for_symbol (pg : PatternGenerator) (symbol : string) :
  post (GetPrice pg symbol)
       (fun price => Qabs (price - basePriceOf pg symbol) <= 0.01 * Qabs (basePriceOf pg symbol)).
Proof.
  unfold GetPrice. eapply post_bind; [apply Float64_range|]. intros u [Hu0 Hu1].
  apply post_ret. set (b := basePriceOf pg symbol).
  assert (Hdiff : b * (1 + (u - 0.5) * 0.02) - b == b * ((u - 0.5) * 0.02)) by ring.
  rewrite Hdiff, Qabs_Qmult.
  assert (Hf : Qabs ((u - 0.5) * 0.02) <= 0.01)
    by (apply Qabs_Qle_condition; split; lra).
  pose proof (Qabs_nonneg b) as Hb.
  assert (0 <= Qabs b * (0.01 - Qabs ((u - 0.5) * 0.02)))
    by (apply Qmult_le_0_compat; lra).
  lra.
Qed.

(** X21. The trade of the normal path belongs to its profile and is priced
    for its own symbol: it carries the user identity of the profile and the
    timestamp it was asked for, its symbol is AAPL, a typical symbol of the
    profile or a symbol of the exploration lists, and its price is within 1%
    of the base price of that very symbol. *)
Theorem generateTrade_fields (RedisClient : Type) (g : Generator RedisClient)
    (p : TraderProfile) (timestamp : time.Time) (r : rand.Rand) :
  let t := fst (generateTrade _ g p timestamp r) in
  UserID t = profiles.UserID p /\
  Timestamp t = timestamp /\
  (Symbol t = "AAPL"%string \/ In (Symbol t) (TypicalSymbols p) \/ In (Symbol t) allSymbols) /\
  Qabs (Price t - basePriceOf (patternGenerator _ g) (Symbol t))
    <= 0.01 * Qabs (basePriceOf (patternGenerator _ g) (Symbol t)).
Proof.
  cbv zeta. revert r.
  change (post (generateTrade _ g p timestamp)
            (fun t => UserID t = profiles.UserID p /\ Timestamp t = timestamp /\
                      (Symbol t = "AAPL"%string \/ In (Symbol t) (TypicalSymbols p)
                       \/ In (Symbol t) allSymbols) /\
                      Qabs (Price t - basePriceOf (patternGenerator _ g) (Symbol t))
                        <= 0.01 * Qabs (basePriceOf (patternGenerator _ g) (Symbol t)))).
  unfold generateTrade.
  eapply post_bind; [apply GetRandomSymbol_support|]. intros symbol Hsym.
  draw amount.
  eapply post_bind; [apply GetPrice_for_symbol|]. intros price Hprice.
  draw id.
  draw ty.
  apply post_ret. cbn [UserID Timestamp Symbol Price]. repeat split; assumption.
Qed.
End NormalTrade.

(** ** What the engine leaves alone *)

Section Setup.
Import profiles models patterns generator.
Local Open Scope Z_scope.

Variable RedisClient : Type.
Variable PublishTradeToStream : RedisClient -> Trade -> RedisClient * option string.

Lemma sameSetup_refl (g : Generator RedisClient) : sameSetup g g.
Proof. repeat split. Qed.

Lemma sameSetup_trans (g g1 g2 : Generator RedisClient) :
  sameSetup g g1 -> sameSetup g1 g2 -> sameSetup g g2.
Proof.
  intros (H1 & H2 & H3) (H4 & H5 & H6). repeat split; congruence.
Qed.

Lemma generateNormalTrade_setup (g : Generator RedisClient) (now : time.Time) (r : rand.Rand) :
  sameSetup g (snd (fst (generateNormalTrade _ PublishTradeToStream g now r))).
Proof.
  unfold generateNormalTrade. rewrite bind_run.
  destruct (fst (SelectProfile _ _ _ _ r)) as [profile|].
  - rewrite bind_run.
    destruct (PublishTradeToStream _ _) as [rc [err|]]; cbn [rand.ret fst snd];
      repeat split.
  - cbn [rand.ret fst snd]. apply sameSetup_refl.
Qed.

Lemma publishAll_setup (profile : TraderProfile) (trades : list Trade) :
  forall g : Generator RedisClient,
  sameSetup g (snd (publishAll _ PublishTradeToStream g profile trades)).
Proof.
  induction trades as [|trade rest IH]; intros g; cbn [publishAll].
  - apply sameSetup_refl.
  - destruct (PublishTradeToStream _ _) as [rc [err|]].
    + repeat split.
    + eapply sameSetup_trans; [|apply IH]. repeat split.
Qed.

Lemma generateAndPublish_setup (g : Generator RedisClient) (now : time.Time) (r : rand.Rand) :
  sameSetup g (snd (fst (generateAndPublish _ PublishTradeToStream g now r))).
Proof.
  unfold generateAndPublish. rewrite bind_run.
  destruct (Qlt_bool _ _); [|apply generateNormalTrade_setup].
  unfold generateFraudPattern. rewrite bind_run.
  destruct (fst (SelectFraudProfile _ _ _)) as [p|]; [|apply generateNormalTrade_setup].
  destruct (patternTrades _ g p now) as [pattern|]; [|apply generateNormalTrade_setup].
  rewrite bind_run. cbn [rand.ret fst snd]. apply publishAll_setup.
Qed.

Lemma loop_setup (deadline : time.Time) (events : list Event) :
  forall (g : Generator RedisClient) (r : rand.Rand),
  sameSetup g (generatorOf (loop _ PublishTradeToStream deadline events g r)).
Proof.
  induction events as [|[|checked stamped] events IH]; intros g r; cbn [loop generatorOf].
  - apply sameSetup_refl.
  - apply sameSetup_refl.
  - destruct (negb (time.IsZero deadline) && time.After checked deadline);
      [apply sameSetup_refl|].
    pose proof (generateAndPublish_setup g stamped r) as Hstep.
    destruct (generateAndPublish _ PublishTradeToStream g stamped r) as [[err g1] r1].
    cbn [fst snd] in Hstep. eapply sameSetup_trans; [exact Hstep|apply IH].
Qed.

Variable NewRedisClient : RedisConfig -> RedisClient + string.
Variable Ping : RedisClient -> option string.

(** With a client that is created and answers the ping, the command is the
    run of the connected case, its error wrapped. *)
Lemma runGenerateCommand_connected (v : config.Viper) (c : config.Config)
    (redisClient : RedisClient) (created start : time.Time) (events : list Event)
    (r : rand.Rand) :
  config.LoadConfig v = inl c ->
  NewRedisClient (main.redisConfigOf c) = inl redisClient ->
  Ping redisClient = None ->
  main.runGenerateCommand _ NewRedisClient Ping PublishTradeToStream v created start events r
  = match main.runGenerate _ PublishTradeToStream v redisClient created start events r with
    | inl err => inl (main.ErrLoadConfig err)
    | inr o => inr o
    end.
Proof.
  intros Hload Hnew Hping. unfold main.runGenerateCommand, main.runGenerate.
  rewrite Hload, Hnew, Hping. reflexivity.
Qed.

(** X22. The generate command runs a loaded configuration on a client that
    answered, or does not run: when the settings do not load it returns the
    error of [LoadConfig], wrapped, without connecting; when the client
    cannot be created from the loaded Redis settings, or does not answer
    the ping, it returns that error, wrapped, without running; otherwise it
    runs the generator on that client with a number of trades per second
    between 1 and 10000, and the generator it ran still holds, whenever the
    run is looked at and whatever the sink did, the loaded configuration,
    the catalog and the price table it was created with. *)
Theorem runGenerate_keeps_setup (v : config.Viper)
    (created start : time.Time) (events : list Event) (r : rand.Rand) :
  let result :=
    main.runGenerateCommand _ NewRedisClient Ping PublishTradeToStream
                            v created start events r in
  match config.LoadConfig v with
  | inr err => result = inl (main.ErrLoadConfig err)
  | inl c =>
      match NewRedisClient (main.redisConfigOf c) with
      | inr err => result = inl (main.ErrConnect err)
      | inl redisClient =>
          match Ping redisClient with
          | Some err => result = inl (main.ErrPing err)
          | None =>
              exists o,
                result = inr o /\
                o = Run _ PublishTradeToStream (NewGenerator _ c redisClient created)
                        start events r /\
                1 <= config.TPS (config.Generate c) <= 10000 /\
                cfg _ (generatorOf o) = c /\
                catalog _ (generatorOf o) = GetDefaultProfiles /\
                patternGenerator _ (generatorOf o) = NewPatternGenerator
          end
      end
  end.
Proof.
  cbv zeta. unfold main.runGenerateCommand.
  destruct (config.LoadConfig v) as [c|err] eqn:Hload; [|reflexivity].
  destruct (NewRedisClient (main.redisConfigOf c)) as [redisClient|err]; [|reflexivity].
  destruct (Ping redisClient) as [err|]; [reflexivity|].
  eexists. split; [reflexivity|]. split; [reflexivity|]. split.
  { unfold config.LoadConfig in Hload.
    destruct (config.Validate _) eqn:Ev in Hload; [discriminate Hload|].
    injection Hload as <-. apply (Validate_TPS _ Ev). }
  unfold Run.
  match goal with
  | |- context [loop _ _ ?d events ?g0 r] =>
      destruct (loop_setup d events g0 r) as (H1 & H2 & H3)
  end.
  rewrite H1, H2, H3. repeat split.
Qed.
End Setup.

(** ** The fraud branch on the catalog *)

Section FraudBranch.
Import profiles models patterns generator.
Local Open Scope Z_scope.

Lemma catalog_fraud_profiles_have_injector :
  forallb (fun p => negb (TraderType_eqb (profiles.Type_ p) FraudTrader)
                    || FraudType_eqb (FraudPattern p) WashTrade
                    || FraudType_eqb (FraudPattern p) VelocitySpike
                    || FraudType_eqb (FraudPattern p) Anomaly)
          GetDefaultProfiles = true.
Proof. reflexivity. Qed.

Lemma catalog_matches_every_filter (s : string) :
  List.filter (matchesFraud (parseFraudType s)) GetDefaultProfiles <> [].
Proof.
  unfold parseFraudType.
  destruct (String.eqb s "WASH"); [discriminate|].
  destruct (String.eqb s "VELOCITY"); [discriminate|].
  destruct (String.eqb s "ANOMALY"); discriminate.
Qed.

(** X23. With the catalog of a new generator the fraud branch never falls
    back on a normal trade: whatever string names the fraud filter (an
    unknown one counts as ALL), a Fraud profile is selected, its pattern has
    an injector, and the branch is the publication of the trades of that
    injector. *)
Theorem fraud_branch_never_falls_back (RedisClient : Type)
    (PublishTradeToStream : RedisClient -> Trade -> RedisClient * option string)
    (g : Generator RedisClient) (now : time.Time) (r : rand.Rand) :
  catalog _ g = GetDefaultProfiles ->
  exists (p : TraderProfile) (pattern : rand.Gen (list Trade)),
    fst (SelectFraudProfile (catalog _ g)
           (parseFraudType (config.FraudType (config.Generate (cfg _ g)))) r) = Some p /\
    In p GetDefaultProfiles /\ profiles.Type_ p = FraudTrader /\
    patternTrades _ g p now = Some pattern /\
    fst (generateFraudPattern _ PublishTradeToStream g now r)
    = publishAll _ PublishTradeToStream g p
        (fst (pattern (snd (SelectFraudProfile (catalog _ g)
                (parseFraudType (config.FraudType (config.Generate (cfg _ g)))) r)))).
Proof.
  intros Hcat. set (ft := parseFraudType _).
  destruct (SelectFraudProfile_cases (catalog _ g) ft r) as [[Hnil _]|(p & Hp & Hin)].
  { exfalso. rewrite Hcat in Hnil. exact (catalog_matches_every_filter _ Hnil). }
  rewrite Hcat in Hin. apply List.filter_In in Hin. destruct Hin as [Hin Hmatch].
  apply matchesFraud_spec in Hmatch. destruct Hmatch as [Hty _].
  pose proof catalog_fraud_profiles_have_injector as Hall.
  rewrite forallb_forall in Hall. specialize (Hall p Hin).
  assert (Hpat : exists pattern, patternTrades _ g p now = Some pattern).
  { unfold patternTrades. apply TraderType_eqb_eq in Hty. rewrite Hty in Hall.
    destruct (FraudPattern p); try discriminate Hall; eexists; reflexivity. }
  destruct Hpat as [pattern Hpat].
  exists p, pattern. repeat split; try assumption.
  unfold generateFraudPattern. rewrite bind_run. fold ft. rewrite Hp, Hpat.
  rewrite bind_run. reflexivity.
Qed.

Lemma fraud_branch_never_falls_back_witness :
  let g := NewGenerator (list Trade) (fraudConfig 1 "wash") [] sampleTime in
  exists (p : TraderProfile) (pattern : rand.Gen (list Trade)),
    fst (SelectFraudProfile (catalog _ g)
           (parseFraudType (config.FraudType (config.Generate (cfg _ g)))) (constTape 5 0))
    = Some p /\
    In p GetDefaultProfiles /\ profiles.Type_ p = FraudTrader /\
    patternTrades _ g p sampleTime = Some pattern /\
    fst (generateFraudPattern _ logSink g sampleTime (constTape 5 0))
    = publishAll _ logSink g p
        (fst (pattern (snd (SelectFraudProfile (catalog _ g)
                (parseFraudType (config.FraudType (config.Generate (cfg _ g))))
                (constTape 5 0))))).
Proof.
  intros g.
  apply (fraud_branch_never_falls_back (list Trade) logSink g sampleTime (constTape 5 0)).
  reflexivity.
Defined.
End FraudBranch.
